(** * CS-330 scene renderer: texture registry, material binder, shadow pass,
      colour pass and ripple control

    A shallow embedding of [Source/SceneManager.cpp], [Source/ViewManager.cpp]
    and [Source/ViewManager.h].  Member functions become functions in a small
    monad over the program state ([World]); every call that leaves the two
    classes (OpenGL, GLFW, stb_image, the shader manager, the mesh service)
    is recorded, in order, in the list of calls an operation returns.
    The lines the code prints on [std::cout] are not recorded.

    Layout: part I holds the definitions (numbers, the services the classes
    call, the two classes), part II the lemmas and theorems. *)

From stdpp Require Import gmap strings list.
From Stdlib Require Import ZArith Lia.
From Stdlib Require Import Floats.SpecFloat.

#[local] Open Scope string_scope.
#[local] Open Scope list_scope.
#[local] Open Scope Z_scope.

(* ===================================================================== *)
(** * Part I: definitions                                                 *)
(* ===================================================================== *)

(** ** C++ [float]: IEEE-754 binary32, round to nearest even *)

Module F32.
Definition prec : Z := 24.
Definition emax : Z := 128.

Definition float : Type := spec_float.

(** [(float)n] for an integer [n]. *)
Definition of_Z (n : Z) : float := binary_normalize prec emax n 0 false.

Definition add : float -> float -> float := SFadd prec emax.
Definition sub : float -> float -> float := SFsub prec emax.
Definition mul : float -> float -> float := SFmul prec emax.
Definition div : float -> float -> float := SFdiv prec emax.
Definition ltb : float -> float -> bool := SFltb.
Definition leb : float -> float -> bool := SFleb.

(** The literal [n/d] written in decimal in the source ([0.10f] is
    [lit 1 10], [-32.25f] is [lit (-3225) 100]): the binary32 number
    nearest to the quotient.  Numerator and denominator are below 2^24,
    hence exact, and the division rounds once. *)
Definition lit (n d : Z) : float := div (of_Z n) (of_Z d).

Definition is_nan (x : float) : bool :=
  match x with S754_nan => true | _ => false end.

(** Zero or a finite number: neither an infinity nor NaN. *)
Definition is_finite (x : float) : bool :=
  match x with S754_zero _ | S754_finite _ _ _ => true | _ => false end.

(** [glm::max], [glm::min] and [glm::clamp] on scalars, as the GLSL
    specification (and glm's [func_common.inl]) define them:
    [max(x,y) = (x < y) ? y : x], [min(x,y) = (y < x) ? y : x],
    [clamp(x,lo,hi) = min(max(x,lo),hi)]. *)
Definition max (x y : float) : float := if ltb x y then y else x.
Definition min (x y : float) : float := if ltb y x then y else x.
Definition clamp (x minVal maxVal : float) : float := min (max x minVal) maxVal.
End F32.

Abbreviation float := F32.float.

(* Literals stay as written under [simpl] and [cbn]. *)
Arguments F32.lit : simpl never.
Arguments F32.of_Z : simpl never.
Arguments F32.add : simpl never.
Arguments F32.sub : simpl never.
Arguments F32.mul : simpl never.
Arguments F32.div : simpl never.
Arguments F32.ltb : simpl never.
Arguments F32.leb : simpl never.

(** [glm::vec3]: three floats.  Component-wise arithmetic is glm's. *)
Record vec3 : Type := Vec3 { vx : float; vy : float; vz : float }.

(** [glm::vec3(s)]: the same scalar in the three components. *)
Definition vec3_splat (s : float) : vec3 := Vec3 s s s.
Definition vec3_add (a b : vec3) : vec3 :=
  Vec3 (F32.add (vx a) (vx b)) (F32.add (vy a) (vy b)) (F32.add (vz a) (vz b)).
Definition vec3_sub (a b : vec3) : vec3 :=
  Vec3 (F32.sub (vx a) (vx b)) (F32.sub (vy a) (vy b)) (F32.sub (vz a) (vz b)).
Definition vec3_scale (a : vec3) (s : float) : vec3 :=
  Vec3 (F32.mul (vx a) s) (F32.mul (vy a) s) (F32.mul (vz a) s).

(** Modelled from the spec: the camera service ("a camera world
    position/direction each frame"); camera.h is not among the sources.
    These are the members ViewManager.cpp reads and writes. *)
Record Camera : Type := {
  Position : vec3;
  Front : vec3;
  Up : vec3;
  Right : vec3;
  Zoom : float;
  MovementSpeed : float
}.

(** ** The glm matrix library

    glm is a library outside the repository.  Its 4x4 matrices and the
    functions built on square roots and trigonometry are an interface here:
    every statement below holds for any implementation of it. *)
Class Glm : Type := {
  mat4 : Type;
  (** [glm::mat4(s)]: [s] on the diagonal. *)
  mat4_diag : float -> mat4;
  (** [a * b] on matrices. *)
  mat4_mul : mat4 -> mat4 -> mat4;
  glm_radians : float -> float;
  glm_scale : vec3 -> mat4;
  glm_rotate : float -> vec3 -> mat4;
  glm_translate : vec3 -> mat4;
  glm_perspective : float -> float -> float -> float -> mat4;
  glm_ortho : float -> float -> float -> float -> float -> float -> mat4;
  glm_lookAt : vec3 -> vec3 -> vec3 -> mat4;
  glm_normalize : vec3 -> vec3;
  glm_length : vec3 -> float;
  (** [glm::mix(x, y, a)] on vectors with a scalar weight. *)
  glm_mix : vec3 -> vec3 -> float -> vec3;
  (** [Camera::GetViewMatrix]. *)
  Camera_GetViewMatrix : Camera -> mat4
}.

(** A glm in which a matrix is the expression that built it.  Two equal
    expressions denote equal matrices in every implementation; it is used to
    run the model on concrete inputs. *)
Inductive mat4_expr : Type :=
  | MDiag (s : float)
  | MMul (a b : mat4_expr)
  | MScale (v : vec3)
  | MRotate (angle : float) (axis : vec3)
  | MTranslate (v : vec3)
  | MPerspective (fovy aspect zNear zFar : float)
  | MOrtho (l r b t n f : float)
  | MLookAt (eye center up : vec3)
  | MView (c : Camera).

Definition vec3_dot (a b : vec3) : float :=
  F32.add (F32.add (F32.mul (vx a) (vx b)) (F32.mul (vy a) (vy b)))
          (F32.mul (vz a) (vz b)).

#[export] Instance glm_symbolic : Glm := {|
  mat4 := mat4_expr;
  mat4_diag := MDiag;
  mat4_mul := MMul;
  glm_radians := fun deg => F32.mul deg (S754_finite false 9370165 (-29));
  glm_scale := MScale;
  glm_rotate := MRotate;
  glm_translate := MTranslate;
  glm_perspective := MPerspective;
  glm_ortho := MOrtho;
  glm_lookAt := MLookAt;
  glm_normalize := fun v =>
    vec3_scale v (F32.div (F32.of_Z 1) (SFsqrt F32.prec F32.emax (vec3_dot v v)));
  glm_length := fun v => SFsqrt F32.prec F32.emax (vec3_dot v v);
  glm_mix := fun x y a =>
    vec3_add (vec3_scale x (F32.sub (F32.of_Z 1) a)) (vec3_scale y a);
  Camera_GetViewMatrix := MView
|}.

(** ** Services the two classes call *)

(** Modelled from the spec: the mesh-draw service, [DrawPlane()],
    [DrawCylinder(hasTop, hasBottom, hasSides)] and
    [DrawTaperedCylinder(hasTop, hasBottom, hasSides)]; ShapeMeshes.h is not
    among the sources.  The three flags are the call's arguments in order. *)
Inductive Mesh : Type :=
  | PlaneMesh
  | CylinderMesh (bDrawTop bDrawBottom bDrawSides : bool)
  | TaperedCylinderMesh (bDrawTop bDrawBottom bDrawSides : bool).

Inductive GLenum : Type :=
  | GL_TEXTURE_WRAP_S | GL_TEXTURE_WRAP_T
  | GL_TEXTURE_MIN_FILTER | GL_TEXTURE_MAG_FILTER
  | GL_REPEAT | GL_LINEAR
  | GL_RGB8 | GL_RGBA8 | GL_RGB | GL_RGBA
  | GL_VIEWPORT | GL_DEPTH_TEST | GL_DEPTH_BUFFER_BIT.

Inductive Key : Type :=
  | GLFW_KEY_ESCAPE | GLFW_KEY_W | GLFW_KEY_S | GLFW_KEY_A | GLFW_KEY_D
  | GLFW_KEY_Q | GLFW_KEY_SPACE | GLFW_KEY_E | GLFW_KEY_LEFT_CONTROL
  | GLFW_KEY_P | GLFW_KEY_O | GLFW_KEY_I | GLFW_KEY_U.

(** What [stbi_load] reports about a file it could decode. *)
Record Image : Type := { width : Z; height : Z; colorChannels : Z }.

Inductive Fault : Type :=
  | NullDereference   (* a member call through a null or dangling pointer *)
  | OutOfBounds.      (* an index outside a fixed-size array *)

(** Modelled from the spec: the [TEXTURE_INFO] and [OBJECT_MATERIAL] structs
    of SceneManager.h, which is not among the sources.  A texture entry
    holds a tag and a graphics handle ([uint32_t]); a material holds a tag,
    two colours and a shininess. *)
Record TEXTURE_INFO : Type := { tex_tag : string; ID : Z }.

Record OBJECT_MATERIAL : Type := {
  diffuseColor : vec3;
  specularColor : vec3;
  shininess : float;
  mat_tag : string
}.

(** Modelled from the spec: the capacity of [m_textureIDs] ("source used
    16"; BindGLTextures: "There are up to 16 slots"). *)
Definition MAX_TEXTURES : Z := 16.

(** Implicit conversion of a [uint32_t] to [int] (two's complement). *)
Definition int_of_uint32 (u : Z) : Z :=
  if u <? 2^31 then u else u - 2^32.

Section Model.
Context `{G : Glm}.

(** A value written to a named uniform. *)
Inductive UniformValue : Type :=
  | UInt (v : Z)
  | UFloat (v : float)
  | UVec2 (x y : float)
  | UVec3 (v : vec3)
  | UVec4 (r g b a : float)
  | UMat4 (m : mat4)
  | USampler2D (slot : Z).

(** Modelled from the spec: the shader/uniform service ("named-uniform
    setters ... plus activate program"); ShaderManager.h is not among the
    sources.  A shader manager is the store of the uniforms written through
    it. *)
Record ShaderManager : Type := { uniforms : gmap string UniformValue }.

Definition set_uniform (name : string) (v : UniformValue) (sh : ShaderManager)
  : ShaderManager :=
  {| uniforms := <[name := v]> (uniforms sh) |}.

(** Every call that leaves the two classes, with its arguments: [c_f] records
    a call of [f]. *)
Inductive Call : Type :=
  | c_stbi_set_flip_vertically_on_load (flag : bool)
  | c_stbi_load (filename : string)
  | c_stbi_image_free
  | c_glGenTextures (name : Z)
  | c_glBindTexture (texture : Z)
  | c_glTexParameteri (pname param : GLenum)
  | c_glTexImage2D (internalformat : GLenum) (w h : Z) (format : GLenum)
  | c_glGenerateMipmap
  | c_glActiveTexture (slot : Z)
  | c_glDepthMask (flag : bool)
  | c_glGetIntegerv (pname : GLenum) (data : Z * Z * Z * Z)
  | c_glViewport (x y w h : Z)
  | c_glBindFramebuffer (framebuffer : Z)
  | c_glClear (mask : GLenum)
  | c_glEnable (cap : GLenum)
  | c_glfwSetWindowShouldClose (flag : bool)
  | c_glfwCreateWindow (w h : Z) (title : string)
  | c_glfwTerminate
  | c_glfwMakeContextCurrent (window : Z)
  | c_glfwSetInputMode_cursor_disabled (window : Z)
  | c_glfwSetCursorPosCallback (window : Z)
  | c_glfwSetScrollCallback (window : Z)
  | c_glEnable_blend
  | c_glBlendFunc_src_alpha_one_minus_src_alpha
  | c_shader_use (program : Z)
  | c_shader_set (program : Z) (name : string) (v : UniformValue)
  | c_Draw (m : Mesh).

(** The part of the OpenGL context the code reads back or the theorems
    observe. *)
Record GLState : Type := {
  gl_viewport : Z * Z * Z * Z;
  gl_framebuffer : Z;            (* bound GL_FRAMEBUFFER, 0 = default *)
  gl_active_texture : Z;         (* selected unit, as an offset from GL_TEXTURE0 *)
  gl_texture_2d : gmap Z Z;      (* unit -> texture bound to GL_TEXTURE_2D *)
  gl_depth_test : bool;
  gl_depth_mask : bool;
  gl_program : Z;                (* shader manager last put in use *)
  gl_next_name : Z               (* next unused texture name *)
}.

Record SceneManager : Type := {
  m_pShaderManager : Z;                 (* pointer, 0 = NULL *)
  m_textureIDs : list TEXTURE_INFO;     (* TEXTURE_INFO m_textureIDs[16] *)
  m_loadedTextures : Z;
  m_objectMaterials : list OBJECT_MATERIAL;
  m_shadowFBO : Z;
  m_shadowDepthTexture : Z;
  m_shadowMapWidth : Z;
  m_shadowMapHeight : Z;
  m_pDepthShaderManager : Z;            (* pointer, 0 = nullptr *)
  m_spotLightSpaceMatrix : mat4
}.

Record ViewManager : Type := {
  vm_pShaderManager : Z;                (* m_pShaderManager, 0 = NULL *)
  m_pWindow : Z;                        (* GLFWwindow*, 0 = NULL *)
  m_bPerspectiveProjection : bool;
  m_bPKeyPressed : bool;
  m_bOKeyPressed : bool;
  m_currentVelocity : vec3;
  m_accelerationRate : float;
  m_decelerationRate : float;
  m_mouseSensitivity : float;
  m_movementSpeedMultiplier : float;
  m_rippleAmplitude : float;
  m_rippleStep : float;
  m_rippleMin : float;
  m_rippleMax : float
}.

(** The program state: the two objects, the file-scope variables of
    ViewManager.cpp that the modelled functions use, the shader managers
    the pointers refer to (one store, so that two pointers to the same
    manager alias), the OpenGL context, and what the outside world answers
    (decodable image files, keys held down, the clock). *)
Record World : Type := {
  scene : SceneManager;
  view : ViewManager;
  g_pCamera : option Camera;
  gDeltaTime : float;
  gLastFrame : float;
  heap : gmap Z ShaderManager;
  gl : GLState;
  files : gmap string Image;
  keys : Key -> bool;
  clock : float                   (* (float)glfwGetTime() *)
}.

(** ** The monad: state, the calls made, and faults *)

Inductive outcome (A : Type) : Type :=
  | Ok (a : A) (w : World) (calls : list Call)
  | Crash (f : Fault).
Arguments Ok {A} a w calls.
Arguments Crash {A} f.

Definition M (A : Type) : Type := World -> outcome A.

Definition ret {A} (a : A) : M A := fun w => Ok a w [].

Definition bind {A B} (m : M A) (f : A -> M B) : M B := fun w =>
  match m w with
  | Ok a w1 c1 =>
      match f a w1 with
      | Ok b w2 c2 => Ok b w2 (c1 ++ c2)
      | Crash e => Crash e
      end
  | Crash e => Crash e
  end.

Definition crash {A} (f : Fault) : M A := fun _ => Crash f.
Definition get : M World := fun w => Ok w w [].
Definition put (w : World) : M unit := fun _ => Ok tt w [].
Definition call (c : Call) : M unit := fun w => Ok tt w [c].

End Model.

Arguments Ok {G A} a w calls.
Arguments Crash {G A} f.

Declare Scope m_scope.
Delimit Scope m_scope with M.
Notation "x <- m ;; k" := (bind m (fun x => k))
  (at level 20, m at level 99, k at level 200, only parsing) : m_scope.
Notation "m ;; k" := (bind m (fun _ => k))
  (at level 100, k at level 200, only parsing, right associativity) : m_scope.
#[local] Open Scope m_scope.

Section Scene.
Context `{G : Glm}.

(** ** State updates *)

Definition with_scene (f : SceneManager -> SceneManager) (w : World) : World :=
  {| scene := f (scene w); view := view w; g_pCamera := g_pCamera w;
     gDeltaTime := gDeltaTime w; gLastFrame := gLastFrame w; heap := heap w;
     gl := gl w; files := files w; keys := keys w; clock := clock w |}.

Definition with_view (f : ViewManager -> ViewManager) (w : World) : World :=
  {| scene := scene w; view := f (view w); g_pCamera := g_pCamera w;
     gDeltaTime := gDeltaTime w; gLastFrame := gLastFrame w; heap := heap w;
     gl := gl w; files := files w; keys := keys w; clock := clock w |}.

Definition with_heap (f : gmap Z ShaderManager -> gmap Z ShaderManager)
    (w : World) : World :=
  {| scene := scene w; view := view w; g_pCamera := g_pCamera w;
     gDeltaTime := gDeltaTime w; gLastFrame := gLastFrame w; heap := f (heap w);
     gl := gl w; files := files w; keys := keys w; clock := clock w |}.

Definition with_gl (f : GLState -> GLState) (w : World) : World :=
  {| scene := scene w; view := view w; g_pCamera := g_pCamera w;
     gDeltaTime := gDeltaTime w; gLastFrame := gLastFrame w; heap := heap w;
     gl := f (gl w); files := files w; keys := keys w; clock := clock w |}.

Definition with_camera (c : option Camera) (w : World) : World :=
  {| scene := scene w; view := view w; g_pCamera := c;
     gDeltaTime := gDeltaTime w; gLastFrame := gLastFrame w; heap := heap w;
     gl := gl w; files := files w; keys := keys w; clock := clock w |}.

Definition with_frame_time (dt last : float) (w : World) : World :=
  {| scene := scene w; view := view w; g_pCamera := g_pCamera w;
     gDeltaTime := dt; gLastFrame := last; heap := heap w;
     gl := gl w; files := files w; keys := keys w; clock := clock w |}.

Definition modify (f : World -> World) : M unit := fun w => Ok tt (f w) [].

Definition set_registry (ids : list TEXTURE_INFO) (n : Z) (s : SceneManager)
  : SceneManager :=
  {| m_pShaderManager := m_pShaderManager s; m_textureIDs := ids;
     m_loadedTextures := n; m_objectMaterials := m_objectMaterials s;
     m_shadowFBO := m_shadowFBO s; m_shadowDepthTexture := m_shadowDepthTexture s;
     m_shadowMapWidth := m_shadowMapWidth s;
     m_shadowMapHeight := m_shadowMapHeight s;
     m_pDepthShaderManager := m_pDepthShaderManager s;
     m_spotLightSpaceMatrix := m_spotLightSpaceMatrix s |}.

Definition set_spotLightSpaceMatrix (m : mat4) (s : SceneManager) : SceneManager :=
  {| m_pShaderManager := m_pShaderManager s; m_textureIDs := m_textureIDs s;
     m_loadedTextures := m_loadedTextures s;
     m_objectMaterials := m_objectMaterials s;
     m_shadowFBO := m_shadowFBO s; m_shadowDepthTexture := m_shadowDepthTexture s;
     m_shadowMapWidth := m_shadowMapWidth s;
     m_shadowMapHeight := m_shadowMapHeight s;
     m_pDepthShaderManager := m_pDepthShaderManager s;
     m_spotLightSpaceMatrix := m |}.

Definition set_viewport (v : Z * Z * Z * Z) (g : GLState) : GLState :=
  {| gl_viewport := v; gl_framebuffer := gl_framebuffer g;
     gl_active_texture := gl_active_texture g; gl_texture_2d := gl_texture_2d g;
     gl_depth_test := gl_depth_test g; gl_depth_mask := gl_depth_mask g;
     gl_program := gl_program g; gl_next_name := gl_next_name g |}.

Definition set_framebuffer (fb : Z) (g : GLState) : GLState :=
  {| gl_viewport := gl_viewport g; gl_framebuffer := fb;
     gl_active_texture := gl_active_texture g; gl_texture_2d := gl_texture_2d g;
     gl_depth_test := gl_depth_test g; gl_depth_mask := gl_depth_mask g;
     gl_program := gl_program g; gl_next_name := gl_next_name g |}.

Definition set_active_texture (u : Z) (g : GLState) : GLState :=
  {| gl_viewport := gl_viewport g; gl_framebuffer := gl_framebuffer g;
     gl_active_texture := u; gl_texture_2d := gl_texture_2d g;
     gl_depth_test := gl_depth_test g; gl_depth_mask := gl_depth_mask g;
     gl_program := gl_program g; gl_next_name := gl_next_name g |}.

Definition set_texture_2d (b : gmap Z Z) (g : GLState) : GLState :=
  {| gl_viewport := gl_viewport g; gl_framebuffer := gl_framebuffer g;
     gl_active_texture := gl_active_texture g; gl_texture_2d := b;
     gl_depth_test := gl_depth_test g; gl_depth_mask := gl_depth_mask g;
     gl_program := gl_program g; gl_next_name := gl_next_name g |}.

Definition set_depth_test (b : bool) (g : GLState) : GLState :=
  {| gl_viewport := gl_viewport g; gl_framebuffer := gl_framebuffer g;
     gl_active_texture := gl_active_texture g; gl_texture_2d := gl_texture_2d g;
     gl_depth_test := b; gl_depth_mask := gl_depth_mask g;
     gl_program := gl_program g; gl_next_name := gl_next_name g |}.

Definition set_depth_mask (b : bool) (g : GLState) : GLState :=
  {| gl_viewport := gl_viewport g; gl_framebuffer := gl_framebuffer g;
     gl_active_texture := gl_active_texture g; gl_texture_2d := gl_texture_2d g;
     gl_depth_test := gl_depth_test g; gl_depth_mask := b;
     gl_program := gl_program g; gl_next_name := gl_next_name g |}.

Definition set_program (p : Z) (g : GLState) : GLState :=
  {| gl_viewport := gl_viewport g; gl_framebuffer := gl_framebuffer g;
     gl_active_texture := gl_active_texture g; gl_texture_2d := gl_texture_2d g;
     gl_depth_test := gl_depth_test g; gl_depth_mask := gl_depth_mask g;
     gl_program := p; gl_next_name := gl_next_name g |}.

Definition set_next_name (n : Z) (g : GLState) : GLState :=
  {| gl_viewport := gl_viewport g; gl_framebuffer := gl_framebuffer g;
     gl_active_texture := gl_active_texture g; gl_texture_2d := gl_texture_2d g;
     gl_depth_test := gl_depth_test g; gl_depth_mask := gl_depth_mask g;
     gl_program := gl_program g; gl_next_name := n |}.

(** ** The services as monadic operations *)

(** A member call through the [ShaderManager*] [p]: a null pointer, or one
    that refers to no live manager, is a fault. *)
Definition setUniform (p : Z) (name : string) (v : UniformValue) : M unit :=
  fun w =>
    if p =? 0 then Crash NullDereference else
    match heap w !! p with
    | Some sh =>
        Ok tt (with_heap (fun h => <[p := set_uniform name v sh]> h) w)
           [c_shader_set p name v]
    | None => Crash NullDereference
    end.

(** [setIntValue] takes an [int]; the source passes [true] and [false]. *)
Definition setIntValue (p : Z) (name : string) (b : bool) : M unit :=
  setUniform p name (UInt (if b then 1 else 0)).
Definition setFloatValue (p : Z) (name : string) (v : float) : M unit :=
  setUniform p name (UFloat v).
Definition setVec2Value (p : Z) (name : string) (x y : float) : M unit :=
  setUniform p name (UVec2 x y).
Definition setVec3Value (p : Z) (name : string) (v : vec3) : M unit :=
  setUniform p name (UVec3 v).
Definition setVec4Value (p : Z) (name : string) (r g b a : float) : M unit :=
  setUniform p name (UVec4 r g b a).
Definition setMat4Value (p : Z) (name : string) (m : mat4) : M unit :=
  setUniform p name (UMat4 m).
Definition setSampler2DValue (p : Z) (name : string) (slot : Z) : M unit :=
  setUniform p name (USampler2D slot).

Definition use (p : Z) : M unit := fun w =>
  if p =? 0 then Crash NullDereference else
  match heap w !! p with
  | Some _ => Ok tt (with_gl (set_program p) w) [c_shader_use p]
  | None => Crash NullDereference
  end.

Definition glGenTextures : M Z := fun w =>
  let name := gl_next_name (gl w) in
  Ok name (with_gl (set_next_name (name + 1)) w) [c_glGenTextures name].

Definition glActiveTexture (slot : Z) : M unit :=
  modify (with_gl (set_active_texture slot));; call (c_glActiveTexture slot).

Definition glBindTexture (texture : Z) : M unit :=
  modify (with_gl (fun g =>
    set_texture_2d (<[gl_active_texture g := texture]> (gl_texture_2d g)) g));;
  call (c_glBindTexture texture).

Definition glDepthMask (flag : bool) : M unit :=
  modify (with_gl (set_depth_mask flag));; call (c_glDepthMask flag).

(** [glGetIntegerv(GL_VIEWPORT, data)]. *)
Definition glGetViewport : M (Z * Z * Z * Z) :=
  w <- get;;
  call (c_glGetIntegerv GL_VIEWPORT (gl_viewport (gl w)));;
  ret (gl_viewport (gl w)).

Definition glViewport (x y w h : Z) : M unit :=
  modify (with_gl (set_viewport (x, y, w, h)));; call (c_glViewport x y w h).

Definition glBindFramebuffer (fb : Z) : M unit :=
  modify (with_gl (set_framebuffer fb));; call (c_glBindFramebuffer fb).

Definition glEnableDepthTest : M unit :=
  modify (with_gl (set_depth_test true));; call (c_glEnable GL_DEPTH_TEST).

(** [glfwGetKey(window, key) == GLFW_PRESS]; GLFW dereferences the window. *)
Definition glfwGetKey (window : Z) (key : Key) : M bool := fun w =>
  if window =? 0 then Crash NullDereference else Ok (keys w key) w [].

Definition glfwGetTime : M float := fun w => Ok (clock w) w [].

(** [stbi_load]: the decoded image, or a null pointer. *)
Definition stbi_load (filename : string) : M (option Image) :=
  w <- get;; call (c_stbi_load filename);; ret (files w !! filename).

(** ** SceneManager *)

Definition g_ModelName := "model".
Definition g_ColorValueName := "objectColor".
Definition g_TextureValueName := "objectTexture".
Definition g_UseTextureName := "bUseTexture".
Definition g_UseLightingName := "bUseLighting".

(** [SceneManager::SceneManager]: the members the constructor sets; the
    array entries and the material list are default-constructed. *)
Definition SceneManager_new (pShaderManager : Z) : SceneManager :=
  {| m_pShaderManager := pShaderManager;
     m_textureIDs := replicate (Z.to_nat MAX_TEXTURES) {| tex_tag := ""; ID := 0 |};
     m_loadedTextures := 0;
     m_objectMaterials := [];
     m_shadowFBO := 0;
     m_shadowDepthTexture := 0;
     m_shadowMapWidth := 2048;
     m_shadowMapHeight := 2048;
     m_pDepthShaderManager := 0;
     m_spotLightSpaceMatrix := mat4_diag (F32.of_Z 1) |}.

(** [m_textureIDs[index] = {textureID, tag}] on the fixed-size array: an
    index outside the array is a fault, not a write. *)
Definition registerTexture (textureID : Z) (tag : string) : M unit := fun w =>
  let s := scene w in
  let index := m_loadedTextures s in
  if index <? 0 then Crash OutOfBounds else
  match m_textureIDs s !! Z.to_nat index with
  | Some _ =>
      Ok tt
         (with_scene
            (set_registry
               (<[Z.to_nat index := {| tex_tag := tag; ID := textureID |}]>
                  (m_textureIDs s))
               (index + 1))
            w)
         []
  | None => Crash OutOfBounds
  end.

Definition CreateGLTexture (filename : string) (tag : string) : M bool :=
  call (c_stbi_set_flip_vertically_on_load true);;
  image <- stbi_load filename;;
  match image with
  | Some img =>
      textureID <- glGenTextures;;
      glBindTexture textureID;;
      call (c_glTexParameteri GL_TEXTURE_WRAP_S GL_REPEAT);;
      call (c_glTexParameteri GL_TEXTURE_WRAP_T GL_REPEAT);;
      call (c_glTexParameteri GL_TEXTURE_MIN_FILTER GL_LINEAR);;
      call (c_glTexParameteri GL_TEXTURE_MAG_FILTER GL_LINEAR);;
      let finish : M bool :=
        call c_glGenerateMipmap;;
        call c_stbi_image_free;;
        glBindTexture 0;;
        registerTexture textureID tag;;
        ret true in
      if colorChannels img =? 3 then
        call (c_glTexImage2D GL_RGB8 (width img) (height img) GL_RGB);;
        finish
      else if colorChannels img =? 4 then
        call (c_glTexImage2D GL_RGBA8 (width img) (height img) GL_RGBA);;
        finish
      else
        ret false
  | None => ret false
  end.

(** The loop of BindGLTextures, [remaining] iterations from [i]:
    [remaining = m_loadedTextures - i]. *)
Fixpoint BindGLTextures_loop (remaining : nat) (i : Z) : M unit :=
  match remaining with
  | O => ret tt
  | S r =>
      w <- get;;
      match m_textureIDs (scene w) !! Z.to_nat i with
      | Some e =>
          glActiveTexture i;;
          glBindTexture (ID e);;
          BindGLTextures_loop r (i + 1)
      | None => crash OutOfBounds
      end
  end.

Definition BindGLTextures : M unit :=
  w <- get;;
  BindGLTextures_loop (Z.to_nat (m_loadedTextures (scene w))) 0;;
  if negb (m_pShaderManager (scene w) =? 0) then
    setSampler2DValue (m_pShaderManager (scene w)) "objectTexture" 0
  else ret tt.

(** The loop of FindTextureID, [remaining = m_loadedTextures - index]
    iterations left; [None] is a read outside the array. *)
Fixpoint FindTextureID_loop (ids : list TEXTURE_INFO) (tag : string)
    (remaining : nat) (index : Z) : option Z :=
  match remaining with
  | O => Some (-1)
  | S r =>
      match ids !! Z.to_nat index with
      | Some e =>
          if String.eqb (tex_tag e) tag then Some (int_of_uint32 (ID e))
          else FindTextureID_loop ids tag r (index + 1)
      | None => None
      end
  end.

Fixpoint FindTextureSlot_loop (ids : list TEXTURE_INFO) (tag : string)
    (remaining : nat) (index : Z) : option Z :=
  match remaining with
  | O => Some (-1)
  | S r =>
      match ids !! Z.to_nat index with
      | Some e =>
          if String.eqb (tex_tag e) tag then Some index
          else FindTextureSlot_loop ids tag r (index + 1)
      | None => None
      end
  end.

Definition FindTextureID (tag : string) : M Z := fun w =>
  match FindTextureID_loop (m_textureIDs (scene w)) tag
          (Z.to_nat (m_loadedTextures (scene w))) 0 with
  | Some textureID => Ok textureID w []
  | None => Crash OutOfBounds
  end.

Definition FindTextureSlot (tag : string) : M Z := fun w =>
  match FindTextureSlot_loop (m_textureIDs (scene w)) tag
          (Z.to_nat (m_loadedTextures (scene w))) 0 with
  | Some textureSlot => Ok textureSlot w []
  | None => Crash OutOfBounds
  end.

(** The loop of FindMaterial on the reference parameter [material]:
    [remaining = m_objectMaterials.size() - index]. *)
Fixpoint FindMaterial_loop (mats : list OBJECT_MATERIAL) (tag : string)
    (remaining : nat) (index : nat) (material : OBJECT_MATERIAL)
  : OBJECT_MATERIAL :=
  match remaining with
  | O => material
  | S r =>
      match mats !! index with
      | Some m =>
          if String.eqb (mat_tag m) tag then
            {| diffuseColor := diffuseColor m;
               specularColor := specularColor m;
               shininess := shininess m;
               mat_tag := mat_tag material |}
          else FindMaterial_loop mats tag r (S index) material
      | None => material
      end
  end.

(** [FindMaterial(tag, material)]: the returned flag and the contents of
    [material] on return. *)
Definition FindMaterial (s : SceneManager) (tag : string)
    (material : OBJECT_MATERIAL) : bool * OBJECT_MATERIAL :=
  if (length (m_objectMaterials s) =? 0)%nat then (false, material)
  else
    (true,
     FindMaterial_loop (m_objectMaterials s) tag
       (length (m_objectMaterials s)) 0%nat material).

(** The model matrix both passes build: [T * Rz * Ry * Rx * S]. *)
Definition modelMatrix (scaleXYZ : vec3) (Xdeg Ydeg Zdeg : float)
    (positionXYZ : vec3) : mat4 :=
  let scale := glm_scale scaleXYZ in
  let rotationX :=
    glm_rotate (glm_radians Xdeg) (Vec3 (F32.of_Z 1) (F32.of_Z 0) (F32.of_Z 0)) in
  let rotationY :=
    glm_rotate (glm_radians Ydeg) (Vec3 (F32.of_Z 0) (F32.of_Z 1) (F32.of_Z 0)) in
  let rotationZ :=
    glm_rotate (glm_radians Zdeg) (Vec3 (F32.of_Z 0) (F32.of_Z 0) (F32.of_Z 1)) in
  let translation := glm_translate positionXYZ in
  mat4_mul (mat4_mul (mat4_mul (mat4_mul translation rotationZ) rotationY)
              rotationX) scale.

Definition SetTransformations (scaleXYZ : vec3)
    (XrotationDegrees YrotationDegrees ZrotationDegrees : float)
    (positionXYZ : vec3) : M unit :=
  let modelView :=
    modelMatrix scaleXYZ XrotationDegrees YrotationDegrees ZrotationDegrees
      positionXYZ in
  w <- get;;
  if negb (m_pShaderManager (scene w) =? 0) then
    setMat4Value (m_pShaderManager (scene w)) g_ModelName modelView
  else ret tt.

Definition SetShaderColor (redColorValue greenColorValue blueColorValue
    alphaValue : float) : M unit :=
  w <- get;;
  if negb (m_pShaderManager (scene w) =? 0) then
    setIntValue (m_pShaderManager (scene w)) g_UseTextureName false;;
    setVec4Value (m_pShaderManager (scene w)) g_ColorValueName
      redColorValue greenColorValue blueColorValue alphaValue
  else ret tt.

Definition SetShaderTexture (textureTag : string) : M unit :=
  w <- get;;
  if negb (m_pShaderManager (scene w) =? 0) then
    setIntValue (m_pShaderManager (scene w)) g_UseTextureName true;;
    found <- FindTextureSlot textureTag;;
    let textureSlot := if found <? 0 then 0 else found in
    glActiveTexture textureSlot;;
    textureID <- FindTextureID textureTag;;
    (if 0 <? textureID then glBindTexture textureID else ret tt);;
    setSampler2DValue (m_pShaderManager (scene w)) g_TextureValueName textureSlot
  else ret tt.

Definition SetTextureUVScale (u v : float) : M unit :=
  w <- get;;
  if negb (m_pShaderManager (scene w) =? 0) then
    setVec2Value (m_pShaderManager (scene w)) "UVscale" u v
  else ret tt.

(** [SetShaderMaterial(materialTag)].  The local [OBJECT_MATERIAL material]
    is declared without an initialiser: [uninit] stands for whatever its
    storage holds when FindMaterial receives it. *)
Definition SetShaderMaterial (materialTag : string) (uninit : OBJECT_MATERIAL)
  : M unit :=
  w <- get;;
  if (0 <? length (m_objectMaterials (scene w)))%nat then
    let '(bReturn, material) := FindMaterial (scene w) materialTag uninit in
    if bReturn then
      setVec3Value (m_pShaderManager (scene w)) "material.diffuseColor"
        (diffuseColor material);;
      setVec3Value (m_pShaderManager (scene w)) "material.specularColor"
        (specularColor material);;
      setFloatValue (m_pShaderManager (scene w)) "material.shininess"
        (shininess material)
    else ret tt
  else ret tt.

Definition DrawPlaneMesh : M unit := call (c_Draw PlaneMesh).
Definition DrawCylinderMesh (a b c : bool) : M unit :=
  call (c_Draw (CylinderMesh a b c)).
Definition DrawTaperedCylinderMesh (a b c : bool) : M unit :=
  call (c_Draw (TaperedCylinderMesh a b c)).

(** The block RenderScene runs before the first and after the last draw
    (the same four statements at both places). *)
Definition RenderScene_bindShadowMap : M unit :=
  w <- get;;
  if negb (m_shadowDepthTexture (scene w) =? 0) then
    glActiveTexture 7;;
    glBindTexture (m_shadowDepthTexture (scene w));;
    setSampler2DValue (m_pShaderManager (scene w)) "spotShadowMap" 7;;
    setMat4Value (m_pShaderManager (scene w)) "spotLightSpaceMatrix"
      (m_spotLightSpaceMatrix (scene w))
  else ret tt.

Definition RenderScene : M unit :=
  w0 <- get;;
  let sm := m_pShaderManager (scene w0) in
  RenderScene_bindShadowMap;;
  (* the dark surface plane *)
  SetTransformations
    (Vec3 (F32.lit 20 1) (F32.lit 1 1) (F32.lit 10 1))
    (F32.lit 0 1) (F32.lit 0 1) (F32.lit 0 1)
    (Vec3 (F32.lit 0 1) (F32.lit 0 1) (F32.lit 0 1));;
  setIntValue sm "bUseLighting" true;;
  setVec3Value sm "material.diffuseColor" (vec3_splat (F32.lit 1 1));;
  setVec3Value sm "material.specularColor" (vec3_splat (F32.lit 4 10));;
  setFloatValue sm "material.shininess" (F32.lit 32 1);;
  SetShaderTexture "stone";;
  SetTextureUVScale (F32.lit 16 1) (F32.lit 16 1);;
  DrawPlaneMesh;;
  (* the saucer under the mug *)
  SetTransformations
    (Vec3 (F32.lit 26 10) (F32.lit 2 100) (F32.lit 26 10))
    (F32.lit 0 1) (F32.lit 0 1) (F32.lit 0 1)
    (Vec3 (F32.lit 0 1) (F32.lit 0 1) (F32.lit 0 1));;
  setIntValue sm "bUseLighting" true;;
  setVec3Value sm "material.diffuseColor" (vec3_splat (F32.lit 6 10));;
  setVec3Value sm "material.specularColor" (vec3_splat (F32.lit 1 1));;
  setFloatValue sm "material.shininess" (F32.lit 128 1);;
  SetShaderColor (F32.lit 100 100) (F32.lit 97 100) (F32.lit 88 100)
    (F32.lit 100 100);;
  SetTextureUVScale (F32.lit 1 1) (F32.lit 1 1);;
  glDepthMask true;;
  DrawCylinderMesh true true true;;
  (* the raised rim of the saucer *)
  SetTransformations
    (Vec3 (F32.lit 26 10) (F32.lit 3 100) (F32.lit 26 10))
    (F32.lit 0 1) (F32.lit 0 1) (F32.lit 0 1)
    (Vec3 (F32.lit 0 1) (F32.lit 3 100) (F32.lit 0 1));;
  setVec3Value sm "material.diffuseColor" (vec3_splat (F32.lit 55 100));;
  setVec3Value sm "material.specularColor" (vec3_splat (F32.lit 1 1));;
  setFloatValue sm "material.shininess" (F32.lit 128 1);;
  SetShaderColor (F32.lit 98 100) (F32.lit 95 100) (F32.lit 86 100)
    (F32.lit 100 100);;
  DrawCylinderMesh false true true;;
  glDepthMask true;;
  (* the outer mug body *)
  SetTransformations
    (Vec3 (F32.lit 15 10) (F32.lit 2 1) (F32.lit 15 10))
    (F32.lit 180 1) (F32.lit 0 1) (F32.lit 0 1)
    (Vec3 (F32.lit 0 1) (F32.lit 210 100) (F32.lit 0 1));;
  setIntValue sm "bUseLighting" true;;
  setVec3Value sm "material.diffuseColor" (vec3_splat (F32.lit 1 1));;
  setVec3Value sm "material.specularColor" (vec3_splat (F32.lit 25 100));;
  setFloatValue sm "material.shininess" (F32.lit 24 1);;
  SetShaderTexture "grass";;
  SetTextureUVScale (F32.lit 2 1) (F32.lit 1 1);;
  DrawTaperedCylinderMesh true false true;;
  (* the mug interior *)
  SetTransformations
    (Vec3 (F32.lit 146 100) (F32.lit 196 100) (F32.lit 146 100))
    (F32.lit 180 1) (F32.lit 0 1) (F32.lit 0 1)
    (Vec3 (F32.lit 0 1) (F32.lit 211 100) (F32.lit 0 1));;
  setIntValue sm "bUseLighting" true;;
  setVec3Value sm "material.diffuseColor" (vec3_splat (F32.lit 1 1));;
  setVec3Value sm "material.specularColor" (vec3_splat (F32.lit 25 100));;
  setFloatValue sm "material.shininess" (F32.lit 24 1);;
  SetShaderTexture "grass";;
  SetTextureUVScale (F32.lit 1 1) (F32.lit 1 1);;
  DrawTaperedCylinderMesh false false true;;
  (* the straw *)
  SetTransformations
    (Vec3 (F32.lit 8 100) (F32.lit 296 100) (F32.lit 8 100))
    (F32.lit (-3225) 100) (F32.lit 150 1) (F32.lit 0 1)
    (Vec3 (F32.lit (-45) 100) (F32.lit 25 100) (F32.lit (-12) 100));;
  setVec3Value sm "material.diffuseColor" (vec3_splat (F32.lit 1 1));;
  setVec3Value sm "material.specularColor" (vec3_splat (F32.lit 35 100));;
  setFloatValue sm "material.shininess" (F32.lit 32 1);;
  SetShaderColor (F32.lit 96 100) (F32.lit 96 100) (F32.lit 92 100)
    (F32.lit 1 1);;
  DrawCylinderMesh true true true;;
  (* the liquid surface *)
  SetTransformations
    (Vec3 (F32.lit 130 100) (F32.lit 1 100) (F32.lit 130 100))
    (F32.lit 5 10) (F32.lit 0 1) (F32.lit 3 10)
    (Vec3 (F32.lit 0 1) (F32.lit 178 100) (F32.lit 0 1));;
  setIntValue sm "bUseLighting" true;;
  SetShaderColor (F32.lit 2 10) (F32.lit 45 100) (F32.lit 9 10) (F32.lit 7 10);;
  setIntValue sm "bIsLiquidSurface" true;;
  now <- glfwGetTime;;
  setFloatValue sm "timeSeconds" (F32.mul now (F32.lit 5 10));;
  setVec2Value sm "rippleParams" (F32.lit 3 1) (F32.lit 22 1);;
  setVec3Value sm "material.diffuseColor"
    (Vec3 (F32.lit 1 1) (F32.lit 95 100) (F32.lit 8 10));;
  setVec3Value sm "material.specularColor"
    (Vec3 (F32.lit 1 1) (F32.lit 1 1) (F32.lit 1 1));;
  setFloatValue sm "material.shininess" (F32.lit 96 1);;
  setFloatValue sm "rippleAmplitude" (F32.lit 10 100);;
  DrawCylinderMesh true false false;;
  glDepthMask true;;
  setIntValue sm "bIsLiquidSurface" false;;
  (* the mug bottom *)
  SetTransformations
    (Vec3 (F32.lit 1 1) (F32.lit 1 10) (F32.lit 1 1))
    (F32.lit 0 1) (F32.lit 0 1) (F32.lit 0 1)
    (Vec3 (F32.lit 0 1) (F32.lit 6 100) (F32.lit 0 1));;
  setIntValue sm "bUseLighting" true;;
  SetShaderTexture "grass";;
  SetTextureUVScale (F32.lit 1 1) (F32.lit 1 1);;
  DrawCylinderMesh true true false;;
  setIntValue sm "bUseLighting" true;;
  RenderScene_bindShadowMap.

(** The lambda [setDepthModel] of RenderShadowMap; it captures
    [m_pDepthShaderManager]. *)
Definition setDepthModel (depth : Z) (scaleXYZ : vec3) (Xdeg Ydeg Zdeg : float)
    (posXYZ : vec3) : M unit :=
  setMat4Value depth "model" (modelMatrix scaleXYZ Xdeg Ydeg Zdeg posXYZ).

(** The light-space projection and view of RenderShadowMap. *)
Definition lightProjection (s : SceneManager) : mat4 :=
  let nearPlane := F32.lit 5 100 in
  let farPlane := F32.lit 80 1 in
  let fov := F32.lit 48 1 in
  glm_perspective (glm_radians fov)
    (F32.div (F32.of_Z (m_shadowMapWidth s)) (F32.of_Z (m_shadowMapHeight s)))
    nearPlane farPlane.

Definition lightView (lightPosition lightDirection : vec3) : mat4 :=
  glm_lookAt lightPosition
    (vec3_add lightPosition (glm_normalize lightDirection))
    (Vec3 (F32.lit 0 1) (F32.lit 1 1) (F32.lit 0 1)).

Definition RenderShadowMap (lightPosition lightDirection : vec3) : M unit :=
  w0 <- get;;
  let s := scene w0 in
  if (m_shadowFBO s =? 0) || (m_pDepthShaderManager s =? 0) then ret tt
  else
    let depth := m_pDepthShaderManager s in
    let lightSpaceMatrix :=
      mat4_mul (lightProjection s) (lightView lightPosition lightDirection) in
    modify (with_scene (set_spotLightSpaceMatrix lightSpaceMatrix));;
    prevViewport <- glGetViewport;;
    glViewport 0 0 (m_shadowMapWidth s) (m_shadowMapHeight s);;
    glBindFramebuffer (m_shadowFBO s);;
    call (c_glClear GL_DEPTH_BUFFER_BIT);;
    glEnableDepthTest;;
    use depth;;
    setMat4Value depth "view" (lightView lightPosition lightDirection);;
    setMat4Value depth "projection" (lightProjection s);;
    (* plane *)
    setDepthModel depth
      (Vec3 (F32.lit 20 1) (F32.lit 1 1) (F32.lit 10 1))
      (F32.lit 0 1) (F32.lit 0 1) (F32.lit 0 1) (vec3_splat (F32.lit 0 1));;
    DrawPlaneMesh;;
    (* saucer *)
    setDepthModel depth
      (Vec3 (F32.lit 26 10) (F32.lit 2 100) (F32.lit 26 10))
      (F32.lit 0 1) (F32.lit 0 1) (F32.lit 0 1)
      (Vec3 (F32.lit 0 1) (F32.lit 0 1) (F32.lit 0 1));;
    DrawCylinderMesh true true true;;
    (* saucer rim *)
    setDepthModel depth
      (Vec3 (F32.lit 26 10) (F32.lit 3 100) (F32.lit 26 10))
      (F32.lit 0 1) (F32.lit 0 1) (F32.lit 0 1)
      (Vec3 (F32.lit 0 1) (F32.lit 3 100) (F32.lit 0 1));;
    DrawCylinderMesh false true true;;
    (* outer mug *)
    setDepthModel depth
      (Vec3 (F32.lit 15 10) (F32.lit 2 1) (F32.lit 15 10))
      (F32.lit 180 1) (F32.lit 0 1) (F32.lit 0 1)
      (Vec3 (F32.lit 0 1) (F32.lit 210 100) (F32.lit 0 1));;
    DrawTaperedCylinderMesh true false true;;
    (* inner mug *)
    setDepthModel depth
      (Vec3 (F32.lit 146 100) (F32.lit 196 100) (F32.lit 146 100))
      (F32.lit 180 1) (F32.lit 0 1) (F32.lit 0 1)
      (Vec3 (F32.lit 0 1) (F32.lit 211 100) (F32.lit 0 1));;
    DrawTaperedCylinderMesh false false true;;
    (* liquid surface *)
    setDepthModel depth
      (Vec3 (F32.lit 130 100) (F32.lit 1 100) (F32.lit 130 100))
      (F32.lit 5 10) (F32.lit 0 1) (F32.lit 3 10)
      (Vec3 (F32.lit 0 1) (F32.lit 178 100) (F32.lit 0 1));;
    DrawCylinderMesh true false false;;
    (* mug bottom *)
    setDepthModel depth
      (Vec3 (F32.lit 1 1) (F32.lit 1 10) (F32.lit 1 1))
      (F32.lit 0 1) (F32.lit 0 1) (F32.lit 0 1)
      (Vec3 (F32.lit 0 1) (F32.lit 6 100) (F32.lit 0 1));;
    DrawCylinderMesh true true false;;
    (* straw *)
    setDepthModel depth
      (Vec3 (F32.lit 8 100) (F32.lit 296 100) (F32.lit 8 100))
      (F32.lit (-24) 1) (F32.lit (-18) 1) (F32.lit 0 1)
      (Vec3 (F32.lit (-45) 100) (F32.lit 260 100) (F32.lit (-12) 100));;
    DrawCylinderMesh true true true;;
    glBindFramebuffer 0;;
    let '(x, y, vw, vh) := prevViewport in
    glViewport x y vw vh.

(** ** ViewManager *)

Definition WINDOW_WIDTH : Z := 1000.
Definition WINDOW_HEIGHT : Z := 800.
Definition g_ViewName := "view".
Definition g_ProjectionName := "projection".

Definition set_projection (persp pkey okey : bool) (v : ViewManager) : ViewManager :=
  {| vm_pShaderManager := vm_pShaderManager v; m_pWindow := m_pWindow v;
     m_bPerspectiveProjection := persp; m_bPKeyPressed := pkey;
     m_bOKeyPressed := okey; m_currentVelocity := m_currentVelocity v;
     m_accelerationRate := m_accelerationRate v;
     m_decelerationRate := m_decelerationRate v;
     m_mouseSensitivity := m_mouseSensitivity v;
     m_movementSpeedMultiplier := m_movementSpeedMultiplier v;
     m_rippleAmplitude := m_rippleAmplitude v; m_rippleStep := m_rippleStep v;
     m_rippleMin := m_rippleMin v; m_rippleMax := m_rippleMax v |}.

Definition set_currentVelocity (vel : vec3) (v : ViewManager) : ViewManager :=
  {| vm_pShaderManager := vm_pShaderManager v; m_pWindow := m_pWindow v;
     m_bPerspectiveProjection := m_bPerspectiveProjection v;
     m_bPKeyPressed := m_bPKeyPressed v; m_bOKeyPressed := m_bOKeyPressed v;
     m_currentVelocity := vel;
     m_accelerationRate := m_accelerationRate v;
     m_decelerationRate := m_decelerationRate v;
     m_mouseSensitivity := m_mouseSensitivity v;
     m_movementSpeedMultiplier := m_movementSpeedMultiplier v;
     m_rippleAmplitude := m_rippleAmplitude v; m_rippleStep := m_rippleStep v;
     m_rippleMin := m_rippleMin v; m_rippleMax := m_rippleMax v |}.

Definition set_rippleAmplitude (a : float) (v : ViewManager) : ViewManager :=
  {| vm_pShaderManager := vm_pShaderManager v; m_pWindow := m_pWindow v;
     m_bPerspectiveProjection := m_bPerspectiveProjection v;
     m_bPKeyPressed := m_bPKeyPressed v; m_bOKeyPressed := m_bOKeyPressed v;
     m_currentVelocity := m_currentVelocity v;
     m_accelerationRate := m_accelerationRate v;
     m_decelerationRate := m_decelerationRate v;
     m_mouseSensitivity := m_mouseSensitivity v;
     m_movementSpeedMultiplier := m_movementSpeedMultiplier v;
     m_rippleAmplitude := a; m_rippleStep := m_rippleStep v;
     m_rippleMin := m_rippleMin v; m_rippleMax := m_rippleMax v |}.

Definition set_window (window : Z) (v : ViewManager) : ViewManager :=
  {| vm_pShaderManager := vm_pShaderManager v; m_pWindow := window;
     m_bPerspectiveProjection := m_bPerspectiveProjection v;
     m_bPKeyPressed := m_bPKeyPressed v; m_bOKeyPressed := m_bOKeyPressed v;
     m_currentVelocity := m_currentVelocity v;
     m_accelerationRate := m_accelerationRate v;
     m_decelerationRate := m_decelerationRate v;
     m_mouseSensitivity := m_mouseSensitivity v;
     m_movementSpeedMultiplier := m_movementSpeedMultiplier v;
     m_rippleAmplitude := m_rippleAmplitude v; m_rippleStep := m_rippleStep v;
     m_rippleMin := m_rippleMin v; m_rippleMax := m_rippleMax v |}.

Definition set_Position (p : vec3) (c : Camera) : Camera :=
  {| Position := p; Front := Front c; Up := Up c; Right := Right c;
     Zoom := Zoom c; MovementSpeed := MovementSpeed c |}.

(** [ViewManager::ViewManager]; [m_rippleMin] and [m_rippleMax] take the
    default member initialisers of ViewManager.h. *)
Definition ViewManager_new (pShaderManager : Z) : ViewManager :=
  {| vm_pShaderManager := pShaderManager;
     m_pWindow := 0;
     m_bPerspectiveProjection := true;
     m_bPKeyPressed := false;
     m_bOKeyPressed := false;
     m_currentVelocity := vec3_splat (F32.lit 0 1);
     m_accelerationRate := F32.lit 25 1;
     m_decelerationRate := F32.lit 15 1;
     m_mouseSensitivity := F32.lit 3 1;
     m_movementSpeedMultiplier := F32.lit 1 1;
     m_rippleAmplitude := F32.lit 10 100;
     m_rippleStep := F32.lit 1 100;
     m_rippleMin := F32.lit 0 1;
     m_rippleMax := F32.lit 2 10 |}.

(** The constructor on the program state.  [fresh] is the camera
    [new Camera()] builds (camera.h is not among the sources); the
    constructor then overwrites five of its members. *)
Definition ViewManager_ctor (pShaderManager : Z) (fresh : Camera) : M unit :=
  modify (fun w =>
    with_camera
      (Some {| Position := Vec3 (F32.lit 0 1) (F32.lit 5 1) (F32.lit 12 1);
               Front := Vec3 (F32.lit 0 1) (F32.lit (-5) 10) (F32.lit (-2) 1);
               Up := Vec3 (F32.lit 0 1) (F32.lit 1 1) (F32.lit 0 1);
               Right := Right fresh;
               Zoom := F32.of_Z 80;
               MovementSpeed := F32.of_Z 20 |})
      (with_view (fun _ => ViewManager_new pShaderManager) w)).

(** [CreateDisplayWindow(windowTitle)]; [window] is what glfwCreateWindow
    returns (0 on failure).  The function's result is [window] again. *)
Definition CreateDisplayWindow (windowTitle : string) (window : Z) : M Z :=
  call (c_glfwCreateWindow WINDOW_WIDTH WINDOW_HEIGHT windowTitle);;
  if window =? 0 then
    call c_glfwTerminate;;
    ret 0
  else
    call (c_glfwMakeContextCurrent window);;
    call (c_glfwSetInputMode_cursor_disabled window);;
    call (c_glfwSetCursorPosCallback window);;
    call (c_glfwSetScrollCallback window);;
    call c_glEnable_blend;;
    call c_glBlendFunc_src_alpha_one_minus_src_alpha;;
    modify (with_view (set_window window));;
    ret window.

(** [*g_pCamera]. *)
Definition camera : M Camera := fun w =>
  match g_pCamera w with
  | Some c => Ok c w []
  | None => Crash NullDereference
  end.

Definition ProcessProjectionKeys : M unit :=
  w <- get;;
  p <- glfwGetKey (m_pWindow (view w)) GLFW_KEY_P;;
  (if p then
     v <- get;;
     if negb (m_bPKeyPressed (view v)) then
       modify (with_view (fun x => set_projection true true (m_bOKeyPressed x) x))
     else ret tt
   else
     modify (with_view (fun x =>
       set_projection (m_bPerspectiveProjection x) false (m_bOKeyPressed x) x)));;
  o <- glfwGetKey (m_pWindow (view w)) GLFW_KEY_O;;
  if o then
    v <- get;;
    if negb (m_bOKeyPressed (view v)) then
      modify (with_view (fun x => set_projection false (m_bPKeyPressed x) true x))
    else ret tt
  else
    modify (with_view (fun x =>
      set_projection (m_bPerspectiveProjection x) (m_bPKeyPressed x) false x)).

Definition ProcessSmoothMovement : M unit :=
  w <- get;;
  let window := m_pWindow (view w) in
  cam <- camera;;
  let targetVelocity := vec3_splat (F32.lit 0 1) in
  let baseSpeed := MovementSpeed cam in
  kW <- glfwGetKey window GLFW_KEY_W;;
  let targetVelocity :=
    if kW then vec3_add targetVelocity (Front cam) else targetVelocity in
  kS <- glfwGetKey window GLFW_KEY_S;;
  let targetVelocity :=
    if kS then vec3_sub targetVelocity (Front cam) else targetVelocity in
  kA <- glfwGetKey window GLFW_KEY_A;;
  let targetVelocity :=
    if kA then vec3_sub targetVelocity (Right cam) else targetVelocity in
  kD <- glfwGetKey window GLFW_KEY_D;;
  let targetVelocity :=
    if kD then vec3_add targetVelocity (Right cam) else targetVelocity in
  kQ <- glfwGetKey window GLFW_KEY_Q;;
  up <- (if kQ then ret true else glfwGetKey window GLFW_KEY_SPACE);;
  let targetVelocity :=
    if up then vec3_add targetVelocity (Up cam) else targetVelocity in
  kE <- glfwGetKey window GLFW_KEY_E;;
  down <- (if kE then ret true else glfwGetKey window GLFW_KEY_LEFT_CONTROL);;
  let targetVelocity :=
    if down then vec3_sub targetVelocity (Up cam) else targetVelocity in
  let targetVelocity :=
    if F32.ltb (F32.lit 0 1) (glm_length targetVelocity)
    then vec3_scale (glm_normalize targetVelocity) baseSpeed
    else targetVelocity in
  let lerpFactor :=
    if F32.ltb (F32.lit 0 1) (glm_length targetVelocity)
    then F32.mul (m_accelerationRate (view w)) (gDeltaTime w)
    else F32.mul (m_decelerationRate (view w)) (gDeltaTime w) in
  let lerpFactor := F32.clamp lerpFactor (F32.lit 0 1) (F32.lit 1 1) in
  let velocity := glm_mix (m_currentVelocity (view w)) targetVelocity lerpFactor in
  modify (with_view (set_currentVelocity velocity));;
  if F32.ltb (F32.lit 1 100) (glm_length velocity) then
    modify (with_camera
      (Some (set_Position
               (vec3_add (Position cam) (vec3_scale velocity (gDeltaTime w)))
               cam)))
  else ret tt.

Definition ProcessRippleControls : M unit :=
  w <- get;;
  if m_pWindow (view w) =? 0 then ret tt
  else
    kI <- glfwGetKey (m_pWindow (view w)) GLFW_KEY_I;;
    (if kI then
       modify (with_view (fun v =>
         set_rippleAmplitude
           (F32.clamp (F32.add (m_rippleAmplitude v) (m_rippleStep v))
              (m_rippleMin v) (m_rippleMax v)) v))
     else ret tt);;
    kU <- glfwGetKey (m_pWindow (view w)) GLFW_KEY_U;;
    if kU then
      modify (with_view (fun v =>
        set_rippleAmplitude
          (F32.clamp (F32.sub (m_rippleAmplitude v) (m_rippleStep v))
             (m_rippleMin v) (m_rippleMax v)) v))
    else ret tt.

Definition ProcessKeyboardEvents : M unit :=
  w <- get;;
  esc <- glfwGetKey (m_pWindow (view w)) GLFW_KEY_ESCAPE;;
  (if esc then call (c_glfwSetWindowShouldClose true) else ret tt);;
  ProcessSmoothMovement;;
  ProcessProjectionKeys;;
  ProcessRippleControls.

(** The HUD was removed: the function has an empty body. *)
Definition RenderCameraInfo : M unit := ret tt.

Definition PrepareSceneView : M unit :=
  currentFrame <- glfwGetTime;;
  modify (fun w =>
    with_frame_time (F32.sub currentFrame (gLastFrame w)) currentFrame w);;
  ProcessKeyboardEvents;;
  cam <- camera;;
  w <- get;;
  let viewMatrix := Camera_GetViewMatrix cam in
  let projection :=
    if m_bPerspectiveProjection (view w) then
      glm_perspective (glm_radians (Zoom cam))
        (F32.div (F32.of_Z WINDOW_WIDTH) (F32.of_Z WINDOW_HEIGHT))
        (F32.lit 1 10) (F32.lit 100 1)
    else
      let orthoSize := F32.lit 10 1 in
      glm_ortho (SFopp orthoSize) orthoSize (SFopp orthoSize) orthoSize
        (F32.lit 1 10) (F32.lit 100 1) in
  let sm := vm_pShaderManager (view w) in
  (if negb (sm =? 0) then
     setMat4Value sm g_ViewName viewMatrix;;
     setMat4Value sm g_ProjectionName projection;;
     setVec3Value sm "viewPosition" (Position cam);;
     setFloatValue sm "rippleAmplitude" (m_rippleAmplitude (view w));;
     setVec3Value sm "spotLight.position" (Position cam);;
     let camDir := glm_normalize (Front cam) in
     setVec3Value sm "spotLight.direction" camDir
   else ret tt);;
  RenderCameraInfo.

End Scene.

(** ** Call sequences and observations on the recorded calls *)

Section Observations.
Context `{G : Glm}.

(** [CreateGLTexture] on each (file, tag) of a list, in order, as
    PrepareScene does for its two textures; the results are collected. *)
Fixpoint CreateGLTextures (l : list (string * string)) : M (list bool) :=
  match l with
  | [] => ret []
  | (filename, tag) :: rest =>
      b <- CreateGLTexture filename tag;;
      bs <- CreateGLTextures rest;;
      ret (b :: bs)
  end.

(** What the outside world answers during one frame. *)
Record Env : Type := { env_keys : Key -> bool; env_clock : float }.

Definition set_env (e : Env) (w : World) : World :=
  {| scene := scene w; view := view w; g_pCamera := g_pCamera w;
     gDeltaTime := gDeltaTime w; gLastFrame := gLastFrame w; heap := heap w;
     gl := gl w; files := files w; keys := env_keys e; clock := env_clock e |}.

(** One [PrepareSceneView] per frame, each under its own keys and clock. *)
Fixpoint frames (envs : list Env) : M unit :=
  match envs with
  | [] => ret tt
  | e :: rest => modify (set_env e);; PrepareSceneView;; frames rest
  end.

Definition framebuffer_binds (calls : list Call) : list Z :=
  omap (fun c => match c with c_glBindFramebuffer fb => Some fb | _ => None end)
       calls.

Definition viewport_sets (calls : list Call) : list (Z * Z * Z * Z) :=
  omap (fun c => match c with
                 | c_glViewport x y w h => Some (x, y, w, h)
                 | _ => None
                 end) calls.

(** The context state the code reads back (and so can save). *)
Definition state_queries (calls : list Call) : list (GLenum * (Z * Z * Z * Z)) :=
  omap (fun c => match c with
                 | c_glGetIntegerv pname data => Some (pname, data)
                 | _ => None
                 end) calls.

Definition meshes (calls : list Call) : list Mesh :=
  omap (fun c => match c with c_Draw m => Some m | _ => None end) calls.

Definition texture_binds (calls : list Call) : list Z :=
  omap (fun c => match c with c_glBindTexture t => Some t | _ => None end) calls.

(** The values written to the uniform [name], through any manager. *)
Definition uniform_writes (name : string) (calls : list Call)
  : list UniformValue :=
  omap (fun c => match c with
                 | c_shader_set _ n v => if String.eqb n name then Some v else None
                 | _ => None
                 end) calls.

(** Each mesh draw with the matrix last written to the uniform ["model"] of
    the manager [program] before it. *)
Fixpoint draws_with_model (program : Z) (last : option mat4) (calls : list Call)
  : list (option mat4 * Mesh) :=
  match calls with
  | [] => []
  | c_shader_set p name (UMat4 m) :: rest =>
      if (p =? program) && String.eqb name "model"
      then draws_with_model program (Some m) rest
      else draws_with_model program last rest
  | c_Draw mesh :: rest => (last, mesh) :: draws_with_model program last rest
  | _ :: rest => draws_with_model program last rest
  end.

(** The scale, rotation and translation values an object is drawn with. *)
Record Transform : Type := {
  t_scale : vec3;
  t_Xdeg : float;
  t_Ydeg : float;
  t_Zdeg : float;
  t_position : vec3
}.

Definition transformMatrix (t : Transform) : mat4 :=
  modelMatrix (t_scale t) (t_Xdeg t) (t_Ydeg t) (t_Zdeg t) (t_position t).

(** The pointer [p] is not null and refers to a shader manager. *)
Definition live (p : Z) (w : World) : Prop := p <> 0 /\ is_Some (heap w !! p).

(** The state after a write to the uniform [name] through [p]. *)
Definition store (p : Z) (name : string) (v : UniformValue) (w : World) : World :=
  with_heap (alter (set_uniform name v) p) w.

(** The value the manager at [p] holds for the uniform [name]. *)
Definition uniform_at (p : Z) (name : string) (w : World) : option UniformValue :=
  match heap w !! p with
  | Some sh => uniforms sh !! name
  | None => None
  end.

(** The shadow resources are initialised: RenderShadowMap does not take
    its early return. *)
Definition shadow_ready (w : World) : Prop :=
  m_shadowFBO (scene w) <> 0 /\ live (m_pDepthShaderManager (scene w)) w.

(** Every entry below [m_loadedTextures] is inside the array. *)
Definition registry_wf (s : SceneManager) : Prop :=
  (Z.to_nat (m_loadedTextures s) <= length (m_textureIDs s))%nat.

(** *** The scene as the specification describes it

    The seven objects both passes are said to draw alike, in drawing
    order, and the two transforms of the straw. *)
Definition T (sx sy sz xdeg ydeg zdeg px py pz : float) : Transform :=
  {| t_scale := Vec3 sx sy sz; t_Xdeg := xdeg; t_Ydeg := ydeg; t_Zdeg := zdeg;
     t_position := Vec3 px py pz |}.

Definition expected_plane : Transform * Mesh :=
  (T (F32.lit 20 1) (F32.lit 1 1) (F32.lit 10 1)
     (F32.lit 0 1) (F32.lit 0 1) (F32.lit 0 1)
     (F32.lit 0 1) (F32.lit 0 1) (F32.lit 0 1), PlaneMesh).
Definition expected_saucer : Transform * Mesh :=
  (T (F32.lit 26 10) (F32.lit 2 100) (F32.lit 26 10)
     (F32.lit 0 1) (F32.lit 0 1) (F32.lit 0 1)
     (F32.lit 0 1) (F32.lit 0 1) (F32.lit 0 1), CylinderMesh true true true).
Definition expected_rim : Transform * Mesh :=
  (T (F32.lit 26 10) (F32.lit 3 100) (F32.lit 26 10)
     (F32.lit 0 1) (F32.lit 0 1) (F32.lit 0 1)
     (F32.lit 0 1) (F32.lit 3 100) (F32.lit 0 1), CylinderMesh false true true).
Definition expected_outer_mug : Transform * Mesh :=
  (T (F32.lit 15 10) (F32.lit 2 1) (F32.lit 15 10)
     (F32.lit 180 1) (F32.lit 0 1) (F32.lit 0 1)
     (F32.lit 0 1) (F32.lit 210 100) (F32.lit 0 1),
   TaperedCylinderMesh true false true).
Definition expected_inner_mug : Transform * Mesh :=
  (T (F32.lit 146 100) (F32.lit 196 100) (F32.lit 146 100)
     (F32.lit 180 1) (F32.lit 0 1) (F32.lit 0 1)
     (F32.lit 0 1) (F32.lit 211 100) (F32.lit 0 1),
   TaperedCylinderMesh false false true).
Definition expected_liquid : Transform * Mesh :=
  (T (F32.lit 130 100) (F32.lit 1 100) (F32.lit 130 100)
     (F32.lit 5 10) (F32.lit 0 1) (F32.lit 3 10)
     (F32.lit 0 1) (F32.lit 178 100) (F32.lit 0 1), CylinderMesh true false false).
Definition expected_bottom : Transform * Mesh :=
  (T (F32.lit 1 1) (F32.lit 1 10) (F32.lit 1 1)
     (F32.lit 0 1) (F32.lit 0 1) (F32.lit 0 1)
     (F32.lit 0 1) (F32.lit 6 100) (F32.lit 0 1), CylinderMesh true true false).

Definition expected_shared : list (Transform * Mesh) :=
  [expected_plane; expected_saucer; expected_rim; expected_outer_mug;
   expected_inner_mug; expected_liquid; expected_bottom].

Definition straw_color : Transform :=
  T (F32.lit 8 100) (F32.lit 296 100) (F32.lit 8 100)
    (F32.lit (-3225) 100) (F32.lit 150 1) (F32.lit 0 1)
    (F32.lit (-45) 100) (F32.lit 25 100) (F32.lit (-12) 100).
Definition straw_depth : Transform :=
  T (F32.lit 8 100) (F32.lit 296 100) (F32.lit 8 100)
    (F32.lit (-24) 1) (F32.lit (-18) 1) (F32.lit 0 1)
    (F32.lit (-45) 100) (F32.lit 260 100) (F32.lit (-12) 100).

(** The colour pass draws the straw sixth, the depth pass draws it last. *)
Definition expected_color_draws : list (Transform * Mesh) :=
  [expected_plane; expected_saucer; expected_rim; expected_outer_mug;
   expected_inner_mug; (straw_color, CylinderMesh true true true);
   expected_liquid; expected_bottom].

Definition expected_depth_draws : list (Transform * Mesh) :=
  expected_shared ++ [(straw_depth, CylinderMesh true true true)].

(** A drawn object as [draws_with_model] reports it. *)
Definition drawn (o : Transform * Mesh) : option mat4 * Mesh :=
  (Some (transformMatrix (fst o)), snd o).

(** [lo <= x <= hi] on floats that are numbers. *)
Definition in_range (lo hi x : float) : Prop :=
  F32.is_nan x = false /\ F32.leb lo x = true /\ F32.leb x hi = true.

(** The ripple members as the constructor and the header leave them, with
    the amplitude between the two clamps. *)
Definition ripple_inv (v : ViewManager) : Prop :=
  m_rippleStep v = F32.lit 1 100 /\
  m_rippleMin v = F32.lit 0 1 /\
  m_rippleMax v = F32.lit 2 10 /\
  in_range (F32.lit 0 1) (F32.lit 2 10) (m_rippleAmplitude v).

(** A call is harmless for the ripple control unless it writes the uniform
    [rippleAmplitude]; then it has to write a float between the clamps. *)
Definition ripple_call_ok (c : Call) : Prop :=
  match c with
  | c_shader_set _ name v =>
      if String.eqb name "rippleAmplitude"
      then exists a, v = UFloat a /\ in_range (F32.lit 0 1) (F32.lit 2 10) a
      else True
  | _ => True
  end.

(** [m] keeps the ripple invariant and makes only harmless calls, whenever
    it returns. *)
Definition keeps {A} (m : M A) : Prop :=
  forall w a w' c,
    ripple_inv (view w) -> m w = Ok a w' c ->
    ripple_inv (view w') /\ Forall ripple_call_ok c.

(** The view manager can run a frame: it has its window [window] and a
    camera, and its shader manager pointer [sm] is null or live. *)
Definition view_ready (window sm : Z) (w : World) : Prop :=
  m_pWindow (view w) = window /\ vm_pShaderManager (view w) = sm /\
  window <> 0 /\ is_Some (g_pCamera w) /\ (sm = 0 \/ live sm w).

(** From a ready state [m] returns, in a ready state. *)
Definition returns {A} (window sm : Z) (m : M A) : Prop :=
  forall w, view_ready window sm w ->
    exists a w' c, m w = Ok a w' c /\ view_ready window sm w'.

End Observations.

(** ** Concrete states, for running the model *)

Module Sample.

Definition shader0 : ShaderManager := {| uniforms := ∅ |}.

Definition gl0 : GLState :=
  {| gl_viewport := (0, 0, 1000, 800); gl_framebuffer := 0;
     gl_active_texture := 0; gl_texture_2d := ∅;
     gl_depth_test := false; gl_depth_mask := true;
     gl_program := 1; gl_next_name := 1 |}.

Definition camera0 : Camera :=
  {| Position := vec3_splat (F32.lit 0 1);
     Front := Vec3 (F32.lit 0 1) (F32.lit 0 1) (F32.lit (-1) 1);
     Up := Vec3 (F32.lit 0 1) (F32.lit 1 1) (F32.lit 0 1);
     Right := Vec3 (F32.lit 1 1) (F32.lit 0 1) (F32.lit 0 1);
     Zoom := F32.lit 45 1;
     MovementSpeed := F32.lit 25 10 |}.

Definition image3 : Image := {| width := 512; height := 512; colorChannels := 3 |}.
Definition image4 : Image := {| width := 256; height := 256; colorChannels := 4 |}.
Definition image1 : Image := {| width := 64; height := 64; colorChannels := 1 |}.

Definition files0 : gmap string Image :=
  <["textures/stone.png" := image3]>
    (<["textures/grass.png" := image4]>
       (<["textures/grey.png" := image1]> ∅)).

(** The state after the two constructors: the main shader manager lives
    at address 1, no shadow resources yet, no window. *)
Definition fresh : World :=
  {| scene := SceneManager_new 1;
     view := ViewManager_new 1;
     g_pCamera := Some camera0;
     gDeltaTime := F32.lit 0 1;
     gLastFrame := F32.lit 0 1;
     heap := <[1 := shader0]> ∅;
     gl := gl0;
     files := files0;
     keys := fun _ => false;
     clock := F32.lit 0 1 |}.

(** Shadow resources in place: framebuffer 5 with depth texture 6, the
    depth-only shader manager at address 2. *)
Definition ready_scene : SceneManager :=
  {| m_pShaderManager := 1;
     m_textureIDs := m_textureIDs (SceneManager_new 1);
     m_loadedTextures := 0;
     m_objectMaterials := [];
     m_shadowFBO := 5;
     m_shadowDepthTexture := 6;
     m_shadowMapWidth := 2048;
     m_shadowMapHeight := 2048;
     m_pDepthShaderManager := 2;
     m_spotLightSpaceMatrix := mat4_diag (F32.of_Z 1) |}.

Definition ready : World :=
  with_heap (fun h => <[2 := shader0]> h) (with_scene (fun _ => ready_scene) fresh).

Definition light_position : vec3 := Vec3 (F32.lit 2 1) (F32.lit 6 1) (F32.lit 2 1).
Definition light_direction : vec3 :=
  Vec3 (F32.lit 0 1) (F32.lit (-1) 1) (F32.lit 0 1).

(** A material list with one entry, and main-program material uniforms
    as PrepareScene writes them. *)
Definition ceramic : OBJECT_MATERIAL :=
  {| diffuseColor := vec3_splat (F32.lit 1 1);
     specularColor := vec3_splat (F32.lit 5 10);
     shininess := F32.lit 32 1;
     mat_tag := "ceramic" |}.

Definition garbage : OBJECT_MATERIAL :=
  {| diffuseColor := Vec3 (F32.lit 9 1) (F32.lit 7 1) (F32.lit (-4) 1);
     specularColor := vec3_splat (F32.lit (-3) 1);
     shininess := F32.lit 12345 1;
     mat_tag := "" |}.

Definition bound_shader : ShaderManager :=
  set_uniform "material.shininess" (UFloat (F32.lit 32 1))
    (set_uniform "material.specularColor" (UVec3 (vec3_splat (F32.lit 5 10)))
       (set_uniform "material.diffuseColor" (UVec3 (vec3_splat (F32.lit 1 1)))
          shader0)).

Definition with_materials (mats : list OBJECT_MATERIAL) (s : SceneManager)
  : SceneManager :=
  {| m_pShaderManager := m_pShaderManager s; m_textureIDs := m_textureIDs s;
     m_loadedTextures := m_loadedTextures s; m_objectMaterials := mats;
     m_shadowFBO := m_shadowFBO s;
     m_shadowDepthTexture := m_shadowDepthTexture s;
     m_shadowMapWidth := m_shadowMapWidth s;
     m_shadowMapHeight := m_shadowMapHeight s;
     m_pDepthShaderManager := m_pDepthShaderManager s;
     m_spotLightSpaceMatrix := m_spotLightSpaceMatrix s |}.

Definition material_world : World :=
  with_heap (fun h => <[1 := bound_shader]> h)
    (with_scene (with_materials [ceramic]) fresh).

(** A registry filled to its capacity. *)
Definition full : World :=
  with_scene (fun s => set_registry (m_textureIDs s) MAX_TEXTURES s) fresh.

(** The state and the calls of an outcome. *)
Definition world_of {A} (o : outcome A) : World :=
  match o with Ok _ w _ => w | Crash _ => fresh end.
Definition calls_of {A} (o : outcome A) : list Call :=
  match o with Ok _ _ c => c | Crash _ => [] end.

(** The same tag registered twice. *)
Definition dup_once : World :=
  Eval vm_compute in
    world_of (CreateGLTexture "textures/stone.png" "dup" fresh).
Definition dup_once_calls : list Call :=
  Eval vm_compute in
    calls_of (CreateGLTexture "textures/stone.png" "dup" fresh).
Definition dup_twice : World :=
  Eval vm_compute in
    world_of (CreateGLTexture "textures/grass.png" "dup" dup_once).
Definition dup_twice_calls : list Call :=
  Eval vm_compute in
    calls_of (CreateGLTexture "textures/grass.png" "dup" dup_once).

(** The two textures of PrepareScene, registered in its order. *)
Definition two_textures : list (string * string) :=
  [("textures/stone.png", "stone"); ("textures/grass.png", "grass")].
Definition registered : World :=
  Eval vm_compute in world_of (CreateGLTextures two_textures fresh).
Definition registered_calls : list Call :=
  Eval vm_compute in calls_of (CreateGLTextures two_textures fresh).

Definition env_I : Env :=
  {| env_keys := fun k => match k with GLFW_KEY_I => true | _ => false end;
     env_clock := F32.lit 1 60 |}.
Definition env_U : Env :=
  {| env_keys := fun k => match k with GLFW_KEY_U => true | _ => false end;
     env_clock := F32.lit 2 60 |}.


(** A view manager with its window, in a frame with the I key down. *)
Definition frame_I : World := set_env env_I (with_view (set_window 9) fresh).
Definition frame_I_after : World :=
  Eval vm_compute in world_of (PrepareSceneView frame_I).
Definition frame_I_calls : list Call :=
  Eval vm_compute in calls_of (PrepareSceneView frame_I).

End Sample.

(** ** C++ [double]: IEEE-754 binary64

    GLFW hands the mouse callbacks their coordinates as [double]; the code
    mixes them with [float] operands and stores the results in [float]s. *)

Module F64.
Definition prec : Z := 53.
Definition emax : Z := 1024.

Definition double : Type := spec_float.

Definition mul : double -> double -> double := SFmul prec emax.
Definition sub : double -> double -> double := SFsub prec emax.

(** The usual arithmetic conversion of a [float] operand to [double]: the
    same number, in the binary64 format. *)
Definition of_float (x : float) : double :=
  match x with
  | S754_finite s m e => binary_normalize prec emax (cond_Zopp s (Z.pos m)) e s
  | _ => x
  end.

(** Conversion of a [double] to [float], as on assignment to a [float]
    variable: the nearest binary32 number. *)
Definition to_float (x : double) : float :=
  match x with
  | S754_finite s m e =>
      binary_normalize F32.prec F32.emax (cond_Zopp s (Z.pos m)) e s
  | _ => x
  end.
End F64.

Arguments F64.mul : simpl never.
Arguments F64.sub : simpl never.
Arguments F64.of_float : simpl never.
Arguments F64.to_float : simpl never.

Section Accessors.
Context `{G : Glm}.

(** ** ViewManager: the camera accessors, the scroll callback, the
       destructor *)

Definition GetCameraPosition (w : World) : vec3 :=
  match g_pCamera w with
  | Some c => Position c
  | None => vec3_splat (F32.lit 0 1)
  end.

Definition GetCameraFront (w : World) : vec3 :=
  match g_pCamera w with
  | Some c => Front c
  | None => Vec3 (F32.lit 0 1) (F32.lit 0 1) (F32.lit (-1) 1)
  end.

Definition set_MovementSpeed (s : float) (c : Camera) : Camera :=
  {| Position := Position c; Front := Front c; Up := Up c; Right := Right c;
     Zoom := Zoom c; MovementSpeed := s |}.

(** [Mouse_Scroll_Callback(window, xOffset, yOffset)].  [yOffset * 2.0f] is
    a product of [double]s, rounded to [float] when it is stored in
    [speedChange]. *)
Definition Mouse_Scroll_Callback (xOffset yOffset : F64.double) : M unit :=
  w <- get;;
  match g_pCamera w with
  | Some cam =>
      let speedChange :=
        F64.to_float (F64.mul yOffset (F64.of_float (F32.lit 2 1))) in
      modify (with_camera
        (Some (set_MovementSpeed
                 (F32.clamp (F32.add (MovementSpeed cam) speedChange)
                    (F32.lit 1 1) (F32.lit 100 1))
                 cam)))
  | None => ret tt
  end.



(** ** More observations on the recorded calls *)

(** Each mesh draw with the value last written before it to the uniform
    [name] of the manager [program]; [last] is the value in effect before
    the first call. *)
Fixpoint draws_with_uniform (program : Z) (name : string)
    (last : option UniformValue) (calls : list Call)
  : list (option UniformValue * Mesh) :=
  match calls with
  | [] => []
  | c_shader_set p n v :: rest =>
      if String.eqb n name && (p =? program)
      then draws_with_uniform program name (Some v) rest
      else draws_with_uniform program name last rest
  | c_Draw mesh :: rest =>
      (last, mesh) :: draws_with_uniform program name last rest
  | _ :: rest => draws_with_uniform program name last rest
  end.

Definition depth_masks (calls : list Call) : list bool :=
  omap (fun c => match c with c_glDepthMask b => Some b | _ => None end) calls.

Definition program_uses (calls : list Call) : list Z :=
  omap (fun c => match c with c_shader_use p => Some p | _ => None end) calls.

Definition active_units (calls : list Call) : list Z :=
  omap (fun c => match c with c_glActiveTexture u => Some u | _ => None end)
       calls.

(** The uniform writes made through the manager [program], in order. *)
Definition writes_through (program : Z) (calls : list Call)
  : list (string * UniformValue) :=
  omap (fun c => match c with
                 | c_shader_set p n v =>
                     if p =? program then Some (n, v) else None
                 | _ => None
                 end) calls.

(** The calls that bind the entries [ids] to consecutive texture units,
    the first to unit [i]. *)
Fixpoint bind_calls (ids : list TEXTURE_INFO) (i : Z) : list Call :=
  match ids with
  | [] => []
  | e :: rest =>
      c_glActiveTexture i :: c_glBindTexture (ID e) :: bind_calls rest (i + 1)
  end.

(** [m] keeps the property [I] of the state and makes only calls that
    satisfy [C], whenever it returns. *)
Definition preserves {A} (I : World -> Prop) (C : Call -> Prop) (m : M A)
  : Prop :=
  forall w a w' c, I w -> m w = Ok a w' c -> I w' /\ Forall C c.

(** [w'] is [w] but for the selected texture unit and the textures bound
    to the units. *)
Definition same_but_textures (w w' : World) : Prop :=
  w' = with_gl (fun g =>
         set_texture_2d (gl_texture_2d (gl w'))
           (set_active_texture (gl_active_texture (gl w')) g)) w.

(** [w'] is [w] but for the uniforms held by the shader managers. *)
Definition same_but_uniforms (w w' : World) : Prop :=
  w' = with_heap (fun _ => heap w') w.

End Accessors.

Section FrameDefs.
Context `{G : Glm}.

(** ** What the passes and the frame preparation leave alone *)

(** The calls of a colour pass: uniform writes through the manager [P],
    texture-unit selections, texture bindings, depth-mask settings with
    [true], and draws. *)
Definition color_pass_call (P : Z) (c : Call) : Prop :=
  match c with
  | c_shader_set p _ _ => p = P
  | c_glActiveTexture _ | c_glBindTexture _ | c_Draw _ => True
  | c_glDepthMask b => b = true
  | _ => False
  end.

(** From [w0] to [w] nothing has changed but the uniforms of the scene's
    shader manager, the selected texture unit, the texture bindings and
    the depth mask, and the depth mask was not cleared. *)
Definition color_pass_frame (w0 w : World) : Prop :=
  scene w = scene w0 /\ view w = view w0 /\ g_pCamera w = g_pCamera w0 /\
  gDeltaTime w = gDeltaTime w0 /\ gLastFrame w = gLastFrame w0 /\
  files w = files w0 /\ keys w = keys w0 /\ clock w = clock w0 /\
  gl_viewport (gl w) = gl_viewport (gl w0) /\
  gl_framebuffer (gl w) = gl_framebuffer (gl w0) /\
  gl_depth_test (gl w) = gl_depth_test (gl w0) /\
  gl_program (gl w) = gl_program (gl w0) /\
  gl_next_name (gl w) = gl_next_name (gl w0) /\
  (gl_depth_mask (gl w0) = true -> gl_depth_mask (gl w) = true) /\
  (forall q, q <> m_pShaderManager (scene w0) -> heap w !! q = heap w0 !! q).

(** The eight meshes of the colour pass, in drawing order. *)
Definition color_meshes : list Mesh :=
  [PlaneMesh; CylinderMesh true true true; CylinderMesh false true true;
   TaperedCylinderMesh true false true; TaperedCylinderMesh false false true;
   CylinderMesh true true true; CylinderMesh true false false;
   CylinderMesh true true false].

(** The upload a successful CreateGLTexture makes: the image's size, in
    the format its channel count selects. *)
Definition upload_of (img : Image) : Call :=
  if colorChannels img =? 3
  then c_glTexImage2D GL_RGB8 (width img) (height img) GL_RGB
  else c_glTexImage2D GL_RGBA8 (width img) (height img) GL_RGBA.

(** The camera [c] is the camera [c0], moved. *)
Definition camera_moved (c0 c : option Camera) : Prop :=
  match c0, c with
  | Some a, Some b => b = set_Position (Position b) a
  | None, None => True
  | _, _ => False
  end.

(** From [w0] to [w] the keyboard processing has changed nothing but the
    view manager's velocity, projection flags and ripple amplitude, and
    the camera's position. *)
Definition view_frame (w0 w : World) : Prop :=
  (scene w = scene w0 /\ gl w = gl w0 /\ heap w = heap w0 /\
   files w = files w0 /\ keys w = keys w0 /\ clock w = clock w0 /\
   gDeltaTime w = gDeltaTime w0 /\ gLastFrame w = gLastFrame w0 /\
   vm_pShaderManager (view w) = vm_pShaderManager (view w0) /\
   m_pWindow (view w) = m_pWindow (view w0) /\
   m_accelerationRate (view w) = m_accelerationRate (view w0) /\
   m_decelerationRate (view w) = m_decelerationRate (view w0) /\
   m_mouseSensitivity (view w) = m_mouseSensitivity (view w0) /\
   m_movementSpeedMultiplier (view w) = m_movementSpeedMultiplier (view w0) /\
   m_rippleStep (view w) = m_rippleStep (view w0) /\
   m_rippleMin (view w) = m_rippleMin (view w0) /\
   m_rippleMax (view w) = m_rippleMax (view w0)) /\
  camera_moved (g_pCamera w0) (g_pCamera w).

(** The projection mode after ProcessProjectionKeys: a key acts when it
    goes down, and O is looked at after P. *)
Definition next_projection (k : Key -> bool) (v : ViewManager) : bool :=
  if k GLFW_KEY_O && negb (m_bOKeyPressed v) then false
  else if k GLFW_KEY_P && negb (m_bPKeyPressed v) then true
  else m_bPerspectiveProjection v.

(** The projection matrix PrepareSceneView builds for a mode and a
    camera. *)
Definition projection_of (perspective : bool) (cam : Camera) : mat4 :=
  if perspective then
    glm_perspective (glm_radians (Zoom cam))
      (F32.div (F32.of_Z WINDOW_WIDTH) (F32.of_Z WINDOW_HEIGHT))
      (F32.lit 1 10) (F32.lit 100 1)
  else
    glm_ortho (SFopp (F32.lit 10 1)) (F32.lit 10 1) (SFopp (F32.lit 10 1))
      (F32.lit 10 1) (F32.lit 1 10) (F32.lit 100 1).

(** The call ProcessKeyboardEvents makes while Escape is down. *)
Definition escape_calls (k : Key -> bool) : list Call :=
  if k GLFW_KEY_ESCAPE then [c_glfwSetWindowShouldClose true] else [].

(** The calls of PrepareSceneView: the close request and uniform writes
    through the view manager's shader manager [sm]. *)
Definition view_prepare_call (sm : Z) (c : Call) : Prop :=
  match c with
  | c_glfwSetWindowShouldClose b => b = true
  | c_shader_set p _ _ => p = sm
  | _ => False
  end.

End FrameDefs.

(** ** ViewManager: the mouse-move callback *)

(** The file-scope variables of ViewManager.cpp that only the mouse-move
    callback uses. *)
Record Mouse : Type := { gLastX : float; gLastY : float; gFirstMouse : bool }.

(** Their initialisers: [WINDOW_WIDTH / 2.0f], [WINDOW_HEIGHT / 2.0f],
    [true]. *)
Definition Mouse_initial : Mouse :=
  {| gLastX := F32.div (F32.of_Z WINDOW_WIDTH) (F32.lit 2 1);
     gLastY := F32.div (F32.of_Z WINDOW_HEIGHT) (F32.lit 2 1);
     gFirstMouse := true |}.

Section MouseMove.
Context `{G : Glm}.

(** [Camera::ProcessMouseMovement(xoffset, yoffset)] belongs to the camera,
    which is outside the sources: any function of the two offsets on the
    camera. *)
Variable ProcessMouseMovement : float -> float -> Camera -> Camera.

(** The offsets the callback computes and the variables it leaves.  The
    positions are [double]s: a store to [gLastX] rounds to [float], and a
    difference is taken in [double] and rounded when it is stored in the
    [float] offset. *)
Definition mouse_offsets (m : Mouse) (xMousePos yMousePos : F64.double)
  : float * float * Mouse :=
  let m1 :=
    if gFirstMouse m
    then {| gLastX := F64.to_float xMousePos; gLastY := F64.to_float yMousePos;
            gFirstMouse := false |}
    else m in
  let xOffset := F64.to_float (F64.sub xMousePos (F64.of_float (gLastX m1))) in
  let yOffset := F64.to_float (F64.sub (F64.of_float (gLastY m1)) yMousePos) in
  (xOffset, yOffset,
   {| gLastX := F64.to_float xMousePos; gLastY := F64.to_float yMousePos;
      gFirstMouse := gFirstMouse m1 |}).

(** [Mouse_Position_Callback(window, xMousePos, yMousePos)] on the mouse
    variables [m]; the result is their new value.  The camera is used
    without a null test. *)
Definition Mouse_Position_Callback (m : Mouse) (xMousePos yMousePos : F64.double)
  : M Mouse :=
  let '(xOffset, yOffset, m') := mouse_offsets m xMousePos yMousePos in
  cam <- camera;;
  modify (with_camera
    (Some (ProcessMouseMovement (F32.mul xOffset (F32.lit 3 1))
             (F32.mul yOffset (F32.lit 3 1)) cam)));;
  ret m'.

End MouseMove.

(** ** Set-up and tear-down of the scene manager

    PrepareScene, DestroyGLTextures and the destructor make calls the frame
    code does not make; their monad records both kinds. *)

(** [glm::cos], which only PrepareScene uses. *)
Class GlmTrig : Type := { glm_cos : float -> float }.

(** The texture parameter values of the shadow map. *)
Inductive ShadowParam : Type := GL_NEAREST | GL_CLAMP_TO_BORDER.

Section SetupModel.
Context `{G : Glm}.

Inductive SetupCall : Type :=
  | s_frame (c : Call)                  (* a call the frame code makes too *)
  | s_glDeleteTextures (texture : Z)
  | s_glGenFramebuffers (framebuffer : Z)
  | s_glDeleteFramebuffers (framebuffer : Z)
  | s_glTexImage2D_depth (w h : Z)      (* GL_DEPTH_COMPONENT24, no pixels *)
  | s_glTexParameteri (pname : GLenum) (param : ShadowParam)
  | s_glTexParameterfv_border_color (r g b a : float)
  | s_glFramebufferTexture2D_depth (texture : Z)
  | s_glDrawBuffer_none
  | s_glReadBuffer_none
  | s_LoadPlaneMesh
  | s_LoadTaperedCylinderMesh
  | s_LoadCylinderMesh
  | s_new_ShaderManager (p : Z)
  | s_LoadShaders (p : Z) (vertexShaderPath fragmentShaderPath : string)
  | s_delete_ShaderManager (p : Z)
  | s_delete_ShapeMeshes.

Inductive setup_outcome (A : Type) : Type :=
  | Done (a : A) (w : World) (calls : list SetupCall)
  | Failed (f : Fault).
Arguments Done {A} a w calls.
Arguments Failed {A} f.

Definition Setup (A : Type) : Type := World -> setup_outcome A.

Definition sret {A} (a : A) : Setup A := fun w => Done a w [].

Definition sbind {A B} (m : Setup A) (f : A -> Setup B) : Setup B := fun w =>
  match m w with
  | Done a w1 c1 =>
      match f a w1 with
      | Done b w2 c2 => Done b w2 (c1 ++ c2)
      | Failed e => Failed e
      end
  | Failed e => Failed e
  end.

Definition sfail {A} (f : Fault) : Setup A := fun _ => Failed f.
Definition sget : Setup World := fun w => Done w w [].
Definition scall (c : SetupCall) : Setup unit := fun w => Done tt w [c].
Definition smodify (f : World -> World) : Setup unit := fun w => Done tt (f w) [].

(** An operation of the frame code, run during set-up. *)
Definition lift {A} (m : M A) : Setup A := fun w =>
  match m w with
  | Ok a w' c => Done a w' (map s_frame c)
  | Crash f => Failed f
  end.

End SetupModel.

Arguments Done {G A} a w calls.
Arguments Failed {G A} f.

Declare Scope setup_scope.
Delimit Scope setup_scope with S.
Notation "x <- m ;; k" := (sbind m (fun x => k))
  (at level 20, m at level 99, k at level 200, only parsing) : setup_scope.
Notation "m ;; k" := (sbind m (fun _ => k))
  (at level 100, k at level 200, only parsing, right associativity)
  : setup_scope.

Section SetupScene.
Context `{G : Glm} `{T : GlmTrig}.

Definition set_pShaderManager (p : Z) (s : SceneManager) : SceneManager :=
  {| m_pShaderManager := p; m_textureIDs := m_textureIDs s;
     m_loadedTextures := m_loadedTextures s;
     m_objectMaterials := m_objectMaterials s;
     m_shadowFBO := m_shadowFBO s; m_shadowDepthTexture := m_shadowDepthTexture s;
     m_shadowMapWidth := m_shadowMapWidth s;
     m_shadowMapHeight := m_shadowMapHeight s;
     m_pDepthShaderManager := m_pDepthShaderManager s;
     m_spotLightSpaceMatrix := m_spotLightSpaceMatrix s |}.

Definition set_shadowFBO (fbo : Z) (s : SceneManager) : SceneManager :=
  {| m_pShaderManager := m_pShaderManager s; m_textureIDs := m_textureIDs s;
     m_loadedTextures := m_loadedTextures s;
     m_objectMaterials := m_objectMaterials s;
     m_shadowFBO := fbo; m_shadowDepthTexture := m_shadowDepthTexture s;
     m_shadowMapWidth := m_shadowMapWidth s;
     m_shadowMapHeight := m_shadowMapHeight s;
     m_pDepthShaderManager := m_pDepthShaderManager s;
     m_spotLightSpaceMatrix := m_spotLightSpaceMatrix s |}.

Definition set_shadowDepthTexture (texture : Z) (s : SceneManager)
  : SceneManager :=
  {| m_pShaderManager := m_pShaderManager s; m_textureIDs := m_textureIDs s;
     m_loadedTextures := m_loadedTextures s;
     m_objectMaterials := m_objectMaterials s;
     m_shadowFBO := m_shadowFBO s; m_shadowDepthTexture := texture;
     m_shadowMapWidth := m_shadowMapWidth s;
     m_shadowMapHeight := m_shadowMapHeight s;
     m_pDepthShaderManager := m_pDepthShaderManager s;
     m_spotLightSpaceMatrix := m_spotLightSpaceMatrix s |}.

Definition set_pDepthShaderManager (p : Z) (s : SceneManager) : SceneManager :=
  {| m_pShaderManager := m_pShaderManager s; m_textureIDs := m_textureIDs s;
     m_loadedTextures := m_loadedTextures s;
     m_objectMaterials := m_objectMaterials s;
     m_shadowFBO := m_shadowFBO s; m_shadowDepthTexture := m_shadowDepthTexture s;
     m_shadowMapWidth := m_shadowMapWidth s;
     m_shadowMapHeight := m_shadowMapHeight s;
     m_pDepthShaderManager := p;
     m_spotLightSpaceMatrix := m_spotLightSpaceMatrix s |}.

(** *** The services of set-up and tear-down *)

(** [glDeleteTextures(1, &texture)]: a deleted texture is unbound from
    every unit it was bound to. *)
Definition glDeleteTextures (texture : Z) : Setup unit :=
  (smodify (with_gl (fun g =>
     set_texture_2d
       ((fun t => if t =? texture then 0 else t) <$> gl_texture_2d g) g));;
   scall (s_glDeleteTextures texture))%S.

(** [glGenFramebuffers(1, &name)]; [framebuffer] is the name the context
    hands out. *)
Definition glGenFramebuffers (framebuffer : Z) : Setup Z :=
  (scall (s_glGenFramebuffers framebuffer);; sret framebuffer)%S.

(** [glDeleteFramebuffers(1, &framebuffer)]: a deleted framebuffer that is
    bound gives way to the default one. *)
Definition glDeleteFramebuffers (framebuffer : Z) : Setup unit :=
  (smodify (with_gl (fun g =>
     if gl_framebuffer g =? framebuffer then set_framebuffer 0 g else g));;
   scall (s_glDeleteFramebuffers framebuffer))%S.

(** [new ShaderManager()]; [p] is the address the allocation returns. *)
Definition new_ShaderManager (p : Z) : Setup Z :=
  (smodify (with_heap (fun h => <[p := {| uniforms := ∅ |}]> h));;
   scall (s_new_ShaderManager p);;
   sret p)%S.

(** [p->LoadShaders(vertex, fragment)], a member call through [p]. *)
Definition LoadShaders (p : Z) (vertexShaderPath fragmentShaderPath : string)
  : Setup unit := fun w =>
  if p =? 0 then Failed NullDereference else
  match heap w !! p with
  | Some _ => Done tt w [s_LoadShaders p vertexShaderPath fragmentShaderPath]
  | None => Failed NullDereference
  end.

(** [delete p] on a shader manager; a pointer to no live manager is a
    fault. *)
Definition delete_ShaderManager (p : Z) : Setup unit := fun w =>
  match heap w !! p with
  | Some _ => Done tt (with_heap (delete p) w) [s_delete_ShaderManager p]
  | None => Failed NullDereference
  end.

(** *** SceneManager::~SceneManager *)

Definition SceneManager_dtor : Setup unit :=
  (smodify (with_scene (set_pShaderManager 0));;
   scall s_delete_ShapeMeshes;;
   w <- sget;;
   (if negb (m_shadowDepthTexture (scene w) =? 0) then
      glDeleteTextures (m_shadowDepthTexture (scene w));;
      smodify (with_scene (set_shadowDepthTexture 0))
    else sret tt);;
   w <- sget;;
   (if negb (m_shadowFBO (scene w) =? 0) then
      glDeleteFramebuffers (m_shadowFBO (scene w));;
      smodify (with_scene (set_shadowFBO 0))
    else sret tt);;
   w <- sget;;
   if negb (m_pDepthShaderManager (scene w) =? 0) then
     delete_ShaderManager (m_pDepthShaderManager (scene w));;
     smodify (with_scene (set_pDepthShaderManager 0))
   else sret tt)%S.

(** *** SceneManager::DestroyGLTextures *)

(** The loop of DestroyGLTextures, [remaining = m_loadedTextures - i]
    iterations from [i]. *)
Fixpoint DestroyGLTextures_loop (remaining : nat) (i : Z) : Setup unit :=
  match remaining with
  | O => sret tt
  | S r =>
      (w <- sget;;
       match m_textureIDs (scene w) !! Z.to_nat i with
       | Some e =>
           (if negb (ID e =? 0) then
              glDeleteTextures (ID e);;
              smodify (with_scene (fun s =>
                set_registry
                  (<[Z.to_nat i := {| tex_tag := tex_tag e; ID := 0 |}]>
                     (m_textureIDs s))
                  (m_loadedTextures s) s))
            else sret tt);;
           DestroyGLTextures_loop r (i + 1)
       | None => sfail OutOfBounds
       end)%S
  end.

Definition DestroyGLTextures : Setup unit :=
  (w <- sget;;
   DestroyGLTextures_loop (Z.to_nat (m_loadedTextures (scene w))) 0;;
   smodify (with_scene (fun s => set_registry (m_textureIDs s) 0 s)))%S.

(** *** SceneManager::PrepareScene *)

(** The lighting and material defaults PrepareScene writes through the
    shader manager [sm]. *)
Definition PrepareScene_lighting (sm : Z) : M unit :=
  setIntValue sm "bUseLighting" true;;
  setVec3Value sm "material.diffuseColor"
    (Vec3 (F32.lit 1 1) (F32.lit 1 1) (F32.lit 1 1));;
  setVec3Value sm "material.specularColor"
    (Vec3 (F32.lit 5 10) (F32.lit 5 10) (F32.lit 5 10));;
  setFloatValue sm "material.shininess" (F32.lit 32 1);;
  setVec3Value sm "directionalLight.direction"
    (Vec3 (F32.lit (-2) 10) (F32.lit (-1) 1) (F32.lit (-3) 10));;
  setVec3Value sm "directionalLight.ambient"
    (Vec3 (F32.lit 15 100) (F32.lit 15 100) (F32.lit 15 100));;
  setVec3Value sm "directionalLight.diffuse"
    (Vec3 (F32.lit 3 10) (F32.lit 3 10) (F32.lit 3 10));;
  setVec3Value sm "directionalLight.specular"
    (Vec3 (F32.lit 1 1) (F32.lit 1 1) (F32.lit 1 1));;
  setIntValue sm "directionalLight.bActive" true;;
  setVec3Value sm "pointLights[0].position"
    (Vec3 (F32.lit 2 1) (F32.lit 6 1) (F32.lit 2 1));;
  setVec3Value sm "pointLights[0].ambient"
    (Vec3 (F32.lit 8 100) (F32.lit 8 100) (F32.lit 8 100));;
  setVec3Value sm "pointLights[0].diffuse"
    (Vec3 (F32.lit 35 100) (F32.lit 35 100) (F32.lit 35 100));;
  setVec3Value sm "pointLights[0].specular"
    (Vec3 (F32.lit 35 100) (F32.lit 35 100) (F32.lit 35 100));;
  setIntValue sm "pointLights[0].bActive" true;;
  setIntValue sm "pointLights[1].bActive" false;;
  setIntValue sm "pointLights[2].bActive" false;;
  setIntValue sm "pointLights[3].bActive" false;;
  setIntValue sm "pointLights[4].bActive" false;;
  setFloatValue sm "spotLight.cutOff" (glm_cos (glm_radians (F32.lit 18 1)));;
  setFloatValue sm "spotLight.outerCutOff"
    (glm_cos (glm_radians (F32.lit 26 1)));;
  setFloatValue sm "spotLight.constant" (F32.lit 1 1);;
  setFloatValue sm "spotLight.linear" (F32.lit 45 1000);;
  setFloatValue sm "spotLight.quadratic" (F32.lit 8 1000);;
  setVec3Value sm "spotLight.ambient" (vec3_splat (F32.lit 2 100));;
  setVec3Value sm "spotLight.diffuse" (vec3_splat (F32.lit 11 10));;
  setVec3Value sm "spotLight.specular" (vec3_splat (F32.lit 11 10));;
  setIntValue sm "spotLight.bActive" true.

(** The shadow map resources, created when there is no shadow
    framebuffer yet: a framebuffer with a depth texture of the shadow map's
    size attached and no colour buffer.  The texture stays bound to the
    selected unit.  [framebuffer] is the name glGenFramebuffers hands
    out. *)
Definition PrepareScene_shadowMap (framebuffer : Z) : Setup unit :=
  (w <- sget;;
   if m_shadowFBO (scene w) =? 0 then
     fbo <- glGenFramebuffers framebuffer;;
     smodify (with_scene (set_shadowFBO fbo));;
     texture <- lift glGenTextures;;
     smodify (with_scene (set_shadowDepthTexture texture));;
     w <- sget;;
     lift (glBindTexture (m_shadowDepthTexture (scene w)));;
     scall (s_glTexImage2D_depth (m_shadowMapWidth (scene w))
              (m_shadowMapHeight (scene w)));;
     scall (s_glTexParameteri GL_TEXTURE_MIN_FILTER GL_NEAREST);;
     scall (s_glTexParameteri GL_TEXTURE_MAG_FILTER GL_NEAREST);;
     scall (s_glTexParameteri GL_TEXTURE_WRAP_S GL_CLAMP_TO_BORDER);;
     scall (s_glTexParameteri GL_TEXTURE_WRAP_T GL_CLAMP_TO_BORDER);;
     scall (s_glTexParameterfv_border_color (F32.lit 1 1) (F32.lit 1 1)
              (F32.lit 1 1) (F32.lit 1 1));;
     lift (glBindFramebuffer (m_shadowFBO (scene w)));;
     scall (s_glFramebufferTexture2D_depth (m_shadowDepthTexture (scene w)));;
     scall s_glDrawBuffer_none;;
     scall s_glReadBuffer_none;;
     lift (glBindFramebuffer 0)
   else sret tt)%S.

(** The depth-only shader manager, created when there is none yet.
    [depthShader] is the address [new ShaderManager()] returns. *)
Definition PrepareScene_depthShader (depthShader : Z) : Setup unit :=
  (w <- sget;;
   if m_pDepthShaderManager (scene w) =? 0 then
     p <- new_ShaderManager depthShader;;
     smodify (with_scene (set_pDepthShaderManager p));;
     w <- sget;;
     LoadShaders (m_pDepthShaderManager (scene w)) "shaders/vertexShader.glsl"
       "shaders/shadowDepthFragment.glsl"
   else sret tt)%S.

(** [PrepareScene()].  The results of the two CreateGLTexture calls are
    not looked at. *)
Definition PrepareScene (framebuffer depthShader : Z) : Setup unit :=
  (_ <- lift (CreateGLTexture "textures/stone.png" "stone");;
   _ <- lift (CreateGLTexture "textures/grass.png" "grass");;
   lift BindGLTextures;;
   w <- sget;;
   (if negb (m_pShaderManager (scene w) =? 0)
    then lift (PrepareScene_lighting (m_pShaderManager (scene w)))
    else sret tt);;
   scall s_LoadPlaneMesh;;
   scall s_LoadTaperedCylinderMesh;;
   scall s_LoadCylinderMesh;;
   PrepareScene_shadowMap framebuffer;;
   PrepareScene_depthShader depthShader)%S.

(** PrepareScene [n] times over. *)
Fixpoint PrepareScene_times (n : nat) (framebuffer depthShader : Z)
  : Setup unit :=
  match n with
  | O => sret tt
  | S k =>
      (PrepareScene framebuffer depthShader;;
       PrepareScene_times k framebuffer depthShader)%S
  end.

(** *** Observations on set-up calls *)

Definition deleted_textures (calls : list SetupCall) : list Z :=
  omap (fun c => match c with s_glDeleteTextures t => Some t | _ => None end)
       calls.

Definition deleted_managers (calls : list SetupCall) : list Z :=
  omap (fun c => match c with s_delete_ShaderManager p => Some p | _ => None end)
       calls.

Definition frame_calls (calls : list SetupCall) : list Call :=
  omap (fun c => match c with s_frame c' => Some c' | _ => None end) calls.

(** The non-zero handles among the first [n] entries of the registry. *)
Definition live_handles (ids : list TEXTURE_INFO) (n : nat) : list Z :=
  filter (fun t => t <> 0) (map ID (take n ids)).

(** A registry entry with its handle cleared, and the registry with the
    handles of its first [n] entries cleared. *)
Definition clear_entry (e : TEXTURE_INFO) : TEXTURE_INFO :=
  {| tex_tag := tex_tag e; ID := 0 |}.

Definition cleared (ids : list TEXTURE_INFO) (n : nat) : list TEXTURE_INFO :=
  map clear_entry (take n ids) ++ drop n ids.

Definition generated_framebuffers (calls : list SetupCall) : list Z :=
  omap (fun c => match c with s_glGenFramebuffers f => Some f | _ => None end)
       calls.

Definition new_managers (calls : list SetupCall) : list Z :=
  omap (fun c => match c with s_new_ShaderManager p => Some p | _ => None end)
       calls.

(** The mesh loads among the calls: 0 for the plane, 1 for the tapered
    cylinder, 2 for the cylinder. *)
Definition mesh_loads (calls : list SetupCall) : list Z :=
  omap (fun c => match c with
                 | s_LoadPlaneMesh => Some 0
                 | s_LoadTaperedCylinderMesh => Some 1
                 | s_LoadCylinderMesh => Some 2
                 | _ => None
                 end) calls.

(** The file [filename] decodes to an image CreateGLTexture accepts. *)
Definition loadable (filename : string) (w : World) : Prop :=
  exists img, files w !! filename = Some img /\
              (colorChannels img = 3 \/ colorChannels img = 4).

(** The scene manager after [j] calls of PrepareScene that loaded both
    textures: two more registry entries per call, the first two being
    stone and grass, and the shadow resources present from the first call
    on.  [P] is the main shader manager. *)
Definition prepared (P : Z) (j : nat) (w : World) : Prop :=
  m_pShaderManager (scene w) = P /\ live P w /\
  loadable "textures/stone.png" w /\ loadable "textures/grass.png" w /\
  length (m_textureIDs (scene w)) = Z.to_nat MAX_TEXTURES /\
  m_loadedTextures (scene w) = 2 * Z.of_nat j /\
  match j with
  | O => m_shadowFBO (scene w) = 0 /\ m_pDepthShaderManager (scene w) = 0
  | S _ =>
      m_shadowFBO (scene w) <> 0 /\ m_pDepthShaderManager (scene w) <> 0 /\
      exists e0 e1,
        m_textureIDs (scene w) !! 0%nat = Some e0 /\ tex_tag e0 = "stone" /\
        m_textureIDs (scene w) !! 1%nat = Some e1 /\ tex_tag e1 = "grass"
  end.

End SetupScene.

(** ** More concrete states *)

(** A cosine for running PrepareScene: the Taylor polynomial of degree 4,
    in binary32.  Nothing proved below depends on it. *)
#[export] Instance glm_trig_series : GlmTrig := {|
  glm_cos := fun x =>
    let x2 := F32.mul x x in
    F32.add (F32.sub (F32.lit 1 1) (F32.div x2 (F32.lit 2 1)))
            (F32.div (F32.mul x2 x2) (F32.lit 24 1))
|}.

Module Scenes.
Import Sample.

(** A scene manager without a shader manager. *)
Definition no_shader : World := with_scene (set_pShaderManager 0) fresh.

(** No texture file can be decoded. *)
Definition no_files : World :=
  {| scene := scene fresh; view := view fresh; g_pCamera := g_pCamera fresh;
     gDeltaTime := gDeltaTime fresh; gLastFrame := gLastFrame fresh;
     heap := heap fresh; gl := gl fresh; files := ∅; keys := keys fresh;
     clock := clock fresh |}.

(** A view manager with its window, in a frame with the O key down. *)
Definition env_O : Env :=
  {| env_keys := fun k => match k with GLFW_KEY_O => true | _ => false end;
     env_clock := F32.lit 3 60 |}.
Definition frame_O : World := set_env env_O (with_view (set_window 9) fresh).

(** A camera that ignores the mouse. *)
Definition still (xoffset yoffset : float) (c : Camera) : Camera := c.

(** The pixel position (500, 400) and one notch of the scroll wheel, as
    [double]s. *)
Definition x500 : F64.double := F64.of_float (F32.of_Z 500).
Definition y400 : F64.double := F64.of_float (F32.of_Z 400).
Definition notch : F64.double := F64.of_float (F32.of_Z 1).

End Scenes.


(* ===================================================================== *)
(** * Part II: lemmas and theorems                                        *)
(* ===================================================================== *)

(** ** binary32: rounding never invents a NaN, and comparison is an order *)

Module F32Facts.

Lemma iter_pos_preserves {A} (P : A -> Prop) (f : A -> A) :
  (forall x, P x -> P (f x)) -> forall n x, P x -> P (iter_pos f n x).
Proof.
  intros Hf. induction n as [n IH|n IH|]; intros x Hx; simpl; auto.
Qed.

Lemma shr_1_nonneg mrs : 0 <= shr_m mrs -> 0 <= shr_m (shr_1 mrs).
Proof.
  destruct mrs as [m r s]. simpl.
  destruct m as [|[p|p|]|[p|p|]]; simpl; lia.
Qed.

Lemma shr_nonneg mrs e n : 0 <= shr_m mrs -> 0 <= shr_m (fst (shr mrs e n)).
Proof.
  intros H. destruct n as [|p|p]; simpl; auto.
  apply (iter_pos_preserves (fun x => 0 <= shr_m x)); auto using shr_1_nonneg.
Qed.

Lemma shr_record_of_loc_m m l : shr_m (shr_record_of_loc m l) = m.
Proof. destruct l as [|[]]; reflexivity. Qed.

Lemma shr_fexp_nonneg prec emax m e l :
  0 <= m -> 0 <= shr_m (fst (shr_fexp prec emax m e l)).
Proof.
  intros H. unfold shr_fexp. apply shr_nonneg.
  rewrite shr_record_of_loc_m. exact H.
Qed.

Lemma round_nearest_even_nonneg m l : 0 <= m -> 0 <= round_nearest_even m l.
Proof.
  intros H. unfold round_nearest_even.
  destruct l as [|[]]; try destruct (Z.even m); lia.
Qed.

Lemma binary_round_aux_not_nan prec emax sx mx ex lx :
  0 <= mx -> F32.is_nan (binary_round_aux prec emax sx mx ex lx) = false.
Proof.
  intros H. unfold binary_round_aux.
  pose proof (shr_fexp_nonneg prec emax mx ex lx H) as H1.
  destruct (shr_fexp prec emax mx ex lx) as [mrs' e']. simpl in H1.
  pose proof (shr_fexp_nonneg prec emax _ e' loc_Exact
                (round_nearest_even_nonneg _ (loc_of_shr_record mrs') H1)) as H2.
  destruct (shr_fexp prec emax _ e' loc_Exact) as [mrs'' e'']. simpl in H2.
  destruct (shr_m mrs'') as [|p|p]; [reflexivity| |lia].
  destruct (e'' <=? emax - prec); reflexivity.
Qed.

Lemma binary_normalize_not_nan prec emax m e sz :
  F32.is_nan (binary_normalize prec emax m e sz) = false.
Proof.
  destruct m as [|p|p]; simpl; [reflexivity| |];
    unfold binary_round;
    destruct (shl_align _ _ _) as [mz ez];
    apply binary_round_aux_not_nan; lia.
Qed.

Lemma add_finite_not_nan x y :
  F32.is_finite x = true -> F32.is_finite y = true ->
  F32.is_nan (F32.add x y) = false.
Proof.
  destruct x as [sx|sx| |sx mx ex], y as [sy|sy| |sy my ey];
    try discriminate; intros _ _; unfold F32.add, SFadd.
  - destruct sx, sy; reflexivity.
  - reflexivity.
  - reflexivity.
  - apply binary_normalize_not_nan.
Qed.

Lemma sub_finite_not_nan x y :
  F32.is_finite x = true -> F32.is_finite y = true ->
  F32.is_nan (F32.sub x y) = false.
Proof.
  destruct x as [sx|sx| |sx mx ex], y as [sy|sy| |sy my ey];
    try discriminate; intros _ _; unfold F32.sub, SFsub.
  - destruct sx, sy; reflexivity.
  - reflexivity.
  - reflexivity.
  - apply binary_normalize_not_nan.
Qed.

Lemma compare_antisym x y :
  SFcompare y x = option_map CompOpp (SFcompare x y).
Proof.
  destruct x as [sx|sx| |sx mx ex], y as [sy|sy| |sy my ey]; simpl;
    try reflexivity;
    try (destruct sx; reflexivity); try (destruct sy; reflexivity);
    try (destruct sx, sy; reflexivity).
  destruct sx, sy; simpl; try reflexivity;
    rewrite (Z.compare_antisym ey ex);
    destruct (ey ?= ex); simpl; try reflexivity;
    change (Pos.compare_cont Eq mx my) with (Pos.compare mx my);
    change (Pos.compare_cont Eq my mx) with (Pos.compare my mx);
    rewrite (Pos.compare_antisym my mx);
    destruct (my ?= mx)%positive; reflexivity.
Qed.

Lemma compare_some x y :
  F32.is_nan x = false -> F32.is_nan y = false ->
  exists c, SFcompare x y = Some c.
Proof.
  destruct x as [sx|sx| |sx mx ex], y as [sy|sy| |sy my ey]; simpl;
    try discriminate; intros _ _; eauto.
Qed.

Lemma leb_refl x : F32.is_nan x = false -> F32.leb x x = true.
Proof.
  intros Hx. unfold F32.leb, SFleb.
  destruct (compare_some x x Hx Hx) as [c Hc].
  pose proof (compare_antisym x x) as Ha. rewrite Hc in Ha. simpl in Ha.
  rewrite Hc. destruct c; try reflexivity; discriminate.
Qed.

Lemma ltb_false_leb x y :
  F32.is_nan x = false -> F32.is_nan y = false ->
  F32.ltb x y = false -> F32.leb y x = true.
Proof.
  intros Hx Hy. unfold F32.ltb, F32.leb, SFltb, SFleb.
  rewrite (compare_antisym x y).
  destruct (compare_some x y Hx Hy) as [c ->]. simpl.
  destruct c; simpl; congruence.
Qed.

Lemma leb_ltb_false x y : F32.leb x y = true -> F32.ltb y x = false.
Proof.
  unfold F32.ltb, F32.leb, SFltb, SFleb. rewrite (compare_antisym x y).
  destruct (SFcompare x y) as [[]|]; simpl; congruence.
Qed.

(** [glm::clamp] of a number between two ordered numbers lies between
    them. *)
Lemma clamp_in_range x lo hi :
  F32.is_nan lo = false -> F32.is_nan hi = false -> F32.leb lo hi = true ->
  F32.is_nan x = false ->
  in_range lo hi (F32.clamp x lo hi).
Proof.
  intros Hlo Hhi Hle Hx. unfold in_range, F32.clamp, F32.max, F32.min.
  destruct (F32.ltb x lo) eqn:E1.
  - rewrite (leb_ltb_false _ _ Hle). auto using leb_refl.
  - destruct (F32.ltb hi x) eqn:E2.
    + auto using leb_refl.
    + auto using ltb_false_leb.
Qed.

Lemma in_range_finite x :
  in_range (F32.lit 0 1) (F32.lit 2 10) x -> F32.is_finite x = true.
Proof.
  intros (Hn & H0 & H1). destruct x as [s|[]| |s m e]; try reflexivity;
    vm_compute in Hn, H0, H1; congruence.
Qed.

(** The literals of the ripple control, as bit patterns:
    [0.10f = 0x3DCCCCCD], [0.01f = 0x3C23D70A], [0.2f = 0x3E4CCCCD]. *)
Lemma ripple_literals :
  F32.lit 10 100 = S754_finite false 13421773 (-27) /\
  F32.lit 1 100 = S754_finite false 10737418 (-30) /\
  F32.lit 2 10 = S754_finite false 13421773 (-26) /\
  F32.lit 0 1 = S754_zero false.
Proof. vm_compute. auto. Qed.

End F32Facts.

(** ** Running the monad *)

Section Runs.
Context `{G : Glm}.

Lemma bind_run {A B} (m : M A) (f : A -> M B) w a w1 c1 b w2 c2 :
  m w = Ok a w1 c1 -> f a w1 = Ok b w2 c2 -> bind m f w = Ok b w2 (c1 ++ c2).
Proof. intros H1 H2. unfold bind. rewrite H1, H2. reflexivity. Qed.

Lemma bind_inv {A B} (m : M A) (f : A -> M B) w b w2 c :
  bind m f w = Ok b w2 c ->
  exists a w1 c1 c2, m w = Ok a w1 c1 /\ f a w1 = Ok b w2 c2 /\ c = (c1 ++ c2)%list.
Proof.
  unfold bind. destruct (m w) as [a w1 c1|e]; [|discriminate].
  destruct (f a w1) as [b' w2' c2|e] eqn:Hf; [|discriminate].
  intros [= -> -> <-]. eauto 10.
Qed.

Lemma insert_as_alter (h : gmap Z ShaderManager) p f sh :
  h !! p = Some sh -> <[p := f sh]> h = alter f p h.
Proof.
  intros Hp. apply map_eq. intros i.
  destruct (decide (p = i)) as [->|Hne].
  - rewrite lookup_insert_eq, lookup_alter_eq, Hp. reflexivity.
  - rewrite lookup_insert_ne, lookup_alter_ne by done. reflexivity.
Qed.

Lemma setUniform_run p name v w :
  live p w ->
  setUniform p name v w = Ok tt (store p name v w) [c_shader_set p name v].
Proof.
  intros [Hp [sh Hsh]]. unfold setUniform, store.
  destruct (Z.eqb_spec p 0) as [->|_]; [done|].
  rewrite Hsh. f_equal. unfold with_heap. f_equal.
  apply (insert_as_alter _ _ (set_uniform name v)). exact Hsh.
Qed.

Lemma use_run p w :
  live p w -> use p w = Ok tt (with_gl (set_program p) w) [c_shader_use p].
Proof.
  intros [Hp [sh Hsh]]. unfold use.
  destruct (Z.eqb_spec p 0) as [->|_]; [done|]. rewrite Hsh. reflexivity.
Qed.

Lemma is_Some_alter (h : gmap Z ShaderManager) f q p :
  is_Some (alter f q h !! p) <-> is_Some (h !! p).
Proof.
  destruct (decide (q = p)) as [->|Hne].
  - rewrite lookup_alter_eq. rewrite fmap_is_Some. reflexivity.
  - rewrite lookup_alter_ne by done. reflexivity.
Qed.

Lemma live_store p q name v w : live p w -> live p (store q name v w).
Proof.
  intros [? ?]. split; [done|]. unfold store; simpl. by apply is_Some_alter.
Qed.

Lemma live_with_gl p f w : live p w -> live p (with_gl f w).
Proof. exact id. Qed.
Lemma live_with_scene p f w : live p w -> live p (with_scene f w).
Proof. exact id. Qed.
Lemma live_with_view p f w : live p w -> live p (with_view f w).
Proof. exact id. Qed.
Lemma live_with_camera p c w : live p w -> live p (with_camera c w).
Proof. exact id. Qed.
Lemma live_with_frame_time p a b w : live p w -> live p (with_frame_time a b w).
Proof. exact id. Qed.
Lemma live_set_env p e w : live p w -> live p (set_env e w).
Proof. exact id. Qed.

Lemma nonnull_test p : p <> 0 -> negb (p =? 0) = true.
Proof. intros H. destruct (Z.eqb_spec p 0); [done|reflexivity]. Qed.

End Runs.

(** [run] executes a sequence of service calls symbolically: the goal is
    [m w = Ok ?a ?w' ?calls], and the pointers used are live by a
    hypothesis. *)
Ltac solve_live :=
  repeat lazymatch goal with
    | |- live _ (store _ _ _ _) => apply live_store
    | |- live _ (with_gl _ _) => apply live_with_gl
    | |- live _ (with_scene _ _) => apply live_with_scene
    | |- live _ (with_view _ _) => apply live_with_view
    | |- live _ (with_camera _ _) => apply live_with_camera
    | |- live _ (with_frame_time _ _ _) => apply live_with_frame_time
    | |- live _ (set_env _ _) => apply live_set_env
    | |- live _ _ => eassumption
    end.

Ltac run_prim :=
  lazymatch goal with
  | |- setUniform _ _ _ _ = _ => eapply setUniform_run; solve_live
  | |- setIntValue _ _ _ _ = _ => eapply setUniform_run; solve_live
  | |- setFloatValue _ _ _ _ = _ => eapply setUniform_run; solve_live
  | |- setVec2Value _ _ _ _ _ = _ => eapply setUniform_run; solve_live
  | |- setVec3Value _ _ _ _ = _ => eapply setUniform_run; solve_live
  | |- setVec4Value _ _ _ _ _ _ _ = _ => eapply setUniform_run; solve_live
  | |- setMat4Value _ _ _ _ = _ => eapply setUniform_run; solve_live
  | |- setSampler2DValue _ _ _ _ = _ => eapply setUniform_run; solve_live
  | |- setDepthModel _ _ _ _ _ _ _ = _ => eapply setUniform_run; solve_live
  | |- use _ _ = _ => eapply use_run; solve_live
  | |- _ => reflexivity
  end.

Ltac run :=
  repeat (cbv beta;
    lazymatch goal with
    | |- bind _ _ _ = _ => eapply bind_run
    | |- glActiveTexture _ _ = _ => unfold glActiveTexture
    | |- glBindTexture _ _ = _ => unfold glBindTexture
    | |- glDepthMask _ _ = _ => unfold glDepthMask
    | |- glGetViewport _ = _ => unfold glGetViewport
    | |- glViewport _ _ _ _ _ = _ => unfold glViewport
    | |- glBindFramebuffer _ _ = _ => unfold glBindFramebuffer
    | |- glEnableDepthTest _ = _ => unfold glEnableDepthTest
    | |- DrawPlaneMesh _ = _ => unfold DrawPlaneMesh
    | |- DrawCylinderMesh _ _ _ _ = _ => unfold DrawCylinderMesh
    | |- DrawTaperedCylinderMesh _ _ _ _ = _ => unfold DrawTaperedCylinderMesh
    | |- _ => progress run_prim
    end).


(** ** The shadow pass *)

Section ShadowPass.
Context `{G : Glm}.

(** RenderShadowMap on initialised resources, step by step: it returns, and
    this is what it leaves and what it called. *)
Lemma RenderShadowMap_run p d w :
  shadow_ready w ->
  exists w' calls,
    RenderShadowMap p d w = Ok tt w' calls /\
    scene w' =
      set_spotLightSpaceMatrix
        (mat4_mul (lightProjection (scene w)) (lightView p d)) (scene w) /\
    gl_viewport (gl w') = gl_viewport (gl w) /\
    gl_framebuffer (gl w') = 0 /\
    framebuffer_binds calls = [m_shadowFBO (scene w); 0] /\
    state_queries calls = [(GL_VIEWPORT, gl_viewport (gl w))] /\
    viewport_sets calls =
      [(0, 0, m_shadowMapWidth (scene w), m_shadowMapHeight (scene w));
       gl_viewport (gl w)] /\
    draws_with_model (m_pDepthShaderManager (scene w)) None calls =
      map drawn expected_depth_draws /\
    (forall q, live q w -> live q w') /\
    gl_depth_test (gl w') = true /\
    gl_program (gl w') = m_pDepthShaderManager (scene w).
Proof.
  intros [Hfbo Hlive].
  destruct (gl_viewport (gl w)) as [[[x y] vw] vh] eqn:Hvp.
  eexists _, _. split.
  - unfold RenderShadowMap. eapply bind_run; [reflexivity|]. cbv beta zeta.
    destruct Hlive as [Hp Hs].
    rewrite (proj2 (Z.eqb_neq _ _) Hfbo), (proj2 (Z.eqb_neq _ _) Hp).
    cbn [orb].
    assert (Hlive : live (m_pDepthShaderManager (scene w)) w)
      by (split; assumption).
    eapply bind_run; [reflexivity|].
    eapply bind_run; [run|].
    cbn [gl with_scene]. rewrite Hvp.
    run.
  - cbn [app].
    split; [reflexivity|]. split; [reflexivity|]. split; [reflexivity|].
    split; [reflexivity|]. split; [rewrite <- Hvp; reflexivity|].
    split; [reflexivity|]. split; [|split; [|split; reflexivity]].
    + cbn [draws_with_model]. rewrite Z.eqb_refl. reflexivity.
    + intros q Hq. solve_live.
Qed.

(** Without the framebuffer or without the depth-only shader the pass is
    the identity: no call, no change. *)
Lemma RenderShadowMap_uninitialized p d w :
  m_shadowFBO (scene w) = 0 \/ m_pDepthShaderManager (scene w) = 0 ->
  RenderShadowMap p d w = Ok tt w [].
Proof.
  intros H. unfold RenderShadowMap, bind, get.
  assert ((m_shadowFBO (scene w) =? 0) || (m_pDepthShaderManager (scene w) =? 0)
          = true) as ->.
  { destruct H as [-> | ->]; [reflexivity|]. apply orb_true_r. }
  reflexivity.
Qed.

Lemma aspect_of_shadow_map :
  F32.div (F32.of_Z 2048) (F32.of_Z 2048) = F32.lit 1 1.
Proof. vm_compute. reflexivity. Qed.

(** C3. For every light position [p] and direction [d], RenderShadowMap on
    initialised resources (the map being 2048 x 2048, as the constructor
    sets it) returns and stores as light-space matrix exactly
    [perspective(radians(48), 2048/2048, 0.05, 80) *
     lookAt(p, p + normalize(d), (0,1,0))]; the aspect ratio [2048/2048]
    is the float [1.0], so the matrix is also
    [perspective(radians(48), 1.0, 0.05, 80) * lookAt(...)].  The equality
    is one of values, which is within any tolerance; [p = (2,6,2)] is an
    instance. *)
Theorem RenderShadowMap_light_space_matrix p d w :
  shadow_ready w ->
  m_shadowMapWidth (scene w) = 2048 ->
  m_shadowMapHeight (scene w) = 2048 ->
  exists w' calls,
    RenderShadowMap p d w = Ok tt w' calls /\
    m_spotLightSpaceMatrix (scene w') =
      mat4_mul
        (glm_perspective (glm_radians (F32.lit 48 1))
           (F32.div (F32.of_Z 2048) (F32.of_Z 2048))
           (F32.lit 5 100) (F32.lit 80 1))
        (glm_lookAt p (vec3_add p (glm_normalize d))
           (Vec3 (F32.lit 0 1) (F32.lit 1 1) (F32.lit 0 1))) /\
    m_spotLightSpaceMatrix (scene w') =
      mat4_mul
        (glm_perspective (glm_radians (F32.lit 48 1)) (F32.lit 1 1)
           (F32.lit 5 100) (F32.lit 80 1))
        (glm_lookAt p (vec3_add p (glm_normalize d))
           (Vec3 (F32.lit 0 1) (F32.lit 1 1) (F32.lit 0 1))).
Proof.
  intros Hready Hw Hh.
  destruct (RenderShadowMap_run p d w Hready) as (w' & calls & Hrun & Hs & _).
  exists w', calls. split; [exact Hrun|].
  rewrite Hs. unfold set_spotLightSpaceMatrix, lightProjection, lightView.
  cbn [m_spotLightSpaceMatrix]. rewrite Hw, Hh.
  split; [reflexivity|]. rewrite aspect_of_shadow_map. reflexivity.
Qed.

(** C4. Every RenderShadowMap on initialised resources returns having bound
    a framebuffer twice, first the shadow framebuffer and then the default
    one (one bind/unbind pair); it reads back exactly one piece of context
    state, the viewport (one save), sets the viewport to the size of the
    map and finally to the value read (one restore; nothing else is saved
    or restored); on return the viewport is the one before the call and the
    bound framebuffer is 0. *)
Theorem RenderShadowMap_framebuffer_and_viewport p d w :
  shadow_ready w ->
  exists w' calls,
    RenderShadowMap p d w = Ok tt w' calls /\
    framebuffer_binds calls = [m_shadowFBO (scene w); 0] /\
    m_shadowFBO (scene w) <> 0 /\
    state_queries calls = [(GL_VIEWPORT, gl_viewport (gl w))] /\
    viewport_sets calls =
      [(0, 0, m_shadowMapWidth (scene w), m_shadowMapHeight (scene w));
       gl_viewport (gl w)] /\
    gl_viewport (gl w') = gl_viewport (gl w) /\
    gl_framebuffer (gl w') = 0.
Proof.
  intros Hready.
  destruct (RenderShadowMap_run p d w Hready)
    as (w' & calls & Hrun & _ & Hvp & Hfb & Hbinds & Hq & Hsets & _).
  exists w', calls. destruct Hready as [Hfbo _]. auto 10.
Qed.

(** The pass saves and restores the viewport only: depth testing stays
    enabled and the depth-only program stays in use after it. *)
Remark RenderShadowMap_not_restored p d w :
  shadow_ready w ->
  exists w' calls,
    RenderShadowMap p d w = Ok tt w' calls /\
    gl_depth_test (gl w') = true /\
    gl_program (gl w') = m_pDepthShaderManager (scene w).
Proof.
  intros Hready.
  destruct (RenderShadowMap_run p d w Hready)
    as (w' & calls & Hrun & _ & _ & _ & _ & _ & _ & _ & _ & Hdt & Hprog).
  exists w', calls. auto.
Qed.

End ShadowPass.

(** ** The colour pass *)

Section ColorPass.
Context `{G : Glm}.

Lemma FindTextureSlot_run tag w slot :
  FindTextureSlot_loop (m_textureIDs (scene w)) tag
    (Z.to_nat (m_loadedTextures (scene w))) 0 = Some slot ->
  FindTextureSlot tag w = Ok slot w [].
Proof. intros H. unfold FindTextureSlot. rewrite H. reflexivity. Qed.

Lemma FindTextureID_run tag w textureID :
  FindTextureID_loop (m_textureIDs (scene w)) tag
    (Z.to_nat (m_loadedTextures (scene w))) 0 = Some textureID ->
  FindTextureID tag w = Ok textureID w [].
Proof. intros H. unfold FindTextureID. rewrite H. reflexivity. Qed.

Lemma SetTransformations_run P s x y z t w :
  m_pShaderManager (scene w) = P -> live P w ->
  SetTransformations s x y z t w =
    Ok tt (store P "model" (UMat4 (modelMatrix s x y z t)) w)
       [c_shader_set P "model" (UMat4 (modelMatrix s x y z t))].
Proof.
  intros HP Hlive. unfold SetTransformations, bind, get.
  rewrite HP, (nonnull_test P (proj1 Hlive)).
  unfold setMat4Value. rewrite (setUniform_run _ _ _ _ Hlive). reflexivity.
Qed.

Lemma SetShaderColor_run P r g b a w :
  m_pShaderManager (scene w) = P -> live P w ->
  SetShaderColor r g b a w =
    Ok tt
       (store P "objectColor" (UVec4 r g b a)
          (store P "bUseTexture" (UInt 0) w))
       [c_shader_set P "bUseTexture" (UInt 0);
        c_shader_set P "objectColor" (UVec4 r g b a)].
Proof.
  intros HP Hlive. unfold SetShaderColor.
  etransitivity.
  - eapply bind_run; [reflexivity|]. cbv beta.
    rewrite HP, (nonnull_test P (proj1 Hlive)). run.
  - reflexivity.
Qed.

Lemma SetTextureUVScale_run P u v w :
  m_pShaderManager (scene w) = P -> live P w ->
  SetTextureUVScale u v w =
    Ok tt (store P "UVscale" (UVec2 u v) w) [c_shader_set P "UVscale" (UVec2 u v)].
Proof.
  intros HP Hlive. unfold SetTextureUVScale, bind, get.
  rewrite HP, (nonnull_test P (proj1 Hlive)).
  unfold setVec2Value. rewrite (setUniform_run _ _ _ _ Hlive). reflexivity.
Qed.

Lemma SetShaderTexture_run P tag slot textureID w :
  m_pShaderManager (scene w) = P -> live P w ->
  FindTextureSlot_loop (m_textureIDs (scene w)) tag
    (Z.to_nat (m_loadedTextures (scene w))) 0 = Some slot ->
  FindTextureID_loop (m_textureIDs (scene w)) tag
    (Z.to_nat (m_loadedTextures (scene w))) 0 = Some textureID ->
  SetShaderTexture tag w =
    Ok tt
       (store P "objectTexture" (USampler2D (if slot <? 0 then 0 else slot))
          (with_gl (fun g =>
               if 0 <? textureID
               then set_texture_2d
                      (<[gl_active_texture g := textureID]> (gl_texture_2d g)) g
               else g)
             (with_gl (set_active_texture (if slot <? 0 then 0 else slot))
                (store P "bUseTexture" (UInt 1) w))))
       ([c_shader_set P "bUseTexture" (UInt 1);
         c_glActiveTexture (if slot <? 0 then 0 else slot)] ++
        (if 0 <? textureID then [c_glBindTexture textureID] else []) ++
        [c_shader_set P "objectTexture"
           (USampler2D (if slot <? 0 then 0 else slot))]).
Proof.
  intros HP Hlive Hslot Hid. unfold SetShaderTexture.
  destruct (0 <? textureID) eqn:Hpos.
  - etransitivity.
    + eapply bind_run; [reflexivity|]. cbv beta.
      rewrite HP, (nonnull_test P (proj1 Hlive)).
      eapply bind_run; [run|].
      eapply bind_run; [apply FindTextureSlot_run; exact Hslot|].
      cbv beta zeta.
      eapply bind_run; [run|].
      eapply bind_run; [apply FindTextureID_run; exact Hid|].
      cbv beta. rewrite Hpos. run.
    + reflexivity.
  - etransitivity.
    + eapply bind_run; [reflexivity|]. cbv beta.
      rewrite HP, (nonnull_test P (proj1 Hlive)).
      eapply bind_run; [run|].
      eapply bind_run; [apply FindTextureSlot_run; exact Hslot|].
      cbv beta zeta.
      eapply bind_run; [run|].
      eapply bind_run; [apply FindTextureID_run; exact Hid|].
      cbv beta. rewrite Hpos. run.
    + reflexivity.
Qed.

Lemma RenderScene_bindShadowMap_skip w :
  m_shadowDepthTexture (scene w) = 0 -> RenderScene_bindShadowMap w = Ok tt w [].
Proof.
  intros H. unfold RenderScene_bindShadowMap, bind, get. rewrite H. reflexivity.
Qed.

Lemma RenderScene_bindShadowMap_run P D L w :
  m_pShaderManager (scene w) = P -> live P w ->
  m_shadowDepthTexture (scene w) = D -> D <> 0 ->
  m_spotLightSpaceMatrix (scene w) = L ->
  RenderScene_bindShadowMap w =
    Ok tt
       (store P "spotLightSpaceMatrix" (UMat4 L)
          (store P "spotShadowMap" (USampler2D 7)
             (with_gl (fun g =>
                 set_texture_2d (<[gl_active_texture g := D]> (gl_texture_2d g)) g)
                (with_gl (set_active_texture 7) w))))
       [c_glActiveTexture 7; c_glBindTexture D;
        c_shader_set P "spotShadowMap" (USampler2D 7);
        c_shader_set P "spotLightSpaceMatrix" (UMat4 L)].
Proof.
  intros HP Hlive HD Hne HL. unfold RenderScene_bindShadowMap.
  etransitivity.
  - eapply bind_run; [reflexivity|]. cbv beta.
    rewrite HP, HD, HL, (nonnull_test D Hne). run.
  - reflexivity.
Qed.


End ColorPass.

Ltac run_scene :=
  repeat (cbv beta;
    lazymatch goal with
    | |- bind _ _ _ = _ => eapply bind_run
    | |- SetTransformations _ _ _ _ _ _ = _ =>
        eapply SetTransformations_run; [eassumption | solve_live]
    | |- SetShaderColor _ _ _ _ _ = _ =>
        eapply SetShaderColor_run; [eassumption | solve_live]
    | |- SetTextureUVScale _ _ _ = _ =>
        eapply SetTextureUVScale_run; [eassumption | solve_live]
    | |- SetShaderTexture _ _ = _ =>
        eapply SetShaderTexture_run;
          [eassumption | solve_live | eassumption | eassumption]
    | |- RenderScene_bindShadowMap _ = _ =>
        first
          [ eapply RenderScene_bindShadowMap_skip; eassumption
          | eapply RenderScene_bindShadowMap_run;
              [eassumption | solve_live | eassumption | eassumption
              | eassumption] ]
    | |- glfwGetTime _ = _ => reflexivity
    | |- _ => progress run
    end).

Section ColorPassRun.
Context `{G : Glm}.

Lemma RenderScene_run w P slot_s id_s slot_g id_g :
  m_pShaderManager (scene w) = P -> live P w ->
  FindTextureSlot_loop (m_textureIDs (scene w)) "stone"
    (Z.to_nat (m_loadedTextures (scene w))) 0 = Some slot_s ->
  FindTextureID_loop (m_textureIDs (scene w)) "stone"
    (Z.to_nat (m_loadedTextures (scene w))) 0 = Some id_s ->
  FindTextureSlot_loop (m_textureIDs (scene w)) "grass"
    (Z.to_nat (m_loadedTextures (scene w))) 0 = Some slot_g ->
  FindTextureID_loop (m_textureIDs (scene w)) "grass"
    (Z.to_nat (m_loadedTextures (scene w))) 0 = Some id_g ->
  exists w' calls,
    RenderScene w = Ok tt w' calls /\
    meshes calls = map snd expected_color_draws /\
    draws_with_model P None calls = map drawn expected_color_draws /\
    (m_shadowDepthTexture (scene w) = 0 ->
       uniform_writes "spotShadowMap" calls = [] /\
       uniform_writes "spotLightSpaceMatrix" calls = [] /\
       Forall (fun t => 0 < t) (texture_binds calls)) /\
    (forall q, live q w -> live q w').
Proof.
  intros HP Hlive Hs His Hg Hig.
  destruct (Z.eq_dec (m_shadowDepthTexture (scene w)) 0) as [HD|HD].
  - eexists _, _. split.
    + unfold RenderScene. eapply bind_run; [reflexivity|].
      cbv beta zeta. rewrite HP. run_scene.
    + cbn [app].
      destruct (0 <? id_s) eqn:E1, (0 <? id_g) eqn:E2;
        (split; [reflexivity|]; split;
         [cbn [draws_with_model app]; rewrite Z.eqb_refl; reflexivity|]; split;
         [ intros _; split; [reflexivity|]; split; [reflexivity|];
           cbn [texture_binds omap app];
           repeat constructor; apply Z.ltb_lt; assumption
         | intros q Hq; solve_live ]).
  - remember (m_shadowDepthTexture (scene w)) as D eqn:HD'. symmetry in HD'.
    remember (m_spotLightSpaceMatrix (scene w)) as L eqn:HL. symmetry in HL.
    eexists _, _. split.
    + unfold RenderScene. eapply bind_run; [reflexivity|].
      cbv beta zeta. rewrite HP. run_scene.
    + cbn [app].
      destruct (0 <? id_s) eqn:E1, (0 <? id_g) eqn:E2;
        (split; [reflexivity|]; split;
         [cbn [draws_with_model app]; rewrite Z.eqb_refl; reflexivity|]; split;
         [ intros H0; contradiction
         | intros q Hq; solve_live ]).
Qed.
End ColorPassRun.

(** ** The texture registry *)

Section Registry.
Context `{G : Glm}.

Lemma Find_loops_total ids tag r idx :
  0 <= idx -> (Z.to_nat idx + r <= length ids)%nat ->
  (exists j, FindTextureSlot_loop ids tag r idx = Some j) /\
  (exists j, FindTextureID_loop ids tag r idx = Some j).
Proof.
  revert idx. induction r as [|r IH]; intros idx Hidx Hlen; simpl; [eauto|].
  destruct (lookup_lt_is_Some_2 ids (Z.to_nat idx)) as [e He]; [lia|].
  rewrite He. destruct (String.eqb (tex_tag e) tag); [eauto|].
  apply IH; lia.
Qed.

(** Both lookups return the first entry from [idx] on that carries the
    tag. *)
Lemma Find_loops_first ids tag r idx j e :
  0 <= idx <= j -> j < idx + Z.of_nat r ->
  ids !! Z.to_nat j = Some e -> tex_tag e = tag ->
  (forall k, idx <= k < j ->
     exists e', ids !! Z.to_nat k = Some e' /\ tex_tag e' <> tag) ->
  FindTextureSlot_loop ids tag r idx = Some j /\
  FindTextureID_loop ids tag r idx = Some (int_of_uint32 (ID e)).
Proof.
  revert idx. induction r as [|r IH]; intros idx Hidx Hj He Htag Hbefore; [lia|].
  simpl. destruct (Z.eq_dec idx j) as [->|Hne].
  - rewrite He. rewrite (proj2 (String.eqb_eq _ _) Htag). auto.
  - destruct (Hbefore idx) as (e' & He' & Hne'); [lia|].
    rewrite He'. rewrite (proj2 (String.eqb_neq _ _) Hne').
    apply IH; try lia; try assumption.
    intros k Hk. apply Hbefore. lia.
Qed.

(** What a slot lookup that returned tells about the array. *)
Lemma FindTextureSlot_loop_inv ids tag r idx j :
  0 <= idx -> FindTextureSlot_loop ids tag r idx = Some j ->
  (j = -1 /\
   forall k, idx <= k < idx + Z.of_nat r ->
     exists e', ids !! Z.to_nat k = Some e' /\ tex_tag e' <> tag) \/
  (idx <= j < idx + Z.of_nat r /\
   exists e, ids !! Z.to_nat j = Some e /\ tex_tag e = tag /\
     forall k, idx <= k < j ->
       exists e', ids !! Z.to_nat k = Some e' /\ tex_tag e' <> tag).
Proof.
  revert idx. induction r as [|r IH]; intros idx Hidx; simpl.
  - intros [= <-]. left. split; [reflexivity|]. intros k Hk. lia.
  - destruct (ids !! Z.to_nat idx) as [e|] eqn:He; [|discriminate].
    destruct (String.eqb (tex_tag e) tag) eqn:Heq.
    + intros [= <-]. right. split; [lia|]. exists e.
      split; [exact He|]. split; [by apply String.eqb_eq|]. intros k Hk. lia.
    + intros Hloop. apply String.eqb_neq in Heq.
      assert (Hstep : forall k, idx <= k < idx + 1 ->
                exists e', ids !! Z.to_nat k = Some e' /\ tex_tag e' <> tag).
      { intros k Hk. assert (k = idx) as -> by lia. eauto. }
      destruct (IH (idx + 1) ltac:(lia) Hloop) as [[-> Hall]|[Hj (e1 & He1 & Ht1 & Hb)]].
      * left. split; [reflexivity|]. intros k Hk.
        destruct (Z.eq_dec k idx) as [->|]; [eauto|]. apply Hall. lia.
      * right. split; [lia|]. exists e1. repeat split; try assumption.
        intros k Hk. destruct (Z.eq_dec k idx) as [->|]; [eauto|].
        apply Hb. lia.
Qed.

Lemma registry_finds s tag :
  registry_wf s ->
  exists slot textureID,
    FindTextureSlot_loop (m_textureIDs s) tag (Z.to_nat (m_loadedTextures s)) 0
      = Some slot /\
    FindTextureID_loop (m_textureIDs s) tag (Z.to_nat (m_loadedTextures s)) 0
      = Some textureID.
Proof.
  intros Hwf.
  destruct (Find_loops_total (m_textureIDs s) tag
              (Z.to_nat (m_loadedTextures s)) 0) as [[a Ha] [b Hb]];
    [lia| unfold registry_wf in Hwf; simpl; lia |]. eauto.
Qed.

(** What a call of CreateGLTexture that returned has done. *)
Lemma CreateGLTexture_inv filename tag w b w' calls :
  CreateGLTexture filename tag w = Ok b w' calls ->
  heap w' = heap w /\ view w' = view w /\ files w' = files w /\
  ((b = false /\ scene w' = scene w) \/
   (b = true /\ 0 <= m_loadedTextures (scene w) /\
    is_Some (m_textureIDs (scene w) !! Z.to_nat (m_loadedTextures (scene w))) /\
    (exists img, files w !! filename = Some img /\
                 (colorChannels img = 3 \/ colorChannels img = 4)) /\
    gl_next_name (gl w') = gl_next_name (gl w) + 1 /\
    scene w' =
      set_registry
        (<[Z.to_nat (m_loadedTextures (scene w)) :=
             {| tex_tag := tag; ID := gl_next_name (gl w) |}]>
           (m_textureIDs (scene w)))
        (m_loadedTextures (scene w) + 1) (scene w))).
Proof.
  unfold CreateGLTexture, stbi_load, glGenTextures, glBindTexture, registerTexture,
    bind, call, get, modify, ret.
  destruct (files w !! filename) as [img|] eqn:Hf.
  - destruct (colorChannels img =? 3) eqn:H3;
      [|destruct (colorChannels img =? 4) eqn:H4].
    + cbn. destruct (m_loadedTextures (scene w) <? 0) eqn:Hneg; [discriminate|].
      destruct (m_textureIDs (scene w) !! Z.to_nat (m_loadedTextures (scene w)))
        as [e|] eqn:He; [|discriminate].
      intros [= <- <- <-]. cbn. repeat split; try reflexivity.
      right. repeat split; try reflexivity; try lia; eauto.
      exists img. split; [reflexivity|]. left. lia.
    + cbn. destruct (m_loadedTextures (scene w) <? 0) eqn:Hneg; [discriminate|].
      destruct (m_textureIDs (scene w) !! Z.to_nat (m_loadedTextures (scene w)))
        as [e|] eqn:He; [|discriminate].
      intros [= <- <- <-]. cbn. repeat split; try reflexivity.
      right. repeat split; try reflexivity; try lia; eauto.
      exists img. split; [reflexivity|]. right. lia.
    + cbn. intros [= <- <- <-]. cbn. repeat split; try reflexivity. left. auto.
  - cbn. intros [= <- <- <-]. cbn. repeat split; try reflexivity. left. auto.
Qed.

Lemma CreateGLTexture_keeps filename tag w b w' calls :
  CreateGLTexture filename tag w = Ok b w' calls ->
  m_loadedTextures (scene w) <= m_loadedTextures (scene w') /\
  forall k, 0 <= k < m_loadedTextures (scene w) ->
    m_textureIDs (scene w') !! Z.to_nat k = m_textureIDs (scene w) !! Z.to_nat k.
Proof.
  intros H. destruct (CreateGLTexture_inv _ _ _ _ _ _ H)
    as (_ & _ & _ & [[_ ->]|(_ & Hn & _ & _ & _ & ->)]).
  - split; [lia|reflexivity].
  - cbn. split; [lia|]. intros k Hk. apply list_lookup_insert_ne. lia.
Qed.

Lemma CreateGLTextures_keeps l w bs w' calls :
  CreateGLTextures l w = Ok bs w' calls ->
  m_loadedTextures (scene w) <= m_loadedTextures (scene w') /\
  forall k, 0 <= k < m_loadedTextures (scene w) ->
    m_textureIDs (scene w') !! Z.to_nat k = m_textureIDs (scene w) !! Z.to_nat k.
Proof.
  revert w bs calls. induction l as [|[f t] l IH]; intros w bs calls; simpl.
  - intros [= <- <- <-]. split; [lia|reflexivity].
  - intros H. apply bind_inv in H as (b & w1 & c1 & c2 & H1 & H & _).
    apply bind_inv in H as (bs' & w2 & c3 & c4 & H2 & H & _).
    injection H as <- <- <-.
    destruct (CreateGLTexture_keeps _ _ _ _ _ _ H1) as [Hn1 Hk1].
    destruct (IH _ _ _ H2) as [Hn2 Hk2].
    split; [lia|]. intros k Hk. rewrite Hk2 by lia. apply Hk1. lia.
Qed.

(** C6. A call of CreateGLTexture on a file that decodes but has a channel
    count other than 3 and 4 returns false, and the registry is as before:
    same entry count, same entries. *)
Theorem CreateGLTexture_unsupported_channels filename tag w img :
  files w !! filename = Some img ->
  colorChannels img <> 3 -> colorChannels img <> 4 ->
  exists w' calls,
    CreateGLTexture filename tag w = Ok false w' calls /\
    m_loadedTextures (scene w') = m_loadedTextures (scene w) /\
    m_textureIDs (scene w') = m_textureIDs (scene w).
Proof.
  intros Hf H3 H4.
  unfold CreateGLTexture, stbi_load, glGenTextures, glBindTexture, bind, call,
    get, modify, ret.
  rewrite Hf.
  rewrite (proj2 (Z.eqb_neq _ _) H3), (proj2 (Z.eqb_neq _ _) H4).
  cbn. eexists _, _. split; [reflexivity|]. split; reflexivity.
Qed.

(** C9. The write [m_textureIDs[m_loadedTextures]] of a successful
    CreateGLTexture is preceded by no capacity check.  With fewer than 16
    textures registered the index is inside the 16-entry array, the entry
    is written and the call returns true; with 16 registered the call does
    not return false: it indexes outside the array. *)
Theorem CreateGLTexture_capacity filename tag w img :
  files w !! filename = Some img ->
  colorChannels img = 3 \/ colorChannels img = 4 ->
  length (m_textureIDs (scene w)) = Z.to_nat MAX_TEXTURES ->
  0 <= m_loadedTextures (scene w) ->
  (m_loadedTextures (scene w) < MAX_TEXTURES ->
   exists w' calls,
     CreateGLTexture filename tag w = Ok true w' calls /\
     (Z.to_nat (m_loadedTextures (scene w)) < length (m_textureIDs (scene w)))%nat /\
     m_textureIDs (scene w') =
       <[Z.to_nat (m_loadedTextures (scene w)) :=
           {| tex_tag := tag; ID := gl_next_name (gl w) |}]>
         (m_textureIDs (scene w)) /\
     m_loadedTextures (scene w') = m_loadedTextures (scene w) + 1) /\
  (MAX_TEXTURES <= m_loadedTextures (scene w) ->
   CreateGLTexture filename tag w = Crash OutOfBounds).
Proof.
  intros Hf Hc Hlen Hn.
  assert (Hnneg : (m_loadedTextures (scene w) <? 0) = false) by lia.
  split.
  - intros Hlt.
    assert (Hin : (Z.to_nat (m_loadedTextures (scene w))
                   < length (m_textureIDs (scene w)))%nat) by lia.
    destruct (lookup_lt_is_Some_2 _ _ Hin) as [e He].
    unfold CreateGLTexture, stbi_load, glGenTextures, glBindTexture,
      registerTexture, bind, call, get, modify, ret.
    rewrite Hf.
    destruct Hc as [Hc|Hc]; rewrite Hc; cbn; rewrite Hnneg, He;
      (eexists _, _; split; [reflexivity|]; cbn; auto).
  - intros Hge.
    assert (Hout : m_textureIDs (scene w) !! Z.to_nat (m_loadedTextures (scene w))
                   = None) by (apply lookup_ge_None; lia).
    unfold CreateGLTexture, stbi_load, glGenTextures, glBindTexture,
      registerTexture, bind, call, get, modify, ret.
    rewrite Hf.
    destruct Hc as [Hc|Hc]; rewrite Hc; cbn; rewrite Hnneg, Hout; reflexivity.
Qed.

(** C7. When the same tag is registered twice (any registrations in
    between and after), FindTextureSlot and FindTextureID of the tag return
    the slot and the handle of the first registration; the entry of the
    second one is in the registry, and no tag lookup returns its slot. *)
Theorem duplicate_tag_first_registration_wins
    file1 file2 tag between after w0 w1 w2 w3 w4 c1 c2 c3 c4 bs2 bs4 :
  FindTextureSlot tag w0 = Ok (-1) w0 [] ->
  CreateGLTexture file1 tag w0 = Ok true w1 c1 ->
  CreateGLTextures between w1 = Ok bs2 w2 c2 ->
  CreateGLTexture file2 tag w2 = Ok true w3 c3 ->
  CreateGLTextures after w3 = Ok bs4 w4 c4 ->
  let first := m_loadedTextures (scene w0) in
  let second := m_loadedTextures (scene w2) in
  let handle1 := gl_next_name (gl w0) in
  let handle2 := gl_next_name (gl w2) in
  0 <= first < second /\ second < m_loadedTextures (scene w4) /\
  m_textureIDs (scene w4) !! Z.to_nat first
    = Some {| tex_tag := tag; ID := handle1 |} /\
  m_textureIDs (scene w4) !! Z.to_nat second
    = Some {| tex_tag := tag; ID := handle2 |} /\
  FindTextureSlot tag w4 = Ok first w4 [] /\
  FindTextureID tag w4 = Ok (int_of_uint32 handle1) w4 [] /\
  (forall t, FindTextureSlot t w4 <> Ok second w4 []).
Proof.
  intros H0 H1 H2 H3 H4. cbv zeta.
  set (first := m_loadedTextures (scene w0)) in *.
  set (second := m_loadedTextures (scene w2)) in *.
  set (handle1 := gl_next_name (gl w0)) in *.
  set (handle2 := gl_next_name (gl w2)) in *.
  (* nothing below [first] carries the tag *)
  assert (Hmiss : forall k, 0 <= k < first ->
            exists e', m_textureIDs (scene w0) !! Z.to_nat k = Some e' /\
                       tex_tag e' <> tag).
  { unfold FindTextureSlot in H0.
    destruct (FindTextureSlot_loop _ _ _ _) as [j|] eqn:Hloop; [|discriminate].
    injection H0 as ->.
    destruct (FindTextureSlot_loop_inv _ _ _ 0 _ ltac:(lia) Hloop)
      as [[_ Hall]|[Hj _]]; [|lia].
    intros k Hk. apply Hall. subst first; lia. }
  destruct (CreateGLTexture_inv _ _ _ _ _ _ H1)
    as (_ & _ & _ & [[? _]|(_ & Hn0 & [e0 He0] & _ & _ & Hs1)]); [discriminate|].
  destruct (CreateGLTexture_inv _ _ _ _ _ _ H3)
    as (_ & _ & _ & [[? _]|(_ & Hn2 & [e2 He2] & _ & _ & Hs3)]); [discriminate|].
  destruct (CreateGLTextures_keeps _ _ _ _ _ H2) as [Hle2 Hk2].
  destruct (CreateGLTextures_keeps _ _ _ _ _ H4) as [Hle4 Hk4].
  assert (Hn1 : m_loadedTextures (scene w1) = first + 1) by (rewrite Hs1; reflexivity).
  assert (Hn3 : m_loadedTextures (scene w3) = second + 1) by (rewrite Hs3; reflexivity).
  assert (Hfirst1 : m_textureIDs (scene w1) !! Z.to_nat first
                    = Some {| tex_tag := tag; ID := handle1 |}).
  { rewrite Hs1. cbn. apply list_lookup_insert_eq.
    apply lookup_lt_is_Some. eauto. }
  assert (Hbefore1 : forall k, 0 <= k < first ->
            m_textureIDs (scene w1) !! Z.to_nat k
            = m_textureIDs (scene w0) !! Z.to_nat k).
  { intros k Hk. rewrite Hs1. cbn. apply list_lookup_insert_ne.
    subst first; lia. }
  assert (Hkeep3 : forall k, 0 <= k < second ->
            m_textureIDs (scene w3) !! Z.to_nat k
            = m_textureIDs (scene w2) !! Z.to_nat k).
  { intros k Hk. rewrite Hs3. cbn. apply list_lookup_insert_ne.
    subst second; lia. }
  assert (Hsecond3 : m_textureIDs (scene w3) !! Z.to_nat second
                     = Some {| tex_tag := tag; ID := handle2 |}).
  { rewrite Hs3. cbn. apply list_lookup_insert_eq.
    apply lookup_lt_is_Some. eauto. }
  assert (Horder : first < second) by lia.
  assert (Hfirst4 : m_textureIDs (scene w4) !! Z.to_nat first
                    = Some {| tex_tag := tag; ID := handle1 |}).
  { rewrite Hk4 by lia. rewrite Hkeep3 by lia.
    rewrite Hk2 by lia. exact Hfirst1. }
  assert (Hsecond4 : m_textureIDs (scene w4) !! Z.to_nat second
                     = Some {| tex_tag := tag; ID := handle2 |}).
  { rewrite Hk4 by lia. exact Hsecond3. }
  assert (Hbefore4 : forall k, 0 <= k < first ->
            exists e', m_textureIDs (scene w4) !! Z.to_nat k = Some e' /\
                       tex_tag e' <> tag).
  { intros k Hk. rewrite Hk4 by lia. rewrite Hkeep3 by lia.
    rewrite Hk2 by lia. rewrite Hbefore1 by lia. apply Hmiss. lia. }
  destruct (Find_loops_first (m_textureIDs (scene w4)) tag
              (Z.to_nat (m_loadedTextures (scene w4))) 0 first _
              ltac:(lia) ltac:(lia) Hfirst4 eq_refl)
    as [Hslot Hid].
  { intros k Hk. apply Hbefore4. lia. }
  split; [lia|]. split; [lia|].
  split; [exact Hfirst4|]. split; [exact Hsecond4|].
  split; [unfold FindTextureSlot; rewrite Hslot; reflexivity|].
  split; [unfold FindTextureID; rewrite Hid; reflexivity|].
  intros t Ht. unfold FindTextureSlot in Ht.
  destruct (FindTextureSlot_loop _ t _ _) as [j|] eqn:Hloop; [|discriminate].
  injection Ht as ->.
  destruct (FindTextureSlot_loop_inv _ _ _ 0 _ ltac:(lia) Hloop)
    as [[Hneg _]|[_ (e & He & Htag & Hall)]]; [lia|].
  rewrite Hsecond4 in He. injection He as <-. cbn in Htag. subst t.
  destruct (Hall first ltac:(lia)) as (e' & He' & Hne).
  rewrite Hfirst4 in He'. injection He' as <-. cbn in Hne. congruence.
Qed.

(** A run of successful registrations appends one entry per call, with
    consecutive texture names. *)
Lemma CreateGLTextures_all_true l w w' calls :
  CreateGLTextures l w = Ok (replicate (length l) true) w' calls ->
  0 <= m_loadedTextures (scene w) -> registry_wf (scene w) ->
  m_loadedTextures (scene w') = m_loadedTextures (scene w) + Z.of_nat (length l) /\
  heap w' = heap w /\
  m_pShaderManager (scene w') = m_pShaderManager (scene w) /\
  registry_wf (scene w') /\
  forall (i : nat) filename tag, l !! i = Some (filename, tag) ->
    m_textureIDs (scene w') !! (Z.to_nat (m_loadedTextures (scene w)) + i)%nat =
      Some {| tex_tag := tag; ID := gl_next_name (gl w) + Z.of_nat i |}.
Proof.
  revert w calls. induction l as [|[f t] l IH]; intros w calls; simpl.
  - intros [= <- <-] Hn Hwf. split; [lia|]. split; [reflexivity|].
    split; [reflexivity|]. split; [exact Hwf|]. intros i ? ? Hi. discriminate.
  - intros H Hn Hwf.
    apply bind_inv in H as (b & w1 & c1 & c2 & H1 & H & _).
    apply bind_inv in H as (bs & w2 & c3 & c4 & H2 & H & _).
    injection H as -> -> <-.
    destruct (CreateGLTexture_inv _ _ _ _ _ _ H1)
      as (Hheap1 & _ & _ & [[? _]|(_ & _ & Hin & _ & Hnext & Hs1)]);
      [discriminate|].
    apply lookup_lt_is_Some in Hin.
    assert (Hn1 : m_loadedTextures (scene w1) = m_loadedTextures (scene w) + 1)
      by (rewrite Hs1; reflexivity).
    assert (Hwf1 : registry_wf (scene w1)).
    { unfold registry_wf. rewrite Hs1. cbn. rewrite length_insert. lia. }
    destruct (IH _ _ H2 ltac:(lia) Hwf1) as (Hn2 & Hheap2 & Hp2 & Hwf2 & Hent).
    destruct (CreateGLTextures_keeps _ _ _ _ _ H2) as [_ Hkeep].
    split; [lia|]. split; [congruence|].
    split; [rewrite Hp2, Hs1; reflexivity|]. split; [exact Hwf2|].
    intros [|i] filename tag Hi; simpl in Hi.
    + injection Hi as <- <-. rewrite Nat.add_0_r, Z.add_0_r.
      rewrite Hkeep by lia. rewrite Hs1. cbn.
      apply list_lookup_insert_eq. exact Hin.
    + specialize (Hent i filename tag Hi). rewrite Hn1, Hnext in Hent.
      replace (Z.to_nat (m_loadedTextures (scene w)) + S i)%nat
        with (Z.to_nat (m_loadedTextures (scene w) + 1) + i)%nat by lia.
      rewrite Hent. do 2 f_equal. lia.
Qed.

(** The loop of BindGLTextures binds entry [k] to unit [k] and leaves the
    units below its start alone. *)
Lemma BindGLTextures_loop_run r i w :
  0 <= i -> (Z.to_nat i + r <= length (m_textureIDs (scene w)))%nat ->
  exists w' calls,
    BindGLTextures_loop r i w = Ok tt w' calls /\
    scene w' = scene w /\ heap w' = heap w /\
    (forall k, i <= k < i + Z.of_nat r ->
       exists e, m_textureIDs (scene w) !! Z.to_nat k = Some e /\
                 gl_texture_2d (gl w') !! k = Some (ID e)) /\
    (forall k, k < i -> gl_texture_2d (gl w') !! k = gl_texture_2d (gl w) !! k).
Proof.
  revert i w. induction r as [|r IH]; intros i w Hi Hlen.
  - exists w, []. split; [reflexivity|]. split; [reflexivity|].
    split; [reflexivity|]. split; [intros k Hk; lia|reflexivity].
  - destruct (lookup_lt_is_Some_2 (m_textureIDs (scene w)) (Z.to_nat i))
      as [e He]; [lia|].
    cbn [BindGLTextures_loop]. unfold bind at 1. unfold get at 1.
    rewrite He.
    unfold glActiveTexture, glBindTexture.
    unfold bind at 1. unfold bind at 1. unfold modify at 1. unfold call at 1.
    unfold bind at 1. unfold bind at 1. unfold modify at 1. unfold call at 1.
    cbn [with_gl gl gl_active_texture set_active_texture gl_texture_2d app].
    match goal with
    | |- context [BindGLTextures_loop r (i + 1) ?w1] =>
        destruct (IH (i + 1) w1 ltac:(lia) ltac:(cbn; lia))
          as (w' & calls & Hrun & Hs & Hh & Hbound & Hbelow)
    end.
    rewrite Hrun. eexists _, _. split; [reflexivity|].
    split; [rewrite Hs; reflexivity|]. split; [rewrite Hh; reflexivity|].
    split.
    + intros k Hk. destruct (Z.eq_dec k i) as [->|Hne].
      * exists e. split; [exact He|]. rewrite Hbelow by lia. cbn.
        apply lookup_insert_eq.
      * destruct (Hbound k ltac:(lia)) as (e' & He' & Hb). eauto.
    + intros k Hk. rewrite Hbelow by lia. cbn. apply lookup_insert_ne. lia.
Qed.

Lemma uniform_at_store p name v w :
  live p w -> uniform_at p name (store p name v w) = Some v.
Proof.
  intros [_ [sh Hsh]]. unfold uniform_at, store. cbn.
  rewrite lookup_alter_eq, Hsh. cbn. apply lookup_insert_eq.
Qed.

(** C8. After registrations that all succeed, with pairwise distinct tags,
    on an empty registry, BindGLTextures returns; the i-th registered
    texture is then bound to texture unit i, FindTextureSlot of its tag
    returns i and FindTextureID returns the handle stored for it (as the
    [int] the function returns: the handle itself when it is below 2^31),
    and the sampler [objectTexture] is set to unit 0. *)
Theorem registration_order_is_unit_order l w0 w1 c1 :
  m_loadedTextures (scene w0) = 0 ->
  NoDup (map snd l) ->
  live (m_pShaderManager (scene w0)) w0 ->
  CreateGLTextures l w0 = Ok (replicate (length l) true) w1 c1 ->
  exists w2 c2,
    BindGLTextures w1 = Ok tt w2 c2 /\
    uniform_at (m_pShaderManager (scene w0)) "objectTexture" w2
      = Some (USampler2D 0) /\
    forall (i : nat) filename tag, l !! i = Some (filename, tag) ->
      m_textureIDs (scene w2) !! i
        = Some {| tex_tag := tag; ID := gl_next_name (gl w0) + Z.of_nat i |} /\
      gl_texture_2d (gl w2) !! Z.of_nat i
        = Some (gl_next_name (gl w0) + Z.of_nat i) /\
      FindTextureSlot tag w2 = Ok (Z.of_nat i) w2 [] /\
      FindTextureID tag w2
        = Ok (int_of_uint32 (gl_next_name (gl w0) + Z.of_nat i)) w2 [] /\
      (0 <= gl_next_name (gl w0) + Z.of_nat i < 2 ^ 31 ->
       FindTextureID tag w2 = Ok (gl_next_name (gl w0) + Z.of_nat i) w2 []).
Proof.
  intros Hn0 Hnodup Hlive Hreg.
  assert (Hwf0 : registry_wf (scene w0)).
  { unfold registry_wf. rewrite Hn0. cbn. lia. }
  destruct (CreateGLTextures_all_true _ _ _ _ Hreg ltac:(lia) Hwf0)
    as (Hn1 & Hheap1 & Hp1 & Hwf1 & Hent).
  rewrite Hn0 in Hn1, Hent. cbn in Hn1, Hent.
  destruct (BindGLTextures_loop_run (Z.to_nat (m_loadedTextures (scene w1))) 0 w1
              ltac:(lia) ltac:(unfold registry_wf in Hwf1; lia))
    as (wl & cl & Hloop & Hsl & Hhl & Hbound & _).
  assert (Hlive' : live (m_pShaderManager (scene w1)) wl).
  { rewrite Hp1. destruct Hlive as [? ?]. split; [done|]. congruence. }
  eexists _, _. split.
  { unfold BindGLTextures. eapply bind_run; [reflexivity|]. cbv beta.
    eapply bind_run; [exact Hloop|]. cbv beta.
    rewrite (nonnull_test _ (proj1 Hlive')).
    apply setUniform_run. exact Hlive'. }
  split.
  { rewrite <- Hp1. apply uniform_at_store. exact Hlive'. }
  intros i filename tag Hi.
  assert (Hlt : (i < length l)%nat) by (apply lookup_lt_is_Some; eauto).
  assert (Hentry : m_textureIDs (scene w1) !! i
            = Some {| tex_tag := tag; ID := gl_next_name (gl w0) + Z.of_nat i |})
    by (apply (Hent i filename tag Hi)).
  assert (Hfirst :
    FindTextureSlot_loop (m_textureIDs (scene w1)) tag
      (Z.to_nat (m_loadedTextures (scene w1))) 0 = Some (Z.of_nat i) /\
    FindTextureID_loop (m_textureIDs (scene w1)) tag
      (Z.to_nat (m_loadedTextures (scene w1))) 0
      = Some (int_of_uint32 (gl_next_name (gl w0) + Z.of_nat i))).
  { apply (Find_loops_first _ tag _ 0 (Z.of_nat i)
             {| tex_tag := tag; ID := gl_next_name (gl w0) + Z.of_nat i |});
      [lia | lia | rewrite Nat2Z.id; exact Hentry | reflexivity |].
    intros k Hk.
    destruct (lookup_lt_is_Some_2 l (Z.to_nat k)) as [[f' t'] Hk']; [lia|].
    exists {| tex_tag := t'; ID := gl_next_name (gl w0) + Z.of_nat (Z.to_nat k) |}.
    split; [apply (Hent _ f' t' Hk')|]. cbn. intros ->.
    assert (Hsnd : forall j f t, l !! j = Some (f, t) -> map snd l !! j = Some t).
    { intros j f t Hj. rewrite list_lookup_fmap, Hj. reflexivity. }
    pose proof (NoDup_lookup _ _ _ _ Hnodup (Hsnd _ _ _ Hk') (Hsnd _ _ _ Hi)).
    lia. }
  destruct Hfirst as [Hslot Hid].
  split; [cbn; rewrite Hsl; exact Hentry|].
  split.
  { cbn. destruct (Hbound (Z.of_nat i) ltac:(lia)) as (e & He & Hb).
    rewrite Nat2Z.id, Hentry in He. injection He as <-. exact Hb. }
  assert (HID : FindTextureID tag
                  (store (m_pShaderManager (scene w1)) "objectTexture"
                     (USampler2D 0) wl)
                = Ok (int_of_uint32 (gl_next_name (gl w0) + Z.of_nat i))
                     (store (m_pShaderManager (scene w1)) "objectTexture"
                        (USampler2D 0) wl) []).
  { unfold FindTextureID. cbn. rewrite Hsl, Hid. reflexivity. }
  split; [unfold FindTextureSlot; cbn; rewrite Hsl, Hslot; reflexivity|].
  split; [exact HID|].
  intros Hsmall. rewrite HID. unfold int_of_uint32.
  destruct (Z.ltb_spec (gl_next_name (gl w0) + Z.of_nat i) (2 ^ 31));
    [reflexivity|lia].
Qed.

End Registry.

(** ** A frame: depth pass, then colour pass *)

Section Frame.
Context `{G : Glm}.

(** The colour pass on a live shader manager and a registry inside its
    array: it returns, having drawn the eight objects. *)
Lemma RenderScene_returns w :
  live (m_pShaderManager (scene w)) w -> registry_wf (scene w) ->
  exists w' calls,
    RenderScene w = Ok tt w' calls /\
    meshes calls = map snd expected_color_draws /\
    draws_with_model (m_pShaderManager (scene w)) None calls
      = map drawn expected_color_draws /\
    (m_shadowDepthTexture (scene w) = 0 ->
       uniform_writes "spotShadowMap" calls = [] /\
       uniform_writes "spotLightSpaceMatrix" calls = [] /\
       Forall (fun t => 0 < t) (texture_binds calls)) /\
    (forall q, live q w -> live q w').
Proof.
  intros Hlive Hwf.
  destruct (registry_finds (scene w) "stone" Hwf) as (ss & is_ & Hs & His).
  destruct (registry_finds (scene w) "grass" Hwf) as (sg & ig & Hg & Hig).
  exact (RenderScene_run w _ ss is_ sg ig eq_refl Hlive Hs His Hg Hig).
Qed.

(** C5. (1) With the shadow framebuffer 0 or the depth-only shader manager
    null, RenderShadowMap returns at once: no call is made and the state,
    the stored light-space matrix included, is the one before.  (2) With
    the shadow depth texture 0, RenderScene returns having written neither
    the uniform [spotShadowMap] nor [spotLightSpaceMatrix] and having bound
    no texture 0 (every texture it binds is a positive handle found in the
    registry), and it still draws the eight meshes of the frame. *)
Theorem uninitialized_shadow_resources_are_skipped :
  (forall p d w,
     m_shadowFBO (scene w) = 0 \/ m_pDepthShaderManager (scene w) = 0 ->
     RenderShadowMap p d w = Ok tt w []) /\
  (forall w,
     m_shadowDepthTexture (scene w) = 0 ->
     live (m_pShaderManager (scene w)) w -> registry_wf (scene w) ->
     exists w' calls,
       RenderScene w = Ok tt w' calls /\
       uniform_writes "spotShadowMap" calls = [] /\
       uniform_writes "spotLightSpaceMatrix" calls = [] /\
       Forall (fun t => 0 < t) (texture_binds calls) /\
       meshes calls =
         [PlaneMesh; CylinderMesh true true true; CylinderMesh false true true;
          TaperedCylinderMesh true false true;
          TaperedCylinderMesh false false true;
          CylinderMesh true true true; CylinderMesh true false false;
          CylinderMesh true true false]).
Proof.
  split; [exact RenderShadowMap_uninitialized|].
  intros w HD Hlive Hwf.
  destruct (RenderScene_returns w Hlive Hwf)
    as (w' & calls & Hrun & Hm & _ & Hskip & _).
  destruct (Hskip HD) as (H1 & H2 & H3).
  exists w', calls. auto 10.
Qed.

(** C2. In a frame (depth pass, then colour pass) both passes return.  The
    depth pass draws the seven objects other than the straw, each with the
    model matrix [T * Rz * Ry * Rx * S] of its scale, rotation and
    translation values and with its mesh variant, and then the straw; the
    colour pass draws the same seven, with the same matrices and variants,
    and the straw as its sixth draw.  The straw has the same scale, mesh and
    horizontal position in both passes; in the depth pass its vertical offset
    is higher ([2.60 > 0.25]) and its rotations about X and Y differ
    ([-24, -18] against [-32.25, 150]). *)
Theorem both_passes_draw_the_same_objects p d w :
  shadow_ready w ->
  live (m_pShaderManager (scene w)) w -> registry_wf (scene w) ->
  exists w1 depth_calls w2 color_calls,
    RenderShadowMap p d w = Ok tt w1 depth_calls /\
    RenderScene w1 = Ok tt w2 color_calls /\
    delete 7%nat
      (draws_with_model (m_pDepthShaderManager (scene w)) None depth_calls)
      = map drawn expected_shared /\
    delete 5%nat
      (draws_with_model (m_pShaderManager (scene w)) None color_calls)
      = map drawn expected_shared /\
    draws_with_model (m_pDepthShaderManager (scene w)) None depth_calls !! 7%nat
      = Some (drawn (straw_depth, CylinderMesh true true true)) /\
    draws_with_model (m_pShaderManager (scene w)) None color_calls !! 5%nat
      = Some (drawn (straw_color, CylinderMesh true true true)) /\
    t_scale straw_depth = t_scale straw_color /\
    vx (t_position straw_depth) = vx (t_position straw_color) /\
    vz (t_position straw_depth) = vz (t_position straw_color) /\
    F32.ltb (vy (t_position straw_color)) (vy (t_position straw_depth)) = true /\
    SFeqb (t_Xdeg straw_depth) (t_Xdeg straw_color) = false /\
    SFeqb (t_Ydeg straw_depth) (t_Ydeg straw_color) = false.
Proof.
  intros Hready Hlive Hwf.
  destruct (RenderShadowMap_run p d w Hready)
    as (w1 & dc & Hrun1 & Hs1 & _ & _ & _ & _ & _ & Hd & Hlive1 & _).
  assert (Hwf1 : registry_wf (scene w1)) by (rewrite Hs1; exact Hwf).
  assert (Hp1 : m_pShaderManager (scene w1) = m_pShaderManager (scene w))
    by (rewrite Hs1; reflexivity).
  assert (Hl1 : live (m_pShaderManager (scene w1)) w1)
    by (rewrite Hp1; apply Hlive1; exact Hlive).
  destruct (RenderScene_returns w1 Hl1 Hwf1)
    as (w2 & cc & Hrun2 & _ & Hc & _).
  rewrite Hp1 in Hc.
  exists w1, dc, w2, cc. rewrite Hd, Hc.
  split; [exact Hrun1|]. split; [exact Hrun2|].
  split; [reflexivity|]. split; [reflexivity|].
  split; [reflexivity|]. split; [reflexivity|].
  split; [reflexivity|]. split; [reflexivity|]. split; [reflexivity|].
  split; [vm_compute; reflexivity|].
  split; vm_compute; reflexivity.
Qed.

End Frame.

(** ** Materials *)

Section Materials.
Context `{G : Glm}.

(** On an empty material list SetShaderMaterial does nothing. *)
Lemma SetShaderMaterial_empty_list tag uninit w :
  m_objectMaterials (scene w) = [] ->
  SetShaderMaterial tag uninit w = Ok tt w [].
Proof.
  intros H. unfold SetShaderMaterial, bind, get. rewrite H. reflexivity.
Qed.

Lemma FindMaterial_loop_unknown mats tag r i material :
  Forall (fun m => mat_tag m <> tag) mats ->
  FindMaterial_loop mats tag r i material = material.
Proof.
  intros Hall. revert i. induction r as [|r IH]; intros i; [reflexivity|].
  simpl. destruct (mats !! i) as [m|] eqn:Hm; [|reflexivity].
  assert (Hne : mat_tag m <> tag).
  { rewrite Forall_lookup in Hall. exact (Hall i m Hm). }
  rewrite (proj2 (String.eqb_neq _ _) Hne). apply IH.
Qed.

(** FindMaterial reports success for every tag once the list is not empty,
    and leaves [material] alone when no entry carries the tag. *)
Lemma FindMaterial_unknown s tag material :
  m_objectMaterials s <> [] ->
  Forall (fun m => mat_tag m <> tag) (m_objectMaterials s) ->
  FindMaterial s tag material = (true, material).
Proof.
  intros Hne Hall. unfold FindMaterial.
  destruct (m_objectMaterials s) as [|m mats] eqn:Hm; [done|].
  cbn [length Nat.eqb]. rewrite FindMaterial_loop_unknown by exact Hall.
  reflexivity.
Qed.

(** With a non-empty material list and a tag that no material carries,
    SetShaderMaterial writes the three material uniforms from its local
    [material], which nothing has initialised. *)
Lemma SetShaderMaterial_unknown_tag tag uninit w :
  m_objectMaterials (scene w) <> [] ->
  Forall (fun m => mat_tag m <> tag) (m_objectMaterials (scene w)) ->
  live (m_pShaderManager (scene w)) w ->
  SetShaderMaterial tag uninit w =
    Ok tt
      (store (m_pShaderManager (scene w)) "material.shininess"
         (UFloat (shininess uninit))
         (store (m_pShaderManager (scene w)) "material.specularColor"
            (UVec3 (specularColor uninit))
            (store (m_pShaderManager (scene w)) "material.diffuseColor"
               (UVec3 (diffuseColor uninit)) w)))
      [c_shader_set (m_pShaderManager (scene w)) "material.diffuseColor"
         (UVec3 (diffuseColor uninit));
       c_shader_set (m_pShaderManager (scene w)) "material.specularColor"
         (UVec3 (specularColor uninit));
       c_shader_set (m_pShaderManager (scene w)) "material.shininess"
         (UFloat (shininess uninit))].
Proof.
  intros Hne Hall Hlive. unfold SetShaderMaterial.
  assert (Hlen : (0 <? length (m_objectMaterials (scene w)))%nat = true).
  { destruct (m_objectMaterials (scene w)); [done|reflexivity]. }
  etransitivity.
  - eapply bind_run; [reflexivity|]. cbv beta.
    rewrite Hlen, (FindMaterial_unknown (scene w) tag uninit Hne Hall).
    run.
  - reflexivity.
Qed.

End Materials.

(** C1 (the code departs from the specification). One material is defined, the
    three material uniforms are bound, and SetShaderMaterial is called with
    a tag no material carries: FindMaterial reports success, and the three
    uniforms do not keep their values; they receive the contents of the
    uninitialised local. *)
Theorem SetShaderMaterial_unknown_tag_overwrites_uniforms :
  Forall (fun m => mat_tag m <> "unknown")
    (m_objectMaterials (scene Sample.material_world)) /\
  FindMaterial (scene Sample.material_world) "unknown" Sample.garbage
    = (true, Sample.garbage) /\
  uniform_at 1 "material.shininess" Sample.material_world
    = Some (UFloat (F32.lit 32 1)) /\
  exists w' calls,
    SetShaderMaterial "unknown" Sample.garbage Sample.material_world
      = Ok tt w' calls /\
    uniform_at 1 "material.diffuseColor" w'
      = Some (UVec3 (diffuseColor Sample.garbage)) /\
    uniform_at 1 "material.specularColor" w'
      = Some (UVec3 (specularColor Sample.garbage)) /\
    uniform_at 1 "material.shininess" w'
      = Some (UFloat (F32.lit 12345 1)) /\
    uniform_at 1 "material.shininess" w'
      <> uniform_at 1 "material.shininess" Sample.material_world.
Proof.
  split; [cbn; constructor; [discriminate|constructor]|].
  split; [reflexivity|]. split; [reflexivity|].
  eexists _, _. split; [reflexivity|].
  split; [reflexivity|]. split; [reflexivity|]. split; [reflexivity|].
  change (Some (UFloat (F32.lit 12345 1)) <> Some (UFloat (F32.lit 32 1))).
  intros [= H].
Qed.

(** ** The ripple control of the view manager *)

Section Ripple.
Context `{G : Glm}.

Lemma keeps_ret {A} (a : A) : keeps (ret a).
Proof. intros w a' w' c HI [= <- <- <-]. auto. Qed.

Lemma keeps_bind {A B} (m : M A) (f : A -> M B) :
  keeps m -> (forall a, keeps (f a)) -> keeps (bind m f).
Proof.
  intros Hm Hf w b w' c HI H.
  apply bind_inv in H as (a & w1 & c1 & c2 & H1 & H2 & ->).
  destruct (Hm _ _ _ _ HI H1) as [HI1 Hc1].
  destruct (Hf a _ _ _ _ HI1 H2) as [HI2 Hc2].
  split; [exact HI2|]. apply Forall_app; auto.
Qed.

Lemma keeps_bind_get {B} (f : World -> M B) :
  (forall w0, ripple_inv (view w0) -> keeps (f w0)) -> keeps (bind get f).
Proof.
  intros Hf w b w' c HI H.
  apply bind_inv in H as (a & w1 & c1 & c2 & [= <- <- <-] & H2 & ->).
  apply (Hf w HI w _ _ _ HI H2).
Qed.

Lemma keeps_call c : ripple_call_ok c -> keeps (call c).
Proof. intros Hc w a w' c' HI [= <- <- <-]. auto. Qed.

Lemma keeps_modify f :
  (forall w, ripple_inv (view w) -> ripple_inv (view (f w))) -> keeps (modify f).
Proof. intros Hf w a w' c HI [= <- <- <-]. auto. Qed.

Lemma keeps_glfwGetKey window key : keeps (glfwGetKey window key).
Proof.
  intros w a w' c HI. unfold glfwGetKey.
  destruct (window =? 0); [discriminate|]. intros [= <- <- <-]. auto.
Qed.

Lemma keeps_glfwGetTime : keeps glfwGetTime.
Proof. intros w a w' c HI [= <- <- <-]. auto. Qed.

Lemma keeps_camera : keeps camera.
Proof.
  intros w a w' c HI. unfold camera.
  destruct (g_pCamera w); [|discriminate]. intros [= <- <- <-]. auto.
Qed.

Lemma keeps_setUniform p name v :
  ripple_call_ok (c_shader_set p name v) -> keeps (setUniform p name v).
Proof.
  intros Hc w a w' c HI. unfold setUniform.
  destruct (p =? 0); [discriminate|].
  destruct (heap w !! p); [|discriminate]. intros [= <- <- <-]. auto.
Qed.

Lemma ripple_inv_clamp v x :
  ripple_inv v -> F32.is_nan x = false ->
  ripple_inv
    (set_rippleAmplitude (F32.clamp x (m_rippleMin v) (m_rippleMax v)) v).
Proof.
  intros (Hstep & Hmin & Hmax & Hr) Hx. unfold ripple_inv. cbn.
  repeat split; try assumption; rewrite Hmin, Hmax;
    apply (F32Facts.clamp_in_range x (F32.lit 0 1) (F32.lit 2 10));
    try assumption; reflexivity.
Qed.

Lemma ripple_step_up v :
  ripple_inv v ->
  F32.is_nan (F32.add (m_rippleAmplitude v) (m_rippleStep v)) = false.
Proof.
  intros (Hstep & _ & _ & Hr). rewrite Hstep.
  apply F32Facts.add_finite_not_nan;
    [apply F32Facts.in_range_finite; exact Hr | reflexivity].
Qed.

Lemma ripple_step_down v :
  ripple_inv v ->
  F32.is_nan (F32.sub (m_rippleAmplitude v) (m_rippleStep v)) = false.
Proof.
  intros (Hstep & _ & _ & Hr). rewrite Hstep.
  apply F32Facts.sub_finite_not_nan;
    [apply F32Facts.in_range_finite; exact Hr | reflexivity].
Qed.

Ltac keeps_step :=
  first
    [ apply keeps_ret
    | apply keeps_bind_get; intros ? ?
    | apply keeps_bind; [|intros ?]
    | apply keeps_glfwGetKey
    | apply keeps_glfwGetTime
    | apply keeps_camera
    | apply keeps_call; exact I
    | apply keeps_setUniform; exact I
    | apply keeps_modify; intros ? ?; assumption
    | match goal with
      | |- keeps (if ?b then _ else _) => destruct b
      end ].

Lemma ProcessRippleControls_keeps : keeps ProcessRippleControls.
Proof.
  unfold ProcessRippleControls.
  apply keeps_bind_get; intros w0 _.
  destruct (m_pWindow (view w0) =? 0); [apply keeps_ret|].
  apply keeps_bind; [apply keeps_glfwGetKey|]. intros kI.
  apply keeps_bind.
  - destruct kI; [|apply keeps_ret].
    apply keeps_modify. intros w Hw. cbn.
    apply ripple_inv_clamp; [exact Hw | apply ripple_step_up; exact Hw].
  - intros _. apply keeps_bind; [apply keeps_glfwGetKey|]. intros kU.
    destruct kU; [|apply keeps_ret].
    apply keeps_modify. intros w Hw. cbn.
    apply ripple_inv_clamp; [exact Hw | apply ripple_step_down; exact Hw].
Qed.

Lemma ProcessProjectionKeys_keeps : keeps ProcessProjectionKeys.
Proof. unfold ProcessProjectionKeys. repeat keeps_step. Qed.

Lemma ProcessSmoothMovement_keeps : keeps ProcessSmoothMovement.
Proof. unfold ProcessSmoothMovement. cbv zeta. repeat keeps_step. Qed.

Lemma ProcessKeyboardEvents_keeps : keeps ProcessKeyboardEvents.
Proof.
  unfold ProcessKeyboardEvents.
  apply keeps_bind_get; intros w0 _.
  apply keeps_bind; [apply keeps_glfwGetKey|]. intros esc.
  apply keeps_bind; [destruct esc; [apply keeps_call; exact I|apply keeps_ret]|].
  intros _. apply keeps_bind; [apply ProcessSmoothMovement_keeps|].
  intros _. apply keeps_bind; [apply ProcessProjectionKeys_keeps|].
  intros _. apply ProcessRippleControls_keeps.
Qed.

Lemma PrepareSceneView_keeps : keeps PrepareSceneView.
Proof.
  unfold PrepareSceneView, RenderCameraInfo.
  apply keeps_bind; [apply keeps_glfwGetTime|]. intros currentFrame.
  apply keeps_bind; [apply keeps_modify; intros ? ?; assumption|]. intros _.
  apply keeps_bind; [apply ProcessKeyboardEvents_keeps|]. intros _.
  apply keeps_bind; [apply keeps_camera|]. intros cam.
  apply keeps_bind_get. intros w (_ & _ & _ & Hr). cbv zeta.
  apply keeps_bind; [|intros _; apply keeps_ret].
  destruct (negb (vm_pShaderManager (view w) =? 0)); [|apply keeps_ret].
  repeat (apply keeps_bind; [|intros _]);
    try (apply keeps_setUniform; exact I).
  apply keeps_setUniform. cbn. eauto.
Qed.

Lemma ripple_writes_in_range calls :
  Forall ripple_call_ok calls ->
  Forall (fun v => exists a, v = UFloat a /\
                   in_range (F32.lit 0 1) (F32.lit 2 10) a)
         (uniform_writes "rippleAmplitude" calls).
Proof.
  induction 1 as [|c calls Hc _ IH]; [constructor|].
  unfold uniform_writes. cbn [omap]. fold (uniform_writes "rippleAmplitude" calls).
  destruct c; try exact IH. cbn in Hc |- *.
  destruct (String.eqb name "rippleAmplitude"); [|exact IH].
  constructor; assumption.
Qed.

Lemma ViewManager_new_ripple p :
  m_rippleAmplitude (ViewManager_new p) = F32.lit 10 100 /\
  ripple_inv (ViewManager_new p).
Proof.
  split; [reflexivity|]. unfold ripple_inv, in_range. cbn.
  repeat split; vm_compute; reflexivity.
Qed.

Lemma frames_keeps envs : keeps (frames envs).
Proof.
  induction envs as [|e envs IH]; cbn [frames]; [apply keeps_ret|].
  apply keeps_bind; [apply keeps_modify; intros ? ?; assumption|]. intros _.
  apply keeps_bind; [apply PrepareSceneView_keeps|]. intros _. exact IH.
Qed.

(** *** The frame returns *)

Lemma returns_ret {A} window sm (a : A) : returns window sm (ret a).
Proof. intros w Hw. exists a, w, []. auto. Qed.

Lemma returns_bind {A B} window sm (m : M A) (f : A -> M B) :
  returns window sm m -> (forall a, returns window sm (f a)) ->
  returns window sm (bind m f).
Proof.
  intros Hm Hf w Hw.
  destruct (Hm w Hw) as (a & w1 & c1 & H1 & Hw1).
  destruct (Hf a w1 Hw1) as (b & w2 & c2 & H2 & Hw2).
  exists b, w2, (c1 ++ c2). split; [|exact Hw2].
  apply (bind_run _ _ _ _ _ _ _ _ _ H1 H2).
Qed.

Lemma returns_bind_get {B} window sm (f : World -> M B) :
  (forall w0, view_ready window sm w0 -> returns window sm (f w0)) ->
  returns window sm (bind get f).
Proof.
  intros Hf w Hw. destruct (Hf w Hw w Hw) as (b & w2 & c2 & H2 & Hw2).
  exists b, w2, ([] ++ c2). split; [|exact Hw2].
  apply (bind_run get f w w w [] b w2 c2 eq_refl H2).
Qed.

Lemma returns_call window sm c : returns window sm (call c).
Proof. intros w Hw. exists tt, w, [c]. auto. Qed.

Lemma returns_modify window sm f :
  (forall w, view_ready window sm w -> view_ready window sm (f w)) ->
  returns window sm (modify f).
Proof. intros Hf w Hw. exists tt, (f w), []. auto. Qed.

Lemma returns_glfwGetKey window sm key :
  returns window sm (glfwGetKey window key).
Proof.
  intros w Hw. exists (keys w key), w, []. split; [|exact Hw].
  unfold glfwGetKey. destruct Hw as (_ & _ & Hwin & _).
  rewrite (proj2 (Z.eqb_neq _ _) Hwin). reflexivity.
Qed.

Lemma returns_glfwGetTime window sm : returns window sm glfwGetTime.
Proof. intros w Hw. exists (clock w), w, []. auto. Qed.

Lemma returns_camera window sm : returns window sm camera.
Proof.
  intros w Hw. destruct Hw as (H1 & H2 & H3 & [cam Hcam] & H5).
  exists cam, w, []. split; [|repeat split; eauto].
  unfold camera. rewrite Hcam. reflexivity.
Qed.

Lemma returns_setUniform window sm name v :
  sm <> 0 -> returns window sm (setUniform sm name v).
Proof.
  intros Hsm w (H1 & H2 & H3 & H4 & [H5|H5]); [contradiction|].
  exists tt, (store sm name v w), [c_shader_set sm name v].
  split; [apply setUniform_run; exact H5|].
  repeat split; try assumption. right. apply live_store. exact H5.
Qed.

Ltac returns_step :=
  first
    [ apply returns_ret
    | apply returns_bind_get; intros ? ?
    | apply returns_bind; [|intros ?]
    | apply returns_glfwGetTime
    | apply returns_camera
    | apply returns_call
    | apply returns_modify; intros ? ?; assumption
    | match goal with
      | H : view_ready ?win _ ?w0 |- returns ?win _ (glfwGetKey (m_pWindow (view ?w0)) _) =>
          rewrite (proj1 H); apply returns_glfwGetKey
      | |- returns _ _ (if ?b then _ else _) => destruct b
      end ].

Lemma view_ready_with_camera window sm c w :
  view_ready window sm w -> view_ready window sm (with_camera (Some c) w).
Proof.
  intros (H1 & H2 & H3 & _ & H5). repeat split; try assumption. eauto.
Qed.

Lemma ProcessRippleControls_returns window sm :
  returns window sm ProcessRippleControls.
Proof.
  unfold ProcessRippleControls. apply returns_bind_get; intros w0 H0.
  rewrite (proj1 H0).
  destruct (window =? 0); [apply returns_ret|].
  repeat first [returns_step | apply returns_glfwGetKey].
Qed.

Lemma ProcessProjectionKeys_returns window sm :
  returns window sm ProcessProjectionKeys.
Proof.
  unfold ProcessProjectionKeys. apply returns_bind_get; intros w0 H0.
  rewrite (proj1 H0).
  repeat first [returns_step | apply returns_glfwGetKey].
Qed.

Lemma ProcessSmoothMovement_returns window sm :
  returns window sm ProcessSmoothMovement.
Proof.
  unfold ProcessSmoothMovement. cbv zeta.
  apply returns_bind_get; intros w0 H0. rewrite (proj1 H0).
  repeat first
    [ returns_step | apply returns_glfwGetKey
    | apply returns_modify; intros ? ?; apply view_ready_with_camera; assumption ].
Qed.

Lemma ProcessKeyboardEvents_returns window sm :
  returns window sm ProcessKeyboardEvents.
Proof.
  unfold ProcessKeyboardEvents. apply returns_bind_get; intros w0 H0.
  rewrite (proj1 H0).
  apply returns_bind; [apply returns_glfwGetKey|]. intros esc.
  apply returns_bind; [destruct esc; [apply returns_call|apply returns_ret]|].
  intros _. apply returns_bind; [apply ProcessSmoothMovement_returns|].
  intros _. apply returns_bind; [apply ProcessProjectionKeys_returns|].
  intros _. apply ProcessRippleControls_returns.
Qed.

(** On a state with a window and a camera, and a shader manager pointer
    that is null or live, PrepareSceneView returns. *)
Lemma PrepareSceneView_returns window sm : returns window sm PrepareSceneView.
Proof.
  unfold PrepareSceneView, RenderCameraInfo.
  apply returns_bind; [apply returns_glfwGetTime|]. intros currentFrame.
  apply returns_bind; [apply returns_modify; intros ? ?; assumption|]. intros _.
  apply returns_bind; [apply ProcessKeyboardEvents_returns|]. intros _.
  apply returns_bind; [apply returns_camera|]. intros cam.
  apply returns_bind_get. intros w Hw. cbv zeta. rewrite (proj1 (proj2 Hw)).
  apply returns_bind; [|intros _; apply returns_ret].
  destruct (Z.eqb_spec sm 0) as [->|Hsm]; [apply returns_ret|]. cbn [negb].
  repeat (apply returns_bind; [|intros _]); apply returns_setUniform; exact Hsm.
Qed.

(** What one key does: with a window and only I down the amplitude becomes
    [clamp(amplitude + step, min, max)], with only U down
    [clamp(amplitude - step, min, max)]. *)
Lemma ProcessRippleControls_one_key w (up : bool) :
  m_pWindow (view w) <> 0 ->
  keys w GLFW_KEY_I = up -> keys w GLFW_KEY_U = negb up ->
  ProcessRippleControls w =
    Ok tt
      (with_view
         (fun v =>
            set_rippleAmplitude
              (F32.clamp
                 ((if up then F32.add else F32.sub)
                    (m_rippleAmplitude v) (m_rippleStep v))
                 (m_rippleMin v) (m_rippleMax v)) v) w)
      [].
Proof.
  intros Hwin HI HU.
  unfold ProcessRippleControls, bind, get, glfwGetKey, modify, ret.
  rewrite (proj2 (Z.eqb_neq _ _) Hwin), HI. destruct up; cbn; rewrite HU;
    reflexivity.
Qed.

(** C10. The constructor sets the ripple amplitude to [0.10f], with the
    step [0.01f] and the clamps [0.0f] and [0.2f] of the header; a press of
    I (of U) replaces the amplitude by [clamp(amplitude + step, min, max)]
    (by [clamp(amplitude - step, min, max)]); every ProcessRippleControls
    that starts with the amplitude between the clamps leaves it between
    them; so does every PrepareSceneView, and every value it writes to the
    uniform [rippleAmplitude] is a float between [0.0f] and [0.2f]. *)
Theorem ripple_amplitude_stays_clamped :
  (forall p,
     m_rippleAmplitude (ViewManager_new p) = F32.lit 10 100 /\
     ripple_inv (ViewManager_new p)) /\
  (forall w (up : bool),
     m_pWindow (view w) <> 0 ->
     keys w GLFW_KEY_I = up -> keys w GLFW_KEY_U = negb up ->
     exists w',
       ProcessRippleControls w = Ok tt w' [] /\
       m_rippleAmplitude (view w') =
         F32.clamp
           ((if up then F32.add else F32.sub)
              (m_rippleAmplitude (view w)) (m_rippleStep (view w)))
           (m_rippleMin (view w)) (m_rippleMax (view w))) /\
  (forall w w' calls,
     ripple_inv (view w) -> ProcessRippleControls w = Ok tt w' calls ->
     ripple_inv (view w')) /\
  (forall w w' calls,
     ripple_inv (view w) -> PrepareSceneView w = Ok tt w' calls ->
     ripple_inv (view w') /\
     Forall (fun v => exists a, v = UFloat a /\
                      in_range (F32.lit 0 1) (F32.lit 2 10) a)
            (uniform_writes "rippleAmplitude" calls)).
Proof.
  split; [exact ViewManager_new_ripple|]. split; [|split].
  - intros w up Hwin HI HU. eexists. split.
    + apply (ProcessRippleControls_one_key w up Hwin HI HU).
    + reflexivity.
  - intros w w' calls HI H. apply (ProcessRippleControls_keeps _ _ _ _ HI H).
  - intros w w' calls HI H.
    destruct (PrepareSceneView_keeps _ _ _ _ HI H) as [HI' Hc].
    split; [exact HI'|]. apply ripple_writes_in_range. exact Hc.
Qed.

(** The whole life of a view manager: constructed, given its window, then
    any number of frames under any keys and clock. *)
Corollary ripple_amplitude_over_a_run p fresh title window envs w0 w calls :
  bind (ViewManager_ctor p fresh)
    (fun _ => bind (CreateDisplayWindow title window)
                (fun _ => frames envs)) w0 = Ok tt w calls ->
  ripple_inv (view w) /\
  Forall (fun v => exists a, v = UFloat a /\
                   in_range (F32.lit 0 1) (F32.lit 2 10) a)
         (uniform_writes "rippleAmplitude" calls).
Proof.
  intros H.
  apply bind_inv in H as ([] & w1 & c1 & c2 & H1 & H & ->).
  apply bind_inv in H as (win & w2 & c3 & c4 & H2 & H3 & ->).
  injection H1 as <- <-.
  assert (HI1 : ripple_inv (view w2) /\ Forall ripple_call_ok c3).
  { revert H2. unfold CreateDisplayWindow, bind, call, modify, ret.
    destruct (window =? 0); intros [= <- <- <-]; cbn;
      (split; [apply ViewManager_new_ripple | repeat constructor]). }
  destruct HI1 as [HI2 Hc3].
  destruct (frames_keeps envs _ _ _ _ HI2 H3) as [HI Hc4].
  split; [exact HI|]. apply ripple_writes_in_range.
  cbn [app]. apply Forall_app. auto.
Qed.

End Ripple.

(** ** The theorems at concrete states *)

Module Witness.
Import Sample.

Lemma fresh_main_live : live 1 fresh.
Proof. split; [discriminate|]. eexists. reflexivity. Qed.

Lemma ready_main_live : live 1 ready.
Proof. split; [discriminate|]. eexists. reflexivity. Qed.

Lemma ready_shadow_ready : shadow_ready ready.
Proof.
  split; [discriminate|]. split; [discriminate|]. eexists. reflexivity.
Qed.

Lemma fresh_registry_wf : registry_wf (scene fresh).
Proof. unfold registry_wf. cbn. lia. Qed.

Lemma two_textures_distinct : NoDup (map snd two_textures).
Proof.
  apply NoDup_cons_2; [|apply NoDup_singleton].
  rewrite list_elem_of_singleton. discriminate.
Qed.

Lemma light_space_matrix_witness :
  exists w' calls,
    RenderShadowMap light_position light_direction ready = Ok tt w' calls /\
    m_spotLightSpaceMatrix (scene w') =
      MMul
        (MPerspective (glm_radians (F32.lit 48 1)) (F32.lit 1 1)
           (F32.lit 5 100) (F32.lit 80 1))
        (MLookAt light_position
           (vec3_add light_position (glm_normalize light_direction))
           (Vec3 (F32.lit 0 1) (F32.lit 1 1) (F32.lit 0 1))).
Proof.
  destruct (RenderShadowMap_light_space_matrix light_position light_direction
              ready ready_shadow_ready eq_refl eq_refl)
    as (w' & calls & Hrun & _ & Hm).
  exists w', calls. split; [exact Hrun | exact Hm].
Defined.

Lemma framebuffer_and_viewport_witness :
  exists w' calls,
    RenderShadowMap light_position light_direction ready = Ok tt w' calls /\
    framebuffer_binds calls = [5; 0] /\
    state_queries calls = [(GL_VIEWPORT, (0, 0, 1000, 800))] /\
    viewport_sets calls = [(0, 0, 2048, 2048); (0, 0, 1000, 800)] /\
    gl_viewport (gl w') = (0, 0, 1000, 800) /\
    gl_framebuffer (gl w') = 0.
Proof.
  destruct (RenderShadowMap_framebuffer_and_viewport light_position
              light_direction ready ready_shadow_ready)
    as (w' & calls & Hrun & Hb & _ & Hq & Hs & Hv & Hf).
  exists w', calls. auto 10.
Defined.

Lemma both_passes_witness :
  exists w1 depth_calls w2 color_calls,
    RenderShadowMap light_position light_direction ready
      = Ok tt w1 depth_calls /\
    RenderScene w1 = Ok tt w2 color_calls /\
    delete 7%nat (draws_with_model 2 None depth_calls)
      = delete 5%nat (draws_with_model 1 None color_calls).
Proof.
  destruct (both_passes_draw_the_same_objects light_position light_direction
              ready ready_shadow_ready ready_main_live fresh_registry_wf)
    as (w1 & dc & w2 & cc & H1 & H2 & Hd & Hc & _).
  exists w1, dc, w2, cc. split; [exact H1|]. split; [exact H2|].
  exact (eq_trans Hd (eq_sym Hc)).
Defined.

Lemma uninitialized_shadow_witness :
  RenderShadowMap light_position light_direction fresh = Ok tt fresh [] /\
  exists w' calls,
    RenderScene fresh = Ok tt w' calls /\
    uniform_writes "spotShadowMap" calls = [] /\
    length (meshes calls) = 8%nat.
Proof.
  destruct uninitialized_shadow_resources_are_skipped as [Hshadow Hscene].
  split; [apply Hshadow; left; reflexivity|].
  destruct (Hscene fresh eq_refl fresh_main_live fresh_registry_wf)
    as (w' & calls & Hrun & Hu & _ & _ & Hm).
  exists w', calls. split; [exact Hrun|]. split; [exact Hu|].
  rewrite Hm. reflexivity.
Defined.

Lemma unsupported_channels_witness :
  exists w' calls,
    CreateGLTexture "textures/grey.png" "grey" fresh = Ok false w' calls /\
    m_loadedTextures (scene w') = 0.
Proof.
  destruct (CreateGLTexture_unsupported_channels "textures/grey.png" "grey"
              fresh image1 eq_refl ltac:(discriminate) ltac:(discriminate))
    as (w' & calls & Hrun & Hn & _).
  exists w', calls. split; [exact Hrun | exact Hn].
Defined.

Lemma capacity_witness :
  (exists w' calls,
     CreateGLTexture "textures/stone.png" "stone" fresh = Ok true w' calls /\
     m_loadedTextures (scene w') = 1) /\
  CreateGLTexture "textures/stone.png" "stone" full = Crash OutOfBounds.
Proof.
  split.
  - destruct (CreateGLTexture_capacity "textures/stone.png" "stone" fresh
                image3 eq_refl (or_introl eq_refl) eq_refl ltac:(vm_compute; discriminate))
      as [Hin _].
    destruct (Hin ltac:(vm_compute; reflexivity)) as (w' & calls & Hrun & _ & _ & Hn).
    exists w', calls. split; [exact Hrun | exact Hn].
  - destruct (CreateGLTexture_capacity "textures/stone.png" "stone" full
                image3 eq_refl (or_introl eq_refl) eq_refl ltac:(vm_compute; discriminate))
      as [_ Hout].
    apply Hout. vm_compute. discriminate.
Defined.

Lemma duplicate_tag_witness :
  m_loadedTextures (scene dup_twice) = 2 /\
  FindTextureSlot "dup" dup_twice = Ok 0 dup_twice [] /\
  FindTextureID "dup" dup_twice = Ok 1 dup_twice [] /\
  m_textureIDs (scene dup_twice) !! 1%nat = Some {| tex_tag := "dup"; ID := 2 |}.
Proof.
  destruct (duplicate_tag_first_registration_wins
              "textures/stone.png" "textures/grass.png" "dup" [] []
              fresh dup_once dup_once dup_twice dup_twice
              dup_once_calls [] dup_twice_calls [] [] []
              eq_refl eq_refl eq_refl eq_refl eq_refl)
    as (_ & _ & _ & Hsecond & Hslot & Hid & _).
  split; [reflexivity|]. split; [exact Hslot|]. split; [exact Hid|].
  exact Hsecond.
Defined.

Lemma registration_order_witness :
  exists w2 c2,
    BindGLTextures registered = Ok tt w2 c2 /\
    gl_texture_2d (gl w2) !! 0 = Some 1 /\
    gl_texture_2d (gl w2) !! 1 = Some 2 /\
    FindTextureSlot "grass" w2 = Ok 1 w2 [] /\
    FindTextureID "grass" w2 = Ok 2 w2 [].
Proof.
  destruct (registration_order_is_unit_order two_textures fresh registered
              registered_calls eq_refl
              two_textures_distinct fresh_main_live eq_refl)
    as (w2 & c2 & Hbind & _ & Hall).
  exists w2, c2. split; [exact Hbind|].
  destruct (Hall 0%nat _ _ eq_refl) as (_ & Hb0 & _).
  destruct (Hall 1%nat _ _ eq_refl) as (_ & Hb1 & Hs1 & _ & Hi1).
  split; [exact Hb0|]. split; [exact Hb1|]. split; [exact Hs1|].
  apply Hi1. vm_compute. split; [discriminate | reflexivity].
Defined.

Lemma ripple_witness :
  PrepareSceneView frame_I = Ok tt frame_I_after frame_I_calls /\
  ripple_inv (view frame_I_after) /\
  Forall (fun v => exists a, v = UFloat a /\
                   in_range (F32.lit 0 1) (F32.lit 2 10) a)
         (uniform_writes "rippleAmplitude" frame_I_calls).
Proof.
  destruct ripple_amplitude_stays_clamped as (Hinit & _ & _ & Hframe).
  split; [reflexivity|].
  apply (Hframe frame_I frame_I_after frame_I_calls (proj2 (Hinit 1)) eq_refl).
Defined.

End Witness.

(** ** Further properties of the texture registry *)

Section RegistryMore.
Context `{G : Glm}.

Lemma bind_crash {A B} (m : M A) (f : A -> M B) w e :
  m w = Crash e -> bind m f w = Crash e.
Proof. intros H. unfold bind. rewrite H. reflexivity. Qed.

Lemma bind_then_crash {A B} (m : M A) (f : A -> M B) w a w1 c1 e :
  m w = Ok a w1 c1 -> f a w1 = Crash e -> bind m f w = Crash e.
Proof. intros H1 H2. unfold bind. rewrite H1, H2. reflexivity. Qed.

Lemma bind_get_run {B} (f : World -> M B) w b w2 c :
  f w w = Ok b w2 c -> bind get f w = Ok b w2 c.
Proof. intros H. unfold bind, get. rewrite H. reflexivity. Qed.

Lemma uniform_at_store_ne p q name name' v w :
  p <> q \/ name <> name' ->
  uniform_at p name (store q name' v w) = uniform_at p name w.
Proof.
  intros Hne. unfold uniform_at, store. cbn.
  destruct (decide (q = p)) as [->|Hpq].
  - rewrite lookup_alter_eq. destruct (heap w !! p) as [sh|]; [|reflexivity].
    cbn. apply lookup_insert_ne. destruct Hne as [?|?]; congruence.
  - rewrite lookup_alter_ne by done. reflexivity.
Qed.

Lemma uniform_at_with_gl p name f w :
  uniform_at p name (with_gl f w) = uniform_at p name w.
Proof. reflexivity. Qed.

(** Both lookups miss when no entry of the range carries the tag. *)
Lemma Find_loops_miss ids tag r idx :
  0 <= idx ->
  (forall k, idx <= k < idx + Z.of_nat r ->
     exists e', ids !! Z.to_nat k = Some e' /\ tex_tag e' <> tag) ->
  FindTextureSlot_loop ids tag r idx = Some (-1) /\
  FindTextureID_loop ids tag r idx = Some (-1).
Proof.
  revert idx. induction r as [|r IH]; intros idx Hidx Hall; [auto|].
  simpl. destruct (Hall idx) as (e' & He' & Hne); [lia|].
  rewrite He', (proj2 (String.eqb_neq _ _) Hne).
  apply IH; [lia|]. intros k Hk. apply Hall. lia.
Qed.

(** X1. On a registry that lies inside its array, FindTextureSlot and
    FindTextureID always return and agree: either some entry below
    [m_loadedTextures] carries the tag, and then the slot is the least index
    of such an entry and the identifier is the handle stored there
    (converted to the [int] the function returns); or none does, and both
    return -1.  Entries at or above [m_loadedTextures] are never looked
    at. *)
Theorem texture_lookups_agree tag w :
  registry_wf (scene w) ->
  (exists slot e,
     0 <= slot < m_loadedTextures (scene w) /\
     m_textureIDs (scene w) !! Z.to_nat slot = Some e /\ tex_tag e = tag /\
     (forall k e', 0 <= k < slot ->
        m_textureIDs (scene w) !! Z.to_nat k = Some e' -> tex_tag e' <> tag) /\
     FindTextureSlot tag w = Ok slot w [] /\
     FindTextureID tag w = Ok (int_of_uint32 (ID e)) w []) \/
  ((forall k e', 0 <= k < m_loadedTextures (scene w) ->
      m_textureIDs (scene w) !! Z.to_nat k = Some e' -> tex_tag e' <> tag) /\
   FindTextureSlot tag w = Ok (-1) w [] /\
   FindTextureID tag w = Ok (-1) w []).
Proof.
  intros Hwf.
  destruct (registry_finds (scene w) tag Hwf) as (slot & tid & Hs & Hi).
  destruct (FindTextureSlot_loop_inv _ _ _ 0 _ ltac:(lia) Hs)
    as [[-> Hall]|[Hj (e & He & Htag & Hb)]].
  - right.
    destruct (Find_loops_miss (m_textureIDs (scene w)) tag
                (Z.to_nat (m_loadedTextures (scene w))) 0 ltac:(lia) Hall)
      as [Hs' Hi'].
    split.
    + intros k e' Hk He'. destruct (Hall k ltac:(lia)) as (e'' & He'' & Hne).
      congruence.
    + split; [apply FindTextureSlot_run; exact Hs'
             |apply FindTextureID_run; exact Hi'].
  - left. exists slot, e.
    destruct (Find_loops_first (m_textureIDs (scene w)) tag
                (Z.to_nat (m_loadedTextures (scene w))) 0 slot e
                ltac:(lia) ltac:(lia) He Htag Hb) as [Hs' Hi'].
    split; [lia|]. split; [exact He|]. split; [exact Htag|]. split.
    + intros k e' Hk He'. destruct (Hb k ltac:(lia)) as (e'' & He'' & Hne).
      congruence.
    + split; [apply FindTextureSlot_run; exact Hs'
             |apply FindTextureID_run; exact Hi'].
Qed.

(** X2. The two ways CreateGLTexture fails.  A file that cannot be decoded:
    the call returns false after the two stb_image calls and changes
    nothing.  A file that decodes with a channel count other than 3 and 4:
    the call returns false after it has generated a texture name, bound it
    to the selected unit and set its four parameters; no pixels are
    uploaded, the image is not freed, and the texture stays bound. *)
Theorem CreateGLTexture_failure_paths filename tag w :
  (files w !! filename = None ->
   CreateGLTexture filename tag w =
     Ok false w [c_stbi_set_flip_vertically_on_load true; c_stbi_load filename]) /\
  (forall img,
     files w !! filename = Some img ->
     colorChannels img <> 3 -> colorChannels img <> 4 ->
     exists w',
       CreateGLTexture filename tag w =
         Ok false w'
           [c_stbi_set_flip_vertically_on_load true; c_stbi_load filename;
            c_glGenTextures (gl_next_name (gl w));
            c_glBindTexture (gl_next_name (gl w));
            c_glTexParameteri GL_TEXTURE_WRAP_S GL_REPEAT;
            c_glTexParameteri GL_TEXTURE_WRAP_T GL_REPEAT;
            c_glTexParameteri GL_TEXTURE_MIN_FILTER GL_LINEAR;
            c_glTexParameteri GL_TEXTURE_MAG_FILTER GL_LINEAR] /\
       gl_next_name (gl w') = gl_next_name (gl w) + 1 /\
       gl_texture_2d (gl w') !! gl_active_texture (gl w)
         = Some (gl_next_name (gl w)) /\
       scene w' = scene w).
Proof.
  split.
  - intros Hf.
    unfold CreateGLTexture, stbi_load, bind, call, get, ret.
    rewrite Hf. reflexivity.
  - intros img Hf H3 H4.
    unfold CreateGLTexture, stbi_load, glGenTextures, glBindTexture, bind, call,
      get, modify, ret.
    rewrite Hf, (proj2 (Z.eqb_neq _ _) H3), (proj2 (Z.eqb_neq _ _) H4).
    cbn. eexists. split; [reflexivity|]. cbn.
    split; [reflexivity|]. split; [apply lookup_insert_eq|reflexivity].
Qed.

Lemma CreateGLTexture_run filename tag w img :
  files w !! filename = Some img ->
  colorChannels img = 3 \/ colorChannels img = 4 ->
  0 <= m_loadedTextures (scene w) ->
  (Z.to_nat (m_loadedTextures (scene w)) < length (m_textureIDs (scene w)))%nat ->
  CreateGLTexture filename tag w =
    Ok true
      (with_scene
         (set_registry
            (<[Z.to_nat (m_loadedTextures (scene w)) :=
                 {| tex_tag := tag; ID := gl_next_name (gl w) |}]>
               (m_textureIDs (scene w)))
            (m_loadedTextures (scene w) + 1))
         (with_gl (fun g =>
            set_texture_2d (<[gl_active_texture g := 0]> (gl_texture_2d g)) g)
            (with_gl (fun g =>
               set_texture_2d
                 (<[gl_active_texture g := gl_next_name (gl w)]>
                    (gl_texture_2d g)) g)
               (with_gl (set_next_name (gl_next_name (gl w) + 1)) w))))
      [c_stbi_set_flip_vertically_on_load true; c_stbi_load filename;
       c_glGenTextures (gl_next_name (gl w));
       c_glBindTexture (gl_next_name (gl w));
       c_glTexParameteri GL_TEXTURE_WRAP_S GL_REPEAT;
       c_glTexParameteri GL_TEXTURE_WRAP_T GL_REPEAT;
       c_glTexParameteri GL_TEXTURE_MIN_FILTER GL_LINEAR;
       c_glTexParameteri GL_TEXTURE_MAG_FILTER GL_LINEAR;
       upload_of img;
       c_glGenerateMipmap; c_stbi_image_free; c_glBindTexture 0].
Proof.
  intros Hf Hc Hn Hin.
  destruct (lookup_lt_is_Some_2 _ _ Hin) as [e He].
  assert (Hnneg : (m_loadedTextures (scene w) <? 0) = false) by lia.
  unfold CreateGLTexture, stbi_load, glGenTextures, glBindTexture,
    registerTexture, upload_of, bind, call, get, modify, ret.
  rewrite Hf.
  destruct Hc as [Hc|Hc]; rewrite Hc; cbn; rewrite Hnneg, He; reflexivity.
Qed.

(** The loop of BindGLTextures: the calls it makes and the state it
    leaves. *)
Lemma BindGLTextures_loop_calls r i w :
  0 <= i -> (Z.to_nat i + r <= length (m_textureIDs (scene w)))%nat ->
  exists w',
    BindGLTextures_loop r i w =
      Ok tt w' (bind_calls (take r (drop (Z.to_nat i) (m_textureIDs (scene w)))) i) /\
    same_but_textures w w' /\
    (forall k, i <= k < i + Z.of_nat r ->
       exists e, m_textureIDs (scene w) !! Z.to_nat k = Some e /\
                 gl_texture_2d (gl w') !! k = Some (ID e)) /\
    (forall k, k < i \/ i + Z.of_nat r <= k ->
       gl_texture_2d (gl w') !! k = gl_texture_2d (gl w) !! k) /\
    gl_active_texture (gl w') =
      (if r is O then gl_active_texture (gl w) else i + Z.of_nat r - 1).
Proof.
  revert i w. induction r as [|r IH]; intros i w Hi Hlen.
  - exists w. split; [reflexivity|]. split.
    + unfold same_but_textures. destruct w as [? ? ? ? ? ? [] ? ? ?]. reflexivity.
    + split; [intros k Hk; lia|]. split; reflexivity.
  - destruct (lookup_lt_is_Some_2 (m_textureIDs (scene w)) (Z.to_nat i))
      as [e He]; [lia|].
    cbn [BindGLTextures_loop]. unfold bind at 1. unfold get at 1.
    rewrite He.
    unfold glActiveTexture, glBindTexture.
    unfold bind at 1. unfold bind at 1. unfold modify at 1. unfold call at 1.
    unfold bind at 1. unfold bind at 1. unfold modify at 1. unfold call at 1.
    cbn [with_gl gl gl_active_texture set_active_texture gl_texture_2d app].
    match goal with
    | |- context [BindGLTextures_loop r (i + 1) ?w1] =>
        destruct (IH (i + 1) w1 ltac:(lia) ltac:(cbn; lia))
          as (w' & Hrun & Hsame & Hbound & Hout & Hact)
    end.
    rewrite Hrun. exists w'. split.
    + cbn [scene]. rewrite (drop_S _ e _ He). cbn [take bind_calls app].
      replace (Z.to_nat (i + 1)) with (S (Z.to_nat i)) by lia. reflexivity.
    + split.
      * unfold same_but_textures in *. rewrite Hsame at 1.
        destruct w as [? ? ? ? ? ? [] ? ? ?]. reflexivity.
      * split; [|split].
        -- intros k Hk. destruct (Z.eq_dec k i) as [->|Hne].
           ++ exists e. split; [exact He|]. rewrite Hout by lia. cbn.
              apply lookup_insert_eq.
           ++ destruct (Hbound k ltac:(lia)) as (e' & He' & Hb). eauto.
        -- intros k Hk. rewrite Hout by lia. cbn. apply lookup_insert_ne. lia.
        -- rewrite Hact. destruct r; cbn; lia.
Qed.

(** BindGLTextures with a live shader manager. *)
Lemma BindGLTextures_live_run w P :
  m_pShaderManager (scene w) = P -> live P w ->
  0 <= m_loadedTextures (scene w) -> registry_wf (scene w) ->
  exists w1,
    BindGLTextures w =
      Ok tt (store P "objectTexture" (USampler2D 0) w1)
        (bind_calls
           (take (Z.to_nat (m_loadedTextures (scene w))) (m_textureIDs (scene w)))
           0 ++ [c_shader_set P "objectTexture" (USampler2D 0)]) /\
    same_but_textures w w1 /\
    (forall k e, 0 <= k < m_loadedTextures (scene w) ->
       m_textureIDs (scene w) !! Z.to_nat k = Some e ->
       gl_texture_2d (gl w1) !! k = Some (ID e)) /\
    (forall k, k < 0 \/ m_loadedTextures (scene w) <= k ->
       gl_texture_2d (gl w1) !! k = gl_texture_2d (gl w) !! k) /\
    gl_active_texture (gl w1) =
      (if 0 <? m_loadedTextures (scene w) then m_loadedTextures (scene w) - 1
       else gl_active_texture (gl w)).
Proof.
  intros HP Hlive Hn Hwf. unfold registry_wf in Hwf.
  destruct (BindGLTextures_loop_calls (Z.to_nat (m_loadedTextures (scene w))) 0 w
              ltac:(lia) ltac:(lia))
    as (w1 & Hloop & Hsame & Hbound & Hout & Hact).
  change (Z.to_nat 0) with 0%nat in Hloop. rewrite drop_0 in Hloop.
  assert (Hlive1 : live P w1).
  { destruct Hlive as [H0 Hsome]. split; [exact H0|].
    rewrite Hsame. exact Hsome. }
  exists w1. split.
  - unfold BindGLTextures. apply bind_get_run.
    eapply bind_run; [exact Hloop|]. cbv beta.
    rewrite HP, (nonnull_test _ (proj1 Hlive)).
    apply setUniform_run. exact Hlive1.
  - split; [exact Hsame|]. split.
    { intros k e Hk He. destruct (Hbound k ltac:(lia)) as (e' & He' & Hb).
      congruence. }
    split.
    { intros k Hk. apply Hout. lia. }
    rewrite Hact.
    destruct (Z.to_nat (m_loadedTextures (scene w))) eqn:E;
      destruct (Z.ltb_spec 0 (m_loadedTextures (scene w))); lia.
Qed.

(** BindGLTextures with a null shader manager pointer. *)
Lemma BindGLTextures_null_run w :
  m_pShaderManager (scene w) = 0 ->
  0 <= m_loadedTextures (scene w) -> registry_wf (scene w) ->
  exists w1,
    BindGLTextures w =
      Ok tt w1
        (bind_calls
           (take (Z.to_nat (m_loadedTextures (scene w))) (m_textureIDs (scene w)))
           0) /\
    same_but_textures w w1 /\
    (forall k e, 0 <= k < m_loadedTextures (scene w) ->
       m_textureIDs (scene w) !! Z.to_nat k = Some e ->
       gl_texture_2d (gl w1) !! k = Some (ID e)) /\
    (forall k, k < 0 \/ m_loadedTextures (scene w) <= k ->
       gl_texture_2d (gl w1) !! k = gl_texture_2d (gl w) !! k) /\
    gl_active_texture (gl w1) =
      (if 0 <? m_loadedTextures (scene w) then m_loadedTextures (scene w) - 1
       else gl_active_texture (gl w)).
Proof.
  intros HP Hn Hwf. unfold registry_wf in Hwf.
  destruct (BindGLTextures_loop_calls (Z.to_nat (m_loadedTextures (scene w))) 0 w
              ltac:(lia) ltac:(lia))
    as (w1 & Hloop & Hsame & Hbound & Hout & Hact).
  change (Z.to_nat 0) with 0%nat in Hloop. rewrite drop_0 in Hloop.
  exists w1. split.
  - unfold BindGLTextures. apply bind_get_run.
    rewrite <- (app_nil_r (bind_calls _ _)).
    eapply bind_run; [exact Hloop|]. cbv beta. rewrite HP. reflexivity.
  - split; [exact Hsame|]. split.
    { intros k e Hk He. destruct (Hbound k ltac:(lia)) as (e' & He' & Hb).
      congruence. }
    split.
    { intros k Hk. apply Hout. lia. }
    rewrite Hact.
    destruct (Z.to_nat (m_loadedTextures (scene w))) eqn:E;
      destruct (Z.ltb_spec 0 (m_loadedTextures (scene w))); lia.
Qed.

(** X3. BindGLTextures on a registry inside its array, with a shader
    manager pointer that is null or live: it returns; its calls select unit
    [i] and bind the handle of entry [i] to it, for [i] from 0 up in
    order, followed by one write of the sampler [objectTexture] (unit 0)
    when the pointer is not null and by nothing when it is null.  Every
    registered texture is then bound to the unit of its index, the units
    outside the registry keep their textures, the last unit stays
    selected, and nothing else of the state changes but that uniform. *)
Theorem BindGLTextures_binds_in_order w :
  0 <= m_loadedTextures (scene w) -> registry_wf (scene w) ->
  m_pShaderManager (scene w) = 0 \/ live (m_pShaderManager (scene w)) w ->
  exists w1 w',
    BindGLTextures w =
      Ok tt w'
        (bind_calls
           (take (Z.to_nat (m_loadedTextures (scene w))) (m_textureIDs (scene w)))
           0 ++
         (if m_pShaderManager (scene w) =? 0 then []
          else [c_shader_set (m_pShaderManager (scene w)) "objectTexture"
                  (USampler2D 0)])) /\
    same_but_textures w w1 /\ same_but_uniforms w1 w' /\
    (m_pShaderManager (scene w) = 0 -> w' = w1) /\
    (forall k e, 0 <= k < m_loadedTextures (scene w) ->
       m_textureIDs (scene w) !! Z.to_nat k = Some e ->
       gl_texture_2d (gl w') !! k = Some (ID e)) /\
    (forall k, k < 0 \/ m_loadedTextures (scene w) <= k ->
       gl_texture_2d (gl w') !! k = gl_texture_2d (gl w) !! k) /\
    (0 < m_loadedTextures (scene w) ->
     gl_active_texture (gl w') = m_loadedTextures (scene w) - 1).
Proof.
  intros Hn Hwf [Hnull|Hlive].
  - destruct (BindGLTextures_null_run w Hnull Hn Hwf)
      as (w1 & Hrun & Hsame & Hbound & Hout & Hact).
    exists w1, w1. rewrite Hnull. cbn [Z.eqb]. rewrite app_nil_r.
    split; [exact Hrun|]. split; [exact Hsame|]. split.
    { unfold same_but_uniforms. destruct w1. reflexivity. }
    split; [reflexivity|]. split; [exact Hbound|]. split; [exact Hout|].
    intros Hpos. rewrite Hact, (proj2 (Z.ltb_lt _ _) Hpos). reflexivity.
  - destruct (BindGLTextures_live_run w _ eq_refl Hlive Hn Hwf)
      as (w1 & Hrun & Hsame & Hbound & Hout & Hact).
    eexists w1, _. rewrite (proj2 (Z.eqb_neq _ _) (proj1 Hlive)).
    split; [exact Hrun|]. split; [exact Hsame|]. split; [reflexivity|].
    split; [intros H0; destruct Hlive as [Hne _]; contradiction|].
    split; [exact Hbound|]. split; [exact Hout|].
    intros Hpos. cbn [gl store with_heap].
    rewrite Hact, (proj2 (Z.ltb_lt _ _) Hpos). reflexivity.
Qed.

(** X4. Registering a texture after the textures were bound undoes one
    binding: CreateGLTexture binds the new texture to the selected unit,
    which BindGLTextures left at the last registered texture's unit, and
    then binds 0 there.  After BindGLTextures and one more successful
    CreateGLTexture the last unit holds no texture, while the units before
    it keep theirs. *)
Theorem registration_after_binding_unbinds_last_unit filename tag w img :
  files w !! filename = Some img ->
  colorChannels img = 3 \/ colorChannels img = 4 ->
  0 < m_loadedTextures (scene w) ->
  (Z.to_nat (m_loadedTextures (scene w)) < length (m_textureIDs (scene w)))%nat ->
  m_pShaderManager (scene w) = 0 \/ live (m_pShaderManager (scene w)) w ->
  exists w1 c1 w2 c2,
    BindGLTextures w = Ok tt w1 c1 /\
    CreateGLTexture filename tag w1 = Ok true w2 c2 /\
    (exists e, m_textureIDs (scene w) !! Z.to_nat (m_loadedTextures (scene w) - 1)
                 = Some e /\
               gl_texture_2d (gl w1) !! (m_loadedTextures (scene w) - 1)
                 = Some (ID e)) /\
    gl_texture_2d (gl w2) !! (m_loadedTextures (scene w) - 1) = Some 0 /\
    (forall k e, 0 <= k < m_loadedTextures (scene w) - 1 ->
       m_textureIDs (scene w) !! Z.to_nat k = Some e ->
       gl_texture_2d (gl w2) !! k = Some (ID e)).
Proof.
  intros Hf Hc Hn Hin Hsm.
  assert (Hafter : exists w1 c1,
            BindGLTextures w = Ok tt w1 c1 /\
            scene w1 = scene w /\ files w1 = files w /\
            (forall k e, 0 <= k < m_loadedTextures (scene w) ->
               m_textureIDs (scene w) !! Z.to_nat k = Some e ->
               gl_texture_2d (gl w1) !! k = Some (ID e)) /\
            gl_active_texture (gl w1) = m_loadedTextures (scene w) - 1).
  { destruct Hsm as [Hnull|Hlive].
    - destruct (BindGLTextures_null_run w Hnull ltac:(lia)
                  ltac:(unfold registry_wf; lia))
        as (w1 & Hrun & Hsame & Hbound & _ & Hact).
      eexists w1, _. split; [exact Hrun|].
      split; [rewrite Hsame; reflexivity|].
      split; [rewrite Hsame; reflexivity|]. split; [exact Hbound|].
      rewrite Hact, (proj2 (Z.ltb_lt _ _) Hn). reflexivity.
    - destruct (BindGLTextures_live_run w _ eq_refl Hlive ltac:(lia)
                  ltac:(unfold registry_wf; lia))
        as (w1 & Hrun & Hsame & Hbound & _ & Hact).
      eexists _, _. split; [exact Hrun|].
      split; [cbn; rewrite Hsame; reflexivity|].
      split; [cbn; rewrite Hsame; reflexivity|]. split; [exact Hbound|].
      cbn [gl store with_heap].
      rewrite Hact, (proj2 (Z.ltb_lt _ _) Hn). reflexivity. }
  destruct Hafter as (w1 & c1 & Hbind & Hs1 & Hf1 & Hbound & Hact).
  pose proof (CreateGLTexture_run filename tag w1 img) as Hrun.
  rewrite Hs1, Hf1 in Hrun. specialize (Hrun Hf Hc ltac:(lia) Hin).
  eexists w1, _, _, _. split; [exact Hbind|]. split; [exact Hrun|].
  destruct (lookup_lt_is_Some_2 (m_textureIDs (scene w))
              (Z.to_nat (m_loadedTextures (scene w) - 1))) as [e He]; [lia|].
  split; [exists e; split; [exact He|apply Hbound; [lia|exact He]]|].
  cbn. rewrite Hact. split.
  - apply lookup_insert_eq.
  - intros k e' Hk He'. rewrite !lookup_insert_ne by lia.
    apply Hbound; [lia|exact He'].
Qed.

End RegistryMore.

(** ** Further properties of the material binder and the shader setters *)

Section SettersMore.
Context `{G : Glm}.

(** FindMaterial's loop stops at the first entry that carries the tag and
    copies its two colours and its shininess. *)
Lemma FindMaterial_loop_first before m after tag r material :
  Forall (fun x => mat_tag x <> tag) before -> mat_tag m = tag ->
  forall i, (i <= length before)%nat -> (length before < i + r)%nat ->
  FindMaterial_loop (before ++ m :: after) tag r i material =
    {| diffuseColor := diffuseColor m; specularColor := specularColor m;
       shininess := shininess m; mat_tag := mat_tag material |}.
Proof.
  intros Hall Htag. induction r as [|r IH]; intros i Hi Hr; [lia|].
  simpl. destruct (decide (i = length before)) as [->|Hne].
  - rewrite list_lookup_middle by reflexivity.
    rewrite (proj2 (String.eqb_eq _ _) Htag). reflexivity.
  - destruct (lookup_lt_is_Some_2 before i) as [x Hx]; [lia|].
    rewrite (lookup_app_l_Some _ _ _ _ Hx).
    assert (Hxt : mat_tag x <> tag).
    { rewrite Forall_lookup in Hall. exact (Hall i x Hx). }
    rewrite (proj2 (String.eqb_neq _ _) Hxt). apply IH; lia.
Qed.

(** X5. FindMaterial and SetShaderMaterial on a tag that is defined: the
    lookup reports success and hands back the two colours and the
    shininess of the first material that carries the tag (the tag field of
    the caller's struct is not written), and SetShaderMaterial writes
    exactly these three values to [material.diffuseColor],
    [material.specularColor] and [material.shininess], in this order,
    whatever its local variable held before. *)
Theorem SetShaderMaterial_known_tag tag uninit w before m after :
  m_objectMaterials (scene w) = before ++ m :: after ->
  Forall (fun x => mat_tag x <> tag) before -> mat_tag m = tag ->
  live (m_pShaderManager (scene w)) w ->
  FindMaterial (scene w) tag uninit =
    (true, {| diffuseColor := diffuseColor m; specularColor := specularColor m;
              shininess := shininess m; mat_tag := mat_tag uninit |}) /\
  exists w',
    SetShaderMaterial tag uninit w =
      Ok tt w'
        [c_shader_set (m_pShaderManager (scene w)) "material.diffuseColor"
           (UVec3 (diffuseColor m));
         c_shader_set (m_pShaderManager (scene w)) "material.specularColor"
           (UVec3 (specularColor m));
         c_shader_set (m_pShaderManager (scene w)) "material.shininess"
           (UFloat (shininess m))] /\
    same_but_uniforms w w' /\
    uniform_at (m_pShaderManager (scene w)) "material.diffuseColor" w'
      = Some (UVec3 (diffuseColor m)) /\
    uniform_at (m_pShaderManager (scene w)) "material.specularColor" w'
      = Some (UVec3 (specularColor m)) /\
    uniform_at (m_pShaderManager (scene w)) "material.shininess" w'
      = Some (UFloat (shininess m)).
Proof.
  intros Hm Hall Htag Hlive.
  assert (Hfind : FindMaterial (scene w) tag uninit =
            (true, {| diffuseColor := diffuseColor m;
                      specularColor := specularColor m;
                      shininess := shininess m; mat_tag := mat_tag uninit |})).
  { unfold FindMaterial. rewrite Hm.
    rewrite (FindMaterial_loop_first before m after tag _ uninit Hall Htag 0%nat)
      by (rewrite ?length_app; cbn; lia).
    destruct before; reflexivity. }
  split; [exact Hfind|].
  assert (Hlen : (0 <? length (m_objectMaterials (scene w)))%nat = true).
  { rewrite Hm. destruct before; reflexivity. }
  eexists. split.
  - unfold SetShaderMaterial. apply bind_get_run. rewrite Hlen, Hfind.
    cbv beta iota. cbn [diffuseColor specularColor shininess].
    etransitivity.
    + run.
    + reflexivity.
  - split; [unfold same_but_uniforms; destruct w; reflexivity|].
    split; [|split].
    + rewrite !uniform_at_store_ne by (right; discriminate).
      apply uniform_at_store. exact Hlive.
    + rewrite uniform_at_store_ne by (right; discriminate).
      apply uniform_at_store. solve_live.
    + apply uniform_at_store. solve_live.
Qed.

(** The four guarded setters do nothing on a null shader manager. *)
Lemma guarded_setters_null w :
  m_pShaderManager (scene w) = 0 ->
  (forall s x y z t, SetTransformations s x y z t w = Ok tt w []) /\
  (forall r g b a, SetShaderColor r g b a w = Ok tt w []) /\
  (forall tag, SetShaderTexture tag w = Ok tt w []) /\
  (forall u v, SetTextureUVScale u v w = Ok tt w []).
Proof.
  intros H0.
  unfold SetTransformations, SetShaderColor, SetShaderTexture, SetTextureUVScale.
  repeat split; intros; apply bind_get_run; rewrite H0; reflexivity.
Qed.

Lemma setUniform_null name v w : setUniform 0 name v w = Crash NullDereference.
Proof. reflexivity. Qed.

(** X6. What a null [m_pShaderManager] does.  SetTransformations,
    SetShaderColor, SetShaderTexture and SetTextureUVScale test the pointer
    and do nothing: no call is made (SetShaderTexture does not even select
    a texture unit) and the state is unchanged.  SetShaderMaterial, once
    the material list is not empty, and RenderScene do not test it: they
    call through the null pointer. *)
Theorem null_shader_manager w :
  m_pShaderManager (scene w) = 0 ->
  (forall s x y z t, SetTransformations s x y z t w = Ok tt w []) /\
  (forall r g b a, SetShaderColor r g b a w = Ok tt w []) /\
  (forall tag, SetShaderTexture tag w = Ok tt w []) /\
  (forall u v, SetTextureUVScale u v w = Ok tt w []) /\
  (forall tag uninit,
     m_objectMaterials (scene w) <> [] ->
     SetShaderMaterial tag uninit w = Crash NullDereference) /\
  RenderScene w = Crash NullDereference.
Proof.
  intros H0.
  destruct (guarded_setters_null w H0) as (HT & HC & HX & HU).
  split; [exact HT|]. split; [exact HC|]. split; [exact HX|].
  split; [exact HU|]. split.
  - intros tag uninit Hne. unfold SetShaderMaterial.
    eapply bind_then_crash; [reflexivity|]. cbv beta.
    unfold FindMaterial.
    destruct (m_objectMaterials (scene w)) as [|m mats] eqn:Hm; [done|].
    cbn [length Nat.ltb Nat.leb Nat.eqb]. cbv beta iota. rewrite H0.
    apply bind_crash. reflexivity.
  - unfold RenderScene.
    eapply bind_then_crash; [reflexivity|]. cbv beta zeta. rewrite H0.
    destruct (Z.eq_dec (m_shadowDepthTexture (scene w)) 0) as [HD|HD].
    + eapply bind_then_crash; [apply RenderScene_bindShadowMap_skip; exact HD|].
      eapply bind_then_crash; [apply HT|].
      apply bind_crash. reflexivity.
    + apply bind_crash. unfold RenderScene_bindShadowMap.
      eapply bind_then_crash; [reflexivity|]. cbv beta.
      rewrite H0, (nonnull_test _ HD).
      eapply bind_then_crash; [run|].
      eapply bind_then_crash; [run|].
      apply bind_crash. reflexivity.
Qed.

(** X7. SetShaderTexture on a tag that no registered texture carries: it
    returns, having switched texturing on, selected texture unit 0 and
    pointed the sampler [objectTexture] at unit 0, and having bound no
    texture: the draw that follows samples whatever unit 0 holds. *)
Theorem SetShaderTexture_unknown_tag tag w :
  live (m_pShaderManager (scene w)) w -> registry_wf (scene w) ->
  (forall k e, 0 <= k < m_loadedTextures (scene w) ->
     m_textureIDs (scene w) !! Z.to_nat k = Some e -> tex_tag e <> tag) ->
  exists w',
    SetShaderTexture tag w =
      Ok tt w'
        [c_shader_set (m_pShaderManager (scene w)) "bUseTexture" (UInt 1);
         c_glActiveTexture 0;
         c_shader_set (m_pShaderManager (scene w)) "objectTexture"
           (USampler2D 0)] /\
    gl_active_texture (gl w') = 0 /\
    gl_texture_2d (gl w') = gl_texture_2d (gl w) /\
    uniform_at (m_pShaderManager (scene w)) "bUseTexture" w' = Some (UInt 1) /\
    uniform_at (m_pShaderManager (scene w)) "objectTexture" w'
      = Some (USampler2D 0).
Proof.
  intros Hlive Hwf Hmiss.
  destruct (Find_loops_miss (m_textureIDs (scene w)) tag
              (Z.to_nat (m_loadedTextures (scene w))) 0 ltac:(lia)) as [Hs Hi].
  { intros k Hk.
    destruct (lookup_lt_is_Some_2 (m_textureIDs (scene w)) (Z.to_nat k))
      as [e He]; [unfold registry_wf in Hwf; lia|].
    exists e. split; [exact He|]. apply (Hmiss k e); [lia|exact He]. }
  pose proof (SetShaderTexture_run _ tag (-1) (-1) w eq_refl Hlive Hs Hi)
    as Hrun.
  change (-1 <? 0) with true in Hrun. change (0 <? -1) with false in Hrun.
  cbv iota in Hrun.
  eexists. split; [exact Hrun|].
  split; [reflexivity|]. split; [reflexivity|]. split.
  - rewrite uniform_at_store_ne by (right; discriminate).
    rewrite !uniform_at_with_gl. apply uniform_at_store. exact Hlive.
  - apply uniform_at_store. solve_live.
Qed.

(** X8. SetShaderTexture on a registered tag whose handle is a positive
    [int]: it returns, having switched texturing on, selected the unit
    whose number is the first slot that carries the tag, bound that slot's
    handle to it and pointed the sampler [objectTexture] at it.  A handle
    that is 0, or that does not fit a positive [int], is not bound: the
    function keeps the handle in an [int] and binds only if it is above
    0. *)
Theorem SetShaderTexture_registered_tag tag w slot e :
  live (m_pShaderManager (scene w)) w -> registry_wf (scene w) ->
  0 <= slot < m_loadedTextures (scene w) ->
  m_textureIDs (scene w) !! Z.to_nat slot = Some e -> tex_tag e = tag ->
  (forall k e', 0 <= k < slot ->
     m_textureIDs (scene w) !! Z.to_nat k = Some e' -> tex_tag e' <> tag) ->
  0 <= ID e < 2 ^ 32 ->
  exists w',
    SetShaderTexture tag w =
      Ok tt w'
        ([c_shader_set (m_pShaderManager (scene w)) "bUseTexture" (UInt 1);
          c_glActiveTexture slot] ++
         (if (0 <? ID e) && (ID e <? 2 ^ 31) then [c_glBindTexture (ID e)]
          else []) ++
         [c_shader_set (m_pShaderManager (scene w)) "objectTexture"
            (USampler2D slot)]) /\
    gl_active_texture (gl w') = slot /\
    (0 < ID e < 2 ^ 31 -> gl_texture_2d (gl w') !! slot = Some (ID e)) /\
    (ID e = 0 \/ 2 ^ 31 <= ID e ->
     gl_texture_2d (gl w') = gl_texture_2d (gl w)) /\
    uniform_at (m_pShaderManager (scene w)) "bUseTexture" w' = Some (UInt 1) /\
    uniform_at (m_pShaderManager (scene w)) "objectTexture" w'
      = Some (USampler2D slot).
Proof.
  intros Hlive Hwf Hslot He Htag Hfirst Hid.
  destruct (Find_loops_first (m_textureIDs (scene w)) tag
              (Z.to_nat (m_loadedTextures (scene w))) 0 slot e
              ltac:(lia) ltac:(lia) He Htag) as [Hs Hi].
  { intros k Hk.
    destruct (lookup_lt_is_Some_2 (m_textureIDs (scene w)) (Z.to_nat k))
      as [e' He']; [unfold registry_wf in Hwf; lia|].
    exists e'. split; [exact He'|]. apply (Hfirst k e'); [lia|exact He']. }
  assert (Hnn : (slot <? 0) = false) by lia.
  assert (Hpos : (0 <? int_of_uint32 (ID e))
                 = (0 <? ID e) && (ID e <? 2 ^ 31)).
  { unfold int_of_uint32.
    destruct (Z.ltb_spec (ID e) (2 ^ 31)); [rewrite andb_true_r; reflexivity|].
    rewrite andb_false_r. lia. }
  pose proof (SetShaderTexture_run _ tag slot (int_of_uint32 (ID e)) w eq_refl
                Hlive Hs Hi) as Hrun.
  rewrite Hnn, Hpos in Hrun.
  destruct ((0 <? ID e) && (ID e <? 2 ^ 31)) eqn:Hc.
  - assert (Hint : int_of_uint32 (ID e) = ID e).
    { unfold int_of_uint32. assert ((ID e <? 2 ^ 31) = true) as -> by lia.
      reflexivity. }
    rewrite Hint in Hrun.
    eexists. split; [exact Hrun|].
    split; [reflexivity|]. split; [intros _; apply lookup_insert_eq|].
    split; [intros Hr; lia|]. split.
    + rewrite uniform_at_store_ne by (right; discriminate).
      rewrite !uniform_at_with_gl. apply uniform_at_store. exact Hlive.
    + apply uniform_at_store. solve_live.
  - eexists. split; [exact Hrun|].
    split; [reflexivity|]. split; [intros Hr; lia|].
    split; [reflexivity|]. split.
    + rewrite uniform_at_store_ne by (right; discriminate).
      rewrite !uniform_at_with_gl. apply uniform_at_store. exact Hlive.
    + apply uniform_at_store. solve_live.
Qed.

End SettersMore.

(** ** Invariants: what an operation keeps and which calls it makes *)

Section Preserves.
Context `{G : Glm}.
Variable I : World -> Prop.
Variable C : Call -> Prop.

Lemma preserves_ret {A} (a : A) : preserves I C (ret a).
Proof. intros w a' w' c HI [= <- <- <-]. auto. Qed.

Lemma preserves_crash {A} f : preserves I C (@crash G A f).
Proof. intros w a' w' c HI [=]. Qed.

Lemma preserves_bind {A B} (m : M A) (f : A -> M B) :
  preserves I C m -> (forall a, preserves I C (f a)) -> preserves I C (bind m f).
Proof.
  intros Hm Hf w b w' c HI H.
  apply bind_inv in H as (a & w1 & c1 & c2 & H1 & H2 & ->).
  destruct (Hm _ _ _ _ HI H1) as [HI1 Hc1].
  destruct (Hf a _ _ _ _ HI1 H2) as [HI2 Hc2].
  split; [exact HI2|]. apply Forall_app; auto.
Qed.

Lemma preserves_bind_get {B} (f : World -> M B) :
  (forall w0, I w0 -> preserves I C (f w0)) -> preserves I C (bind get f).
Proof.
  intros Hf w b w' c HI H.
  apply bind_inv in H as (a & w1 & c1 & c2 & [= <- <- <-] & H2 & ->).
  apply (Hf w HI w _ _ _ HI H2).
Qed.

Lemma preserves_call c : C c -> preserves I C (call c).
Proof. intros Hc w a w' c' HI [= <- <- <-]. auto. Qed.

Lemma preserves_modify f :
  (forall w, I w -> I (f w)) -> preserves I C (modify f).
Proof. intros Hf w a w' c HI [= <- <- <-]. auto. Qed.

Lemma preserves_pure {A} (m : M A) :
  (forall w a w' c, m w = Ok a w' c -> w' = w /\ c = []) -> preserves I C m.
Proof.
  intros Hm w a w' c HI H. destruct (Hm _ _ _ _ H) as [-> ->]. auto.
Qed.

Lemma preserves_glfwGetKey window key : preserves I C (glfwGetKey window key).
Proof.
  apply preserves_pure. intros w a w' c. unfold glfwGetKey.
  destruct (window =? 0); [discriminate|]. intros [= <- <- <-]. auto.
Qed.

Lemma preserves_glfwGetTime : preserves I C glfwGetTime.
Proof. apply preserves_pure. intros w a w' c [= <- <- <-]. auto. Qed.

Lemma preserves_camera : preserves I C camera.
Proof.
  apply preserves_pure. intros w a w' c. unfold camera.
  destruct (g_pCamera w); [|discriminate]. intros [= <- <- <-]. auto.
Qed.

Lemma preserves_FindTextureSlot tag : preserves I C (FindTextureSlot tag).
Proof.
  apply preserves_pure. intros w a w' c. unfold FindTextureSlot.
  destruct (FindTextureSlot_loop _ _ _ _); [|discriminate].
  intros [= <- <- <-]. auto.
Qed.

Lemma preserves_FindTextureID tag : preserves I C (FindTextureID tag).
Proof.
  apply preserves_pure. intros w a w' c. unfold FindTextureID.
  destruct (FindTextureID_loop _ _ _ _); [|discriminate].
  intros [= <- <- <-]. auto.
Qed.

Lemma preserves_setUniform p name v :
  C (c_shader_set p name v) ->
  (forall w sh, I w -> heap w !! p = Some sh ->
     I (with_heap (fun h => <[p := set_uniform name v sh]> h) w)) ->
  preserves I C (setUniform p name v).
Proof.
  intros Hc Hf w a w' c HI. unfold setUniform.
  destruct (p =? 0); [discriminate|].
  destruct (heap w !! p) as [sh|] eqn:Hsh; [|discriminate].
  intros [= <- <- <-]. auto.
Qed.

Lemma preserves_use p :
  C (c_shader_use p) ->
  (forall w, I w -> I (with_gl (set_program p) w)) ->
  preserves I C (use p).
Proof.
  intros Hc Hf w a w' c HI. unfold use.
  destruct (p =? 0); [discriminate|].
  destruct (heap w !! p); [|discriminate].
  intros [= <- <- <-]. auto.
Qed.

Lemma preserves_glGenTextures :
  (forall n, C (c_glGenTextures n)) ->
  (forall w, I w -> I (with_gl (set_next_name (gl_next_name (gl w) + 1)) w)) ->
  preserves I C glGenTextures.
Proof. intros Hc Hf w a w' c HI [= <- <- <-]. auto. Qed.

Lemma preserves_registerTexture textureID tag :
  (forall w, I w ->
     I (with_scene
          (set_registry
             (<[Z.to_nat (m_loadedTextures (scene w)) :=
                  {| tex_tag := tag; ID := textureID |}]>
                (m_textureIDs (scene w)))
             (m_loadedTextures (scene w) + 1)) w)) ->
  preserves I C (registerTexture textureID tag).
Proof.
  intros Hf w a w' c HI. unfold registerTexture.
  destruct (m_loadedTextures (scene w) <? 0); [discriminate|].
  destruct (m_textureIDs (scene w) !! _); [|discriminate].
  intros [= <- <- <-]. auto.
Qed.

End Preserves.

(** One step of an invariant proof: the rule for the operation at hand;
    what the rule asks of the invariant is closed by [preserves_side]. *)
Ltac preserves_side :=
  first
    [ exact Logic.I
    | assumption
    | solve [intros; cbn in *; intuition (try congruence; auto)] ].

Ltac preserves_step :=
  first
    [ apply preserves_ret
    | apply preserves_crash
    | apply preserves_bind_get; intros ? ?
    | apply preserves_bind; [|intros ?]
    | apply preserves_glfwGetKey
    | apply preserves_glfwGetTime
    | apply preserves_camera
    | apply preserves_FindTextureSlot
    | apply preserves_FindTextureID
    | apply preserves_call; preserves_side
    | apply preserves_setUniform; preserves_side
    | apply preserves_use; preserves_side
    | apply preserves_glGenTextures; preserves_side
    | apply preserves_registerTexture; preserves_side
    | apply preserves_modify; preserves_side
    | match goal with
      | |- preserves _ _ (if ?b then _ else _) => destruct b
      | |- preserves _ _ (match ?x with _ => _ end) => destruct x
      | |- preserves _ _ (let '(_, _) := ?x in _) => destruct x
      end ].

Ltac preserves_unfold :=
  unfold glActiveTexture, glBindTexture, glDepthMask, glGetViewport, glViewport,
    glBindFramebuffer, glEnableDepthTest, stbi_load, DrawPlaneMesh,
    DrawCylinderMesh, DrawTaperedCylinderMesh, setDepthModel,
    RenderCameraInfo.

Section Frames.
Context `{G : Glm}.

Lemma color_pass_frame_refl w : color_pass_frame w w.
Proof. unfold color_pass_frame. repeat split; auto. Qed.

Lemma color_pass_frame_heap w0 w p name v sh :
  color_pass_frame w0 w -> p = m_pShaderManager (scene w0) ->
  color_pass_frame w0 (with_heap (fun h => <[p := set_uniform name v sh]> h) w).
Proof.
  unfold color_pass_frame. cbn. intros H ->.
  repeat (destruct H as [? H]). repeat (split; [assumption|]).
  intros q Hq. rewrite lookup_insert_ne by congruence. auto.
Qed.

Ltac color_pointer :=
  match goal with
  | H : color_pass_frame _ ?w |- m_pShaderManager (scene ?w) = _ =>
      rewrite (proj1 H); reflexivity
  end.

Ltac color_side :=
  first
    [ exact Logic.I
    | reflexivity
    | cbn [color_pass_call]; color_pointer
    | solve [intros; apply color_pass_frame_heap; [assumption|color_pointer]]
    | solve [let H := fresh in intros ? H; exact H]
    | solve [let H := fresh in
             intros ? H; unfold color_pass_frame in *; cbn; tauto] ].

Ltac color_step :=
  lazymatch goal with
  | |- preserves _ _ (ret _) => apply preserves_ret
  | |- preserves _ _ (bind get _) => apply preserves_bind_get; intros ? ?
  | |- preserves _ _ (bind _ _) => apply preserves_bind; [|intros ?]
  | |- preserves _ _ glfwGetTime => apply preserves_glfwGetTime
  | |- preserves _ _ (FindTextureSlot _) => apply preserves_FindTextureSlot
  | |- preserves _ _ (FindTextureID _) => apply preserves_FindTextureID
  | |- preserves _ _ (call _) => apply preserves_call; color_side
  | |- preserves _ _ (modify _) => apply preserves_modify; color_side
  | |- preserves _ _ (if ?b then _ else _) => destruct b
  | |- preserves _ _ _ => apply preserves_setUniform; color_side
  end.

Lemma SetTransformations_frame w0 s x y z t :
  preserves (color_pass_frame w0) (color_pass_call (m_pShaderManager (scene w0)))
    (SetTransformations s x y z t).
Proof. unfold SetTransformations. cbv zeta. repeat color_step. Qed.

Lemma SetShaderColor_frame w0 r g b a :
  preserves (color_pass_frame w0) (color_pass_call (m_pShaderManager (scene w0)))
    (SetShaderColor r g b a).
Proof. unfold SetShaderColor. repeat color_step. Qed.

Lemma SetTextureUVScale_frame w0 u v :
  preserves (color_pass_frame w0) (color_pass_call (m_pShaderManager (scene w0)))
    (SetTextureUVScale u v).
Proof. unfold SetTextureUVScale. repeat color_step. Qed.

Lemma SetShaderTexture_frame w0 tag :
  preserves (color_pass_frame w0) (color_pass_call (m_pShaderManager (scene w0)))
    (SetShaderTexture tag).
Proof.
  unfold SetShaderTexture, glActiveTexture, glBindTexture. cbv zeta.
  repeat color_step.
Qed.

Lemma RenderScene_bindShadowMap_frame w0 :
  preserves (color_pass_frame w0) (color_pass_call (m_pShaderManager (scene w0)))
    RenderScene_bindShadowMap.
Proof.
  unfold RenderScene_bindShadowMap, glActiveTexture, glBindTexture.
  repeat color_step.
Qed.

Lemma RenderScene_frame w0 :
  preserves (color_pass_frame w0) (color_pass_call (m_pShaderManager (scene w0)))
    RenderScene.
Proof.
  unfold RenderScene, glDepthMask, DrawPlaneMesh, DrawCylinderMesh,
    DrawTaperedCylinderMesh.
  apply preserves_bind_get; intros w1 H1. cbv zeta.
  repeat lazymatch goal with
    | |- preserves _ _ (SetTransformations _ _ _ _ _) =>
        apply SetTransformations_frame
    | |- preserves _ _ (SetShaderColor _ _ _ _) => apply SetShaderColor_frame
    | |- preserves _ _ (SetTextureUVScale _ _) => apply SetTextureUVScale_frame
    | |- preserves _ _ (SetShaderTexture _) => apply SetShaderTexture_frame
    | |- preserves _ _ RenderScene_bindShadowMap =>
        apply RenderScene_bindShadowMap_frame
    | |- _ => color_step
    end.
Qed.

End Frames.

(** ** The colour pass, draw by draw *)

(** Reads a uniform off a state built by [store] and [with_gl]. *)
Ltac read_uniform :=
  repeat first
    [ rewrite uniform_at_with_gl
    | rewrite uniform_at_store_ne by (right; discriminate) ];
  apply uniform_at_store; solve_live.

(** The uniform in effect at each draw of a colour pass, read off its calls;
    the two texture handles decide whether a bind call is among them. *)
Ltac draws_by_cases id_s id_g :=
  destruct (0 <? id_s), (0 <? id_g);
  cbn [draws_with_uniform app String.eqb Ascii.eqb Bool.eqb andb];
  rewrite Z.eqb_refl; reflexivity.

Ltac calls_by_cases id_s id_g :=
  destruct (0 <? id_s), (0 <? id_g); reflexivity.

Section ColorPassDraws.
Context `{G : Glm}.

Lemma RenderScene_draw_uniforms w P slot_s id_s slot_g id_g :
  m_pShaderManager (scene w) = P -> live P w ->
  FindTextureSlot_loop (m_textureIDs (scene w)) "stone"
    (Z.to_nat (m_loadedTextures (scene w))) 0 = Some slot_s ->
  FindTextureID_loop (m_textureIDs (scene w)) "stone"
    (Z.to_nat (m_loadedTextures (scene w))) 0 = Some id_s ->
  FindTextureSlot_loop (m_textureIDs (scene w)) "grass"
    (Z.to_nat (m_loadedTextures (scene w))) 0 = Some slot_g ->
  FindTextureID_loop (m_textureIDs (scene w)) "grass"
    (Z.to_nat (m_loadedTextures (scene w))) 0 = Some id_g ->
  exists w' calls,
    RenderScene w = Ok tt w' calls /\
    (forall prev,
       draws_with_uniform P "rippleAmplitude" prev calls =
         zip (replicate 6 prev ++ replicate 2 (Some (UFloat (F32.lit 10 100))))
             color_meshes) /\
    (forall prev,
       draws_with_uniform P "bIsLiquidSurface" prev calls =
         zip (replicate 6 prev ++ [Some (UInt 1); Some (UInt 0)]) color_meshes) /\
    (forall prev,
       draws_with_uniform P "bUseLighting" prev calls =
         zip (replicate 8 (Some (UInt 1))) color_meshes) /\
    (forall prev,
       draws_with_uniform P "bUseTexture" prev calls =
         zip (map (fun b : bool => Some (UInt (if b then 1 else 0)))
                [true; false; false; true; true; false; false; true])
             color_meshes) /\
    (forall prev,
       draws_with_uniform P "objectTexture" prev calls =
         zip (replicate 3 (Some (USampler2D (if slot_s <? 0 then 0 else slot_s)))
              ++ replicate 5
                   (Some (USampler2D (if slot_g <? 0 then 0 else slot_g))))
             color_meshes) /\
    (forall prev,
       draws_with_uniform P "objectColor" prev calls =
         zip [prev;
              Some (UVec4 (F32.lit 100 100) (F32.lit 97 100) (F32.lit 88 100)
                      (F32.lit 100 100));
              Some (UVec4 (F32.lit 98 100) (F32.lit 95 100) (F32.lit 86 100)
                      (F32.lit 100 100));
              Some (UVec4 (F32.lit 98 100) (F32.lit 95 100) (F32.lit 86 100)
                      (F32.lit 100 100));
              Some (UVec4 (F32.lit 98 100) (F32.lit 95 100) (F32.lit 86 100)
                      (F32.lit 100 100));
              Some (UVec4 (F32.lit 96 100) (F32.lit 96 100) (F32.lit 92 100)
                      (F32.lit 1 1));
              Some (UVec4 (F32.lit 2 10) (F32.lit 45 100) (F32.lit 9 10)
                      (F32.lit 7 10));
              Some (UVec4 (F32.lit 2 10) (F32.lit 45 100) (F32.lit 9 10)
                      (F32.lit 7 10))]
             color_meshes) /\
    uniform_writes "rippleAmplitude" calls = [UFloat (F32.lit 10 100)] /\
    uniform_writes "timeSeconds" calls
      = [UFloat (F32.mul (clock w) (F32.lit 5 10))] /\
    uniform_at P "rippleAmplitude" w' = Some (UFloat (F32.lit 10 100)) /\
    uniform_at P "bIsLiquidSurface" w' = Some (UInt 0) /\
    texture_binds calls =
      (if m_shadowDepthTexture (scene w) =? 0 then []
       else [m_shadowDepthTexture (scene w)]) ++
      (if 0 <? id_s then [id_s] else []) ++
      (if 0 <? id_g then [id_g; id_g; id_g] else []) ++
      (if m_shadowDepthTexture (scene w) =? 0 then []
       else [m_shadowDepthTexture (scene w)]) /\
    (m_shadowDepthTexture (scene w) <> 0 ->
       uniform_at P "spotLightSpaceMatrix" w'
         = Some (UMat4 (m_spotLightSpaceMatrix (scene w))) /\
       uniform_at P "spotShadowMap" w' = Some (USampler2D 7) /\
       gl_active_texture (gl w') = 7 /\
       gl_texture_2d (gl w') !! 7 = Some (m_shadowDepthTexture (scene w)) /\
       uniform_writes "spotLightSpaceMatrix" calls
         = [UMat4 (m_spotLightSpaceMatrix (scene w));
            UMat4 (m_spotLightSpaceMatrix (scene w))] /\
       active_units calls !! 0%nat = Some 7 /\
       texture_binds calls !! 0%nat = Some (m_shadowDepthTexture (scene w))).
Proof.
  intros HP Hlive Hs His Hg Hig.
  destruct (Z.eq_dec (m_shadowDepthTexture (scene w)) 0) as [HD|HD].
  - eexists _, _. split.
    + unfold RenderScene. eapply bind_run; [reflexivity|].
      cbv beta zeta. rewrite HP. run_scene.
    + cbn [app].
      repeat lazymatch goal with
        | |- (forall prev, draws_with_uniform _ _ _ _ = _) /\ _ =>
            split; [intros prev; draws_by_cases id_s id_g|]
        end.
      split; [calls_by_cases id_s id_g|]. split; [calls_by_cases id_s id_g|].
      split; [read_uniform|]. split; [read_uniform|].
      split; [rewrite HD; calls_by_cases id_s id_g|].
      intros H0; contradiction.
  - remember (m_shadowDepthTexture (scene w)) as D eqn:HD'. symmetry in HD'.
    remember (m_spotLightSpaceMatrix (scene w)) as L eqn:HL. symmetry in HL.
    eexists _, _. split.
    + unfold RenderScene. eapply bind_run; [reflexivity|].
      cbv beta zeta. rewrite HP. run_scene.
    + cbn [app].
      repeat lazymatch goal with
        | |- (forall prev, draws_with_uniform _ _ _ _ = _) /\ _ =>
            split; [intros prev; draws_by_cases id_s id_g|]
        end.
      split; [calls_by_cases id_s id_g|]. split; [calls_by_cases id_s id_g|].
      split; [read_uniform|]. split; [read_uniform|].
      split; [rewrite (proj2 (Z.eqb_neq _ _) HD); calls_by_cases id_s id_g|].
      intros _.
      split; [read_uniform|]. split; [read_uniform|].
      split; [reflexivity|]. split; [apply lookup_insert_eq|].
      split; [calls_by_cases id_s id_g|]. split; reflexivity.
Qed.

End ColorPassDraws.

(** ** The two passes of a frame, together *)

Section FrameMore.
Context `{G : Glm}.

Lemma heap_store_ne p q name v w :
  q <> p -> heap (store p name v w) !! q = heap w !! q.
Proof. intros H. unfold store. cbn. by rewrite lookup_alter_ne. Qed.

Lemma uniform_at_same_heap p name w w' :
  heap w' !! p = heap w !! p -> uniform_at p name w' = uniform_at p name w.
Proof. intros H. unfold uniform_at. rewrite H. reflexivity. Qed.

(** What a list of colour-pass calls cannot contain. *)
Lemma color_pass_calls_exclude P calls :
  Forall (color_pass_call P) calls ->
  program_uses calls = [] /\ framebuffer_binds calls = [] /\
  viewport_sets calls = [] /\ state_queries calls = [] /\
  Forall (eq true) (depth_masks calls) /\
  (forall q, q <> P -> writes_through q calls = []).
Proof.
  induction 1 as [|c calls Hc _ IH].
  - repeat split; try reflexivity. constructor.
  - destruct IH as (H1 & H2 & H3 & H4 & H5 & H6).
    unfold program_uses, framebuffer_binds, viewport_sets, state_queries,
      depth_masks, writes_through in *.
    destruct c; cbn in Hc; try contradiction; cbn [omap];
      (split; [exact H1|]; split; [exact H2|]; split; [exact H3|];
       split; [exact H4|]; split);
      first
        [ exact H5 | exact H6
        | constructor; [congruence|exact H5]
        | intros q Hq; subst; simpl;
          rewrite (proj2 (Z.eqb_neq _ _) (not_eq_sym Hq)); apply H6; exact Hq ].
Qed.

(** The colour pass on a live shader manager and a registry inside its
    array, with everything the theorems below read off it. *)
Lemma RenderScene_effects w :
  live (m_pShaderManager (scene w)) w -> registry_wf (scene w) ->
  exists slot_s id_s slot_g id_g w' calls,
    FindTextureSlot "stone" w = Ok slot_s w [] /\
    FindTextureID "stone" w = Ok id_s w [] /\
    FindTextureSlot "grass" w = Ok slot_g w [] /\
    FindTextureID "grass" w = Ok id_g w [] /\
    RenderScene w = Ok tt w' calls /\
    color_pass_frame w w' /\
    Forall (color_pass_call (m_pShaderManager (scene w))) calls /\
    (forall prev,
       draws_with_uniform (m_pShaderManager (scene w)) "rippleAmplitude" prev calls =
         zip (replicate 6 prev ++ replicate 2 (Some (UFloat (F32.lit 10 100))))
             color_meshes) /\
    (forall prev,
       draws_with_uniform (m_pShaderManager (scene w)) "bIsLiquidSurface" prev calls =
         zip (replicate 6 prev ++ [Some (UInt 1); Some (UInt 0)]) color_meshes) /\
    (forall prev,
       draws_with_uniform (m_pShaderManager (scene w)) "bUseLighting" prev calls =
         zip (replicate 8 (Some (UInt 1))) color_meshes) /\
    (forall prev,
       draws_with_uniform (m_pShaderManager (scene w)) "bUseTexture" prev calls =
         zip (map (fun b : bool => Some (UInt (if b then 1 else 0)))
                [true; false; false; true; true; false; false; true])
             color_meshes) /\
    (forall prev,
       draws_with_uniform (m_pShaderManager (scene w)) "objectTexture" prev calls =
         zip (replicate 3 (Some (USampler2D (if slot_s <? 0 then 0 else slot_s)))
              ++ replicate 5
                   (Some (USampler2D (if slot_g <? 0 then 0 else slot_g))))
             color_meshes) /\
    (forall prev,
       draws_with_uniform (m_pShaderManager (scene w)) "objectColor" prev calls =
         zip [prev;
              Some (UVec4 (F32.lit 100 100) (F32.lit 97 100) (F32.lit 88 100)
                      (F32.lit 100 100));
              Some (UVec4 (F32.lit 98 100) (F32.lit 95 100) (F32.lit 86 100)
                      (F32.lit 100 100));
              Some (UVec4 (F32.lit 98 100) (F32.lit 95 100) (F32.lit 86 100)
                      (F32.lit 100 100));
              Some (UVec4 (F32.lit 98 100) (F32.lit 95 100) (F32.lit 86 100)
                      (F32.lit 100 100));
              Some (UVec4 (F32.lit 96 100) (F32.lit 96 100) (F32.lit 92 100)
                      (F32.lit 1 1));
              Some (UVec4 (F32.lit 2 10) (F32.lit 45 100) (F32.lit 9 10)
                      (F32.lit 7 10));
              Some (UVec4 (F32.lit 2 10) (F32.lit 45 100) (F32.lit 9 10)
                      (F32.lit 7 10))]
             color_meshes) /\
    uniform_writes "rippleAmplitude" calls = [UFloat (F32.lit 10 100)] /\
    uniform_writes "timeSeconds" calls
      = [UFloat (F32.mul (clock w) (F32.lit 5 10))] /\
    uniform_at (m_pShaderManager (scene w)) "rippleAmplitude" w'
      = Some (UFloat (F32.lit 10 100)) /\
    uniform_at (m_pShaderManager (scene w)) "bIsLiquidSurface" w'
      = Some (UInt 0) /\
    texture_binds calls =
      (if m_shadowDepthTexture (scene w) =? 0 then []
       else [m_shadowDepthTexture (scene w)]) ++
      (if 0 <? id_s then [id_s] else []) ++
      (if 0 <? id_g then [id_g; id_g; id_g] else []) ++
      (if m_shadowDepthTexture (scene w) =? 0 then []
       else [m_shadowDepthTexture (scene w)]) /\
    (m_shadowDepthTexture (scene w) <> 0 ->
       uniform_at (m_pShaderManager (scene w)) "spotLightSpaceMatrix" w'
         = Some (UMat4 (m_spotLightSpaceMatrix (scene w))) /\
       uniform_at (m_pShaderManager (scene w)) "spotShadowMap" w'
         = Some (USampler2D 7) /\
       gl_active_texture (gl w') = 7 /\
       gl_texture_2d (gl w') !! 7 = Some (m_shadowDepthTexture (scene w)) /\
       uniform_writes "spotLightSpaceMatrix" calls
         = [UMat4 (m_spotLightSpaceMatrix (scene w));
            UMat4 (m_spotLightSpaceMatrix (scene w))] /\
       active_units calls !! 0%nat = Some 7 /\
       texture_binds calls !! 0%nat = Some (m_shadowDepthTexture (scene w))).
Proof.
  intros Hlive Hwf.
  destruct (registry_finds (scene w) "stone" Hwf) as (ss & is_ & Hs & His).
  destruct (registry_finds (scene w) "grass" Hwf) as (sg & ig & Hg & Hig).
  destruct (RenderScene_draw_uniforms w _ ss is_ sg ig eq_refl Hlive Hs His Hg Hig)
    as (w' & calls & Hrun & Hrest).
  destruct (RenderScene_frame w w tt w' calls (color_pass_frame_refl w) Hrun)
    as [Hframe Hcalls].
  exists ss, is_, sg, ig, w', calls.
  split; [apply FindTextureSlot_run; exact Hs|].
  split; [apply FindTextureID_run; exact His|].
  split; [apply FindTextureSlot_run; exact Hg|].
  split; [apply FindTextureID_run; exact Hig|].
  split; [exact Hrun|]. split; [exact Hframe|]. split; [exact Hcalls|].
  exact Hrest.
Qed.

(** X9. How the colour pass shades each of its eight draws.  The plane and
    the three mug parts (outer body, interior, bottom) are drawn with
    texturing on and the sampler [objectTexture] at the unit FindTextureSlot
    gives for "stone" (the plane) and "grass" (the mug), unit 0 taking the
    place of a slot that was not found; the saucer, its rim, the straw and
    the liquid are drawn with texturing off and their own colours, the
    liquid's with alpha 0.7.  This holds whatever the uniforms held before
    the pass, but for the colour at the plane's draw, which the pass does
    not set. *)
Theorem color_pass_shading w :
  live (m_pShaderManager (scene w)) w -> registry_wf (scene w) ->
  exists slot_s slot_g w' calls,
    FindTextureSlot "stone" w = Ok slot_s w [] /\
    FindTextureSlot "grass" w = Ok slot_g w [] /\
    RenderScene w = Ok tt w' calls /\
    forall prev,
      draws_with_uniform (m_pShaderManager (scene w)) "bUseTexture" prev calls =
        zip (map (fun b : bool => Some (UInt (if b then 1 else 0)))
               [true; false; false; true; true; false; false; true])
            color_meshes /\
      draws_with_uniform (m_pShaderManager (scene w)) "objectTexture" prev calls =
        zip (replicate 3 (Some (USampler2D (if slot_s <? 0 then 0 else slot_s)))
             ++ replicate 5
                  (Some (USampler2D (if slot_g <? 0 then 0 else slot_g))))
            color_meshes /\
      draws_with_uniform (m_pShaderManager (scene w)) "objectColor" prev calls =
        zip [prev;
             Some (UVec4 (F32.lit 100 100) (F32.lit 97 100) (F32.lit 88 100)
                     (F32.lit 100 100));
             Some (UVec4 (F32.lit 98 100) (F32.lit 95 100) (F32.lit 86 100)
                     (F32.lit 100 100));
             Some (UVec4 (F32.lit 98 100) (F32.lit 95 100) (F32.lit 86 100)
                     (F32.lit 100 100));
             Some (UVec4 (F32.lit 98 100) (F32.lit 95 100) (F32.lit 86 100)
                     (F32.lit 100 100));
             Some (UVec4 (F32.lit 96 100) (F32.lit 96 100) (F32.lit 92 100)
                     (F32.lit 1 1));
             Some (UVec4 (F32.lit 2 10) (F32.lit 45 100) (F32.lit 9 10)
                     (F32.lit 7 10));
             Some (UVec4 (F32.lit 2 10) (F32.lit 45 100) (F32.lit 9 10)
                     (F32.lit 7 10))]
            color_meshes /\
      draws_with_uniform (m_pShaderManager (scene w)) "bUseLighting" prev calls =
        zip (replicate 8 (Some (UInt 1))) color_meshes.
Proof.
  intros Hlive Hwf.
  destruct (RenderScene_effects w Hlive Hwf)
    as (ss & is_ & sg & ig & w' & calls & Hs & _ & Hg & _ & Hrun & _ & _ &
        _ & _ & Hl & Ht & Ho & Hc & _).
  exists ss, sg, w', calls.
  split; [exact Hs|]. split; [exact Hg|]. split; [exact Hrun|].
  intros prev. auto.
Qed.

(** X10. What the colour pass leaves alone.  RenderScene on a live shader
    manager and a registry inside its array returns, and it changes only
    the uniforms of its own shader manager, the selected texture unit, the
    texture bindings and the depth mask, which it only ever sets to true:
    the scene manager's members, the view manager, the camera, the
    viewport, the bound framebuffer, the depth test, the program in use and
    every other shader manager are as before.  It never activates a
    program, binds a framebuffer, sets the viewport or reads context state
    back. *)
Theorem RenderScene_frame_conditions w :
  live (m_pShaderManager (scene w)) w -> registry_wf (scene w) ->
  exists w' calls,
    RenderScene w = Ok tt w' calls /\
    color_pass_frame w w' /\
    program_uses calls = [] /\ framebuffer_binds calls = [] /\
    viewport_sets calls = [] /\ state_queries calls = [] /\
    Forall (eq true) (depth_masks calls) /\
    (forall q, q <> m_pShaderManager (scene w) -> writes_through q calls = []).
Proof.
  intros Hlive Hwf.
  destruct (RenderScene_effects w Hlive Hwf)
    as (ss & is_ & sg & ig & w' & calls & _ & _ & _ & _ & Hrun & Hframe &
        Hcalls & _).
  exists w', calls. split; [exact Hrun|]. split; [exact Hframe|].
  apply color_pass_calls_exclude. exact Hcalls.
Qed.

(** The depth pass on initialised resources, with what it writes and what
    it leaves alone. *)
Lemma RenderShadowMap_effects p d w :
  shadow_ready w ->
  exists w' calls,
    RenderShadowMap p d w = Ok tt w' calls /\
    uniform_at (m_pDepthShaderManager (scene w)) "view" w'
      = Some (UMat4 (lightView p d)) /\
    uniform_at (m_pDepthShaderManager (scene w)) "projection" w'
      = Some (UMat4 (lightProjection (scene w))) /\
    (forall q, q <> m_pDepthShaderManager (scene w) ->
       heap w' !! q = heap w !! q) /\
    (forall q, q <> m_pDepthShaderManager (scene w) ->
       writes_through q calls = []) /\
    map fst (writes_through (m_pDepthShaderManager (scene w)) calls)
      = ["view"; "projection"] ++ replicate 8 "model" /\
    program_uses calls = [m_pDepthShaderManager (scene w)] /\
    texture_binds calls = [] /\ active_units calls = [] /\
    depth_masks calls = [] /\
    gl_texture_2d (gl w') = gl_texture_2d (gl w) /\
    gl_active_texture (gl w') = gl_active_texture (gl w) /\
    gl_depth_mask (gl w') = gl_depth_mask (gl w) /\
    gl_next_name (gl w') = gl_next_name (gl w) /\
    view w' = view w /\ g_pCamera w' = g_pCamera w /\
    gDeltaTime w' = gDeltaTime w /\ gLastFrame w' = gLastFrame w.
Proof.
  intros [Hfbo Hlive].
  destruct (gl_viewport (gl w)) as [[[x y] vw] vh] eqn:Hvp.
  eexists _, _. split.
  - unfold RenderShadowMap. eapply bind_run; [reflexivity|]. cbv beta zeta.
    destruct Hlive as [Hp Hs].
    rewrite (proj2 (Z.eqb_neq _ _) Hfbo), (proj2 (Z.eqb_neq _ _) Hp).
    cbn [orb].
    assert (Hlive : live (m_pDepthShaderManager (scene w)) w)
      by (split; assumption).
    eapply bind_run; [reflexivity|].
    eapply bind_run; [run|].
    cbn [gl with_scene]. rewrite Hvp.
    run.
  - cbn [app].
    split; [read_uniform|]. split; [read_uniform|].
    split.
    { intros q Hq. cbn [heap store with_heap with_gl with_scene].
      rewrite !lookup_alter_ne by congruence. reflexivity. }
    split.
    { intros q Hq. cbn [writes_through omap list_omap].
      rewrite (proj2 (Z.eqb_neq _ _) (not_eq_sym Hq)). reflexivity. }
    split.
    { cbn [writes_through omap list_omap]. rewrite Z.eqb_refl. reflexivity. }
    repeat (split; [reflexivity|]). reflexivity.
Qed.

(** X11. The depth pass writes only the depth-only shader manager.  On
    initialised resources RenderShadowMap activates that manager's program
    once and writes through it [view], [projection] and then [model] once
    per mesh; it writes no uniform through any other manager and leaves
    every other manager's uniforms as they were; it selects no texture
    unit, binds no texture and does not touch the depth mask; the view
    manager, the camera and the frame timing are unchanged. *)
Theorem RenderShadowMap_writes_only_the_depth_shader p d w :
  shadow_ready w ->
  exists w' calls,
    RenderShadowMap p d w = Ok tt w' calls /\
    program_uses calls = [m_pDepthShaderManager (scene w)] /\
    map fst (writes_through (m_pDepthShaderManager (scene w)) calls)
      = ["view"; "projection"] ++ replicate 8 "model" /\
    (forall q, q <> m_pDepthShaderManager (scene w) ->
       writes_through q calls = [] /\ heap w' !! q = heap w !! q) /\
    texture_binds calls = [] /\ active_units calls = [] /\
    depth_masks calls = [] /\
    gl_texture_2d (gl w') = gl_texture_2d (gl w) /\
    gl_active_texture (gl w') = gl_active_texture (gl w) /\
    view w' = view w /\ g_pCamera w' = g_pCamera w /\
    gDeltaTime w' = gDeltaTime w /\ gLastFrame w' = gLastFrame w.
Proof.
  intros Hready.
  destruct (RenderShadowMap_effects p d w Hready)
    as (w' & calls & Hrun & _ & _ & Hheap & Hw & Hn & Hu & Hb & Ha & Hm &
        Ht & Hat & _ & _ & Hv & Hc & Hd & Hl).
  exists w', calls. repeat (split; [assumption|]).
  split; [intros q Hq; split; auto|]. auto 10.
Qed.

(** X12. The light-space transform is the same in both passes of a frame.
    After RenderShadowMap and then RenderScene (shadow resources
    initialised, the two shader managers distinct): the depth-only shader
    holds the light's [projection] and [view]; the main shader's
    [spotLightSpaceMatrix] is their product, the matrix the depth pass
    stored; its sampler [spotShadowMap] is unit 7 and unit 7 holds the
    shadow depth texture.  The colour pass activates no program: the
    program in use after the frame is still the depth-only one. *)
Theorem color_pass_uses_the_depth_pass_matrix p d w :
  shadow_ready w -> m_shadowDepthTexture (scene w) <> 0 ->
  live (m_pShaderManager (scene w)) w ->
  m_pShaderManager (scene w) <> m_pDepthShaderManager (scene w) ->
  registry_wf (scene w) ->
  exists w1 c1 w2 c2,
    RenderShadowMap p d w = Ok tt w1 c1 /\
    RenderScene w1 = Ok tt w2 c2 /\
    uniform_at (m_pDepthShaderManager (scene w)) "projection" w2
      = Some (UMat4 (lightProjection (scene w))) /\
    uniform_at (m_pDepthShaderManager (scene w)) "view" w2
      = Some (UMat4 (lightView p d)) /\
    uniform_at (m_pShaderManager (scene w)) "spotLightSpaceMatrix" w2
      = Some (UMat4 (mat4_mul (lightProjection (scene w)) (lightView p d))) /\
    m_spotLightSpaceMatrix (scene w2)
      = mat4_mul (lightProjection (scene w)) (lightView p d) /\
    uniform_at (m_pShaderManager (scene w)) "spotShadowMap" w2
      = Some (USampler2D 7) /\
    gl_texture_2d (gl w2) !! 7 = Some (m_shadowDepthTexture (scene w)) /\
    program_uses c1 = [m_pDepthShaderManager (scene w)] /\
    program_uses c2 = [] /\
    gl_program (gl w2) = m_pDepthShaderManager (scene w).
Proof.
  intros Hready HD Hlive Hne Hwf.
  destruct (RenderShadowMap_run p d w Hready)
    as (w1 & c1 & Hrun1 & Hs1 & _ & _ & _ & _ & _ & _ & Hlive1 & _ & Hprog).
  destruct (RenderShadowMap_effects p d w Hready)
    as (w1' & c1' & Hrun1' & Hview & Hproj & _ & _ & _ & Huse & _).
  rewrite Hrun1 in Hrun1'. injection Hrun1' as <- <-.
  assert (Hp1 : m_pShaderManager (scene w1) = m_pShaderManager (scene w))
    by (rewrite Hs1; reflexivity).
  assert (HD1 : m_shadowDepthTexture (scene w1) = m_shadowDepthTexture (scene w))
    by (rewrite Hs1; reflexivity).
  assert (HL1 : m_spotLightSpaceMatrix (scene w1)
                = mat4_mul (lightProjection (scene w)) (lightView p d))
    by (rewrite Hs1; reflexivity).
  assert (Hwf1 : registry_wf (scene w1)) by (rewrite Hs1; exact Hwf).
  assert (Hl1 : live (m_pShaderManager (scene w1)) w1)
    by (rewrite Hp1; apply Hlive1; exact Hlive).
  destruct (RenderScene_effects w1 Hl1 Hwf1)
    as (ss & is_ & sg & ig & w2 & c2 & _ & _ & _ & _ & Hrun2 & Hframe &
        Hcalls & _ & _ & _ & _ & _ & _ & _ & _ & _ & _ & _ & Hshadow).
  rewrite HD1 in Hshadow. destruct (Hshadow HD) as (Hm & Hsm & _ & H7 & _).
  rewrite Hp1, HL1 in Hm. rewrite Hp1 in Hsm.
  destruct (color_pass_calls_exclude _ _ Hcalls) as (Huse2 & _).
  pose proof Hframe as (Hsc & _ & _ & _ & _ & _ & _ & _ & _ & _ & _ & Hpr & _ &
                        _ & Hheap).
  exists w1, c1, w2, c2.
  split; [exact Hrun1|]. split; [exact Hrun2|].
  assert (Hkeep : heap w2 !! m_pDepthShaderManager (scene w)
                  = heap w1 !! m_pDepthShaderManager (scene w)).
  { apply Hheap. rewrite Hp1. congruence. }
  split; [rewrite (uniform_at_same_heap _ _ _ _ Hkeep); exact Hproj|].
  split; [rewrite (uniform_at_same_heap _ _ _ _ Hkeep); exact Hview|].
  split; [exact Hm|]. split; [rewrite Hsc; exact HL1|].
  split; [exact Hsm|]. split; [exact H7|]. split; [exact Huse|].
  split; [exact Huse2|]. rewrite Hpr. exact Hprog.
Qed.

End FrameMore.

(** ** The view manager's frame *)

Section ViewFrame.
Context `{G : Glm}.

Lemma preserves_bind_camera {B} I C (f : Camera -> M B) :
  (forall w0 cam, I w0 -> g_pCamera w0 = Some cam -> preserves I C (f cam)) ->
  preserves I C (bind camera f).
Proof.
  intros Hf w b w' c HI H.
  apply bind_inv in H as (cam & w1 & c1 & c2 & H1 & H2 & ->).
  unfold camera in H1. destruct (g_pCamera w) as [cam'|] eqn:Hcam; [|discriminate].
  injection H1 as <- <- <-.
  apply (Hf w cam' HI Hcam w _ _ _ HI H2).
Qed.

Lemma bind_nil_run {A B} (m : M A) (f : A -> M B) w a w1 b w2 c :
  m w = Ok a w1 [] -> f a w1 = Ok b w2 c -> bind m f w = Ok b w2 c.
Proof. intros H1 H2. unfold bind. rewrite H1, H2. reflexivity. Qed.

Lemma Forall_False_nil {A} (l : list A) : Forall (fun _ => False) l -> l = [].
Proof. destruct 1; [reflexivity|contradiction]. Qed.

Lemma view_frame_refl w : view_frame w w.
Proof.
  split; [repeat split|]. unfold camera_moved.
  destruct (g_pCamera w) as [[]|]; reflexivity.
Qed.

Lemma view_frame_move w0 w1 w cam p :
  view_frame w0 w1 -> g_pCamera w1 = Some cam -> view_frame w0 w ->
  view_frame w0 (with_camera (Some (set_Position p cam)) w).
Proof.
  intros [_ H1] Hcam [H _]. split; [exact H|].
  rewrite Hcam in H1. cbn. unfold camera_moved in *.
  destruct (g_pCamera w0) as [c0|]; [|contradiction].
  rewrite H1. reflexivity.
Qed.

End ViewFrame.

Ltac view_side :=
  first
    [ exact Logic.I
    | reflexivity
    | solve [let H := fresh in intros ? H; exact H]
    | solve [intros;
             match goal with
             | H1 : view_frame _ ?w1, Hcam : g_pCamera ?w1 = Some _ |- _ =>
                 apply (view_frame_move _ _ _ _ _ H1 Hcam); assumption
             end] ].

Ltac view_step :=
  lazymatch goal with
  | |- preserves _ _ (ret _) => apply preserves_ret
  | |- preserves _ _ (bind get _) => apply preserves_bind_get; intros ? ?
  | |- preserves _ _ (bind camera _) =>
      apply preserves_bind_camera; intros ? ? ? ?
  | |- preserves _ _ (bind _ _) => apply preserves_bind; [|intros ?]
  | |- preserves _ _ (glfwGetKey _ _) => apply preserves_glfwGetKey
  | |- preserves _ _ glfwGetTime => apply preserves_glfwGetTime
  | |- preserves _ _ (call _) => apply preserves_call; view_side
  | |- preserves _ _ (modify _) => apply preserves_modify; view_side
  | |- preserves _ _ (if ?b then _ else _) => destruct b
  end.

Section ViewFrameMore.
Context `{G : Glm}.

Lemma ProcessSmoothMovement_frame w0 C :
  preserves (view_frame w0) C ProcessSmoothMovement.
Proof. unfold ProcessSmoothMovement. cbv zeta. repeat view_step. Qed.

Lemma ProcessProjectionKeys_frame w0 C :
  preserves (view_frame w0) C ProcessProjectionKeys.
Proof. unfold ProcessProjectionKeys. repeat view_step. Qed.

Lemma ProcessRippleControls_frame w0 C :
  preserves (view_frame w0) C ProcessRippleControls.
Proof. unfold ProcessRippleControls. repeat view_step. Qed.

(** The keys and the three projection members, for the operations that
    leave them alone. *)
Definition projection_state (k : Key -> bool) (window : Z) (a b c : bool)
    (w : World) : Prop :=
  keys w = k /\ m_pWindow (view w) = window /\
  m_bPerspectiveProjection (view w) = a /\ m_bPKeyPressed (view w) = b /\
  m_bOKeyPressed (view w) = c.

Lemma ProcessSmoothMovement_projection k window a b c C :
  preserves (projection_state k window a b c) C ProcessSmoothMovement.
Proof. unfold ProcessSmoothMovement. cbv zeta. repeat view_step. Qed.

Lemma ProcessRippleControls_projection k window a b c C :
  preserves (projection_state k window a b c) C ProcessRippleControls.
Proof. unfold ProcessRippleControls. repeat view_step. Qed.

Lemma ProcessProjectionKeys_run w :
  m_pWindow (view w) <> 0 ->
  ProcessProjectionKeys w =
    Ok tt
      (with_view
         (set_projection (next_projection (keys w) (view w))
            (keys w GLFW_KEY_P) (keys w GLFW_KEY_O)) w)
      [].
Proof.
  intros Hwin.
  destruct w as [s v cam dt lf h g f k c].
  destruct v as [sm win persp pk ok vel acc dec sens mult amp step rmin rmax].
  cbn in Hwin. apply Z.eqb_neq in Hwin.
  unfold ProcessProjectionKeys, next_projection, bind, get, glfwGetKey, modify,
    ret.
  cbn. rewrite Hwin.
  destruct (k GLFW_KEY_P), pk; cbn; rewrite ?Hwin;
    destruct (k GLFW_KEY_O), ok; reflexivity.
Qed.

(** X13. ProcessProjectionKeys, with a window: it makes no call and
    changes only the three projection members.  Afterwards the two
    key-pressed flags say whether P and O are down.  The mode changes only
    when a key goes down (it is down now and its flag was clear): O going
    down selects the orthographic mode, else P going down selects the
    perspective mode, else the mode stays; when both go down in the same
    frame, O wins.  A key that is held does nothing more. *)
Theorem ProcessProjectionKeys_edge_triggered w :
  m_pWindow (view w) <> 0 ->
  exists w',
    ProcessProjectionKeys w = Ok tt w' [] /\
    w' = with_view (fun _ => view w') w /\
    view w' = set_projection (m_bPerspectiveProjection (view w'))
                (m_bPKeyPressed (view w')) (m_bOKeyPressed (view w')) (view w) /\
    m_bPKeyPressed (view w') = keys w GLFW_KEY_P /\
    m_bOKeyPressed (view w') = keys w GLFW_KEY_O /\
    m_bPerspectiveProjection (view w') =
      (if keys w GLFW_KEY_O && negb (m_bOKeyPressed (view w)) then false
       else if keys w GLFW_KEY_P && negb (m_bPKeyPressed (view w)) then true
       else m_bPerspectiveProjection (view w)) /\
    (keys w GLFW_KEY_P = m_bPKeyPressed (view w) ->
     keys w GLFW_KEY_O = m_bOKeyPressed (view w) ->
     m_bPerspectiveProjection (view w') = m_bPerspectiveProjection (view w)).
Proof.
  intros Hwin. eexists. split; [apply ProcessProjectionKeys_run; exact Hwin|].
  split; [reflexivity|]. split; [reflexivity|]. split; [reflexivity|].
  split; [reflexivity|]. split; [reflexivity|].
  intros HP HO. cbn. unfold next_projection. rewrite HP, HO.
  destruct (m_bPKeyPressed (view w)), (m_bOKeyPressed (view w)); reflexivity.
Qed.

(** ProcessKeyboardEvents on a ready view manager: what it returns, calls
    and changes. *)
Lemma ProcessKeyboardEvents_effects window sm w :
  view_ready window sm w ->
  exists wk,
    ProcessKeyboardEvents w = Ok tt wk (escape_calls (keys w)) /\
    view_ready window sm wk /\ view_frame w wk /\
    m_bPerspectiveProjection (view wk) = next_projection (keys w) (view w) /\
    m_bPKeyPressed (view wk) = keys w GLFW_KEY_P /\
    m_bOKeyPressed (view wk) = keys w GLFW_KEY_O.
Proof.
  intros Hready.
  destruct (ProcessKeyboardEvents_returns window sm w Hready)
    as ([] & wk & ck & Hrun & Hready').
  exists wk.
  pose proof Hrun as Hsplit. unfold ProcessKeyboardEvents in Hsplit.
  apply bind_inv in Hsplit as (w0 & w0' & c0 & c0' & Hget & Hsplit & ->).
  injection Hget as <- <- <-.
  apply bind_inv in Hsplit as (esc & w1 & c1 & c1' & Hesc & Hsplit & ->).
  unfold glfwGetKey in Hesc. destruct Hready as (Hwin & Hsm & Hwin0 & Hcam & Hlive).
  rewrite Hwin, (proj2 (Z.eqb_neq _ _) Hwin0) in Hesc.
  injection Hesc as <- <- <-.
  apply bind_inv in Hsplit as ([] & w2 & c2 & c2' & Hclose & Hsplit & ->).
  assert (Hc2 : w2 = w /\ c2 = escape_calls (keys w)).
  { unfold escape_calls. destruct (keys w GLFW_KEY_ESCAPE);
      injection Hclose as <- <-; auto. }
  destruct Hc2 as [-> ->].
  apply bind_inv in Hsplit as ([] & w3 & c3 & c3' & Hmove & Hsplit & ->).
  apply bind_inv in Hsplit as ([] & w4 & c4 & c4' & Hproj & Hripple & ->).
  destruct (ProcessSmoothMovement_frame w (fun _ => False) w tt w3 c3
              (view_frame_refl w) Hmove) as [Hf3 Hn3].
  destruct (ProcessProjectionKeys_frame w (fun _ => False) w3 tt w4 c4 Hf3 Hproj)
    as [Hf4 Hn4].
  destruct (ProcessRippleControls_frame w (fun _ => False) w4 tt wk c4' Hf4
              Hripple) as [Hf5 Hn5].
  rewrite (Forall_False_nil _ Hn3), (Forall_False_nil _ Hn4),
    (Forall_False_nil _ Hn5) in Hrun.
  cbn [app] in Hrun. rewrite app_nil_r in Hrun.
  split; [exact Hrun|]. split; [exact Hready'|]. split; [exact Hf5|].
  destruct (ProcessSmoothMovement_projection (keys w) window
              (m_bPerspectiveProjection (view w)) (m_bPKeyPressed (view w))
              (m_bOKeyPressed (view w)) (fun _ => True) w tt w3 c3
              ltac:(repeat split; auto) Hmove)
    as [(Hk3 & Hw3 & Ha3 & Hb3 & Hc3) _].
  rewrite ProcessProjectionKeys_run in Hproj by (rewrite Hw3; exact Hwin0).
  injection Hproj as <- _.
  assert (Hps : projection_state (keys w) window
                  (next_projection (keys w) (view w)) (keys w GLFW_KEY_P)
                  (keys w GLFW_KEY_O)
                  (with_view
                     (set_projection (next_projection (keys w3) (view w3))
                        (keys w3 GLFW_KEY_P) (keys w3 GLFW_KEY_O)) w3)).
  { unfold projection_state, next_projection. cbn.
    rewrite Hk3, Ha3, Hb3, Hc3. auto. }
  destruct (ProcessRippleControls_projection _ _ _ _ _ (fun _ => True)
              _ _ _ _ Hps Hripple) as [(_ & _ & Ha & Hb & Hc) _].
  auto.
Qed.

(** PrepareSceneView on a ready view manager with a shader manager: the
    state after the keyboard, then the six uniform writes. *)
Lemma PrepareSceneView_effects window sm w :
  view_ready window sm w -> sm <> 0 ->
  exists wk cam,
    ProcessKeyboardEvents
      (with_frame_time (F32.sub (clock w) (gLastFrame w)) (clock w) w)
      = Ok tt wk (escape_calls (keys w)) /\
    view_ready window sm wk /\
    view_frame (with_frame_time (F32.sub (clock w) (gLastFrame w)) (clock w) w)
      wk /\
    m_bPerspectiveProjection (view wk) = next_projection (keys w) (view w) /\
    g_pCamera wk = Some cam /\
    PrepareSceneView w =
      Ok tt
        (store sm "spotLight.direction" (UVec3 (glm_normalize (Front cam)))
           (store sm "spotLight.position" (UVec3 (Position cam))
              (store sm "rippleAmplitude"
                 (UFloat (m_rippleAmplitude (view wk)))
                 (store sm "viewPosition" (UVec3 (Position cam))
                    (store sm "projection"
                       (UMat4 (projection_of
                                 (m_bPerspectiveProjection (view wk)) cam))
                       (store sm "view" (UMat4 (Camera_GetViewMatrix cam))
                          wk))))))
        (escape_calls (keys w) ++
         [c_shader_set sm "view" (UMat4 (Camera_GetViewMatrix cam));
          c_shader_set sm "projection"
            (UMat4 (projection_of (m_bPerspectiveProjection (view wk)) cam));
          c_shader_set sm "viewPosition" (UVec3 (Position cam));
          c_shader_set sm "rippleAmplitude"
            (UFloat (m_rippleAmplitude (view wk)));
          c_shader_set sm "spotLight.position" (UVec3 (Position cam));
          c_shader_set sm "spotLight.direction"
            (UVec3 (glm_normalize (Front cam)))]).
Proof.
  intros Hready Hsm.
  set (wt := with_frame_time (F32.sub (clock w) (gLastFrame w)) (clock w) w).
  assert (Hready_t : view_ready window sm wt).
  { destruct Hready as (H1 & H2 & H3 & H4 & H5). repeat split; assumption. }
  destruct (ProcessKeyboardEvents_effects window sm wt Hready_t)
    as (wk & Hrun & Hreadyk & Hframe & Hpersp & _).
  pose proof Hreadyk as (Hwin & Hsmk & _ & [cam Hcam] & [Hnull|Hlive]);
    [contradiction|].
  exists wk, cam.
  split; [exact Hrun|]. split; [exact Hreadyk|]. split; [exact Hframe|].
  split; [exact Hpersp|]. split; [exact Hcam|].
  unfold PrepareSceneView, RenderCameraInfo.
  eapply bind_nil_run; [reflexivity|]. cbv beta.
  eapply bind_nil_run; [reflexivity|]. cbv beta.
  eapply bind_run; [exact Hrun|]. cbv beta.
  eapply bind_nil_run; [unfold camera; rewrite Hcam; reflexivity|]. cbv beta.
  apply bind_get_run. cbv zeta. rewrite Hsmk, (nonnull_test _ Hsm).
  unfold projection_of.
  etransitivity.
  - run.
  - cbn [app]. reflexivity.
Qed.

End ViewFrameMore.

(** ** The frame preparation of the view manager *)

Section PrepareView.
Context `{G : Glm}.

(** PrepareSceneView without a shader manager: the keyboard is processed
    and nothing is written. *)
Lemma PrepareSceneView_null_manager window w :
  view_ready window 0 w ->
  exists wk,
    ProcessKeyboardEvents
      (with_frame_time (F32.sub (clock w) (gLastFrame w)) (clock w) w)
      = Ok tt wk (escape_calls (keys w)) /\
    view_frame (with_frame_time (F32.sub (clock w) (gLastFrame w)) (clock w) w)
      wk /\
    PrepareSceneView w = Ok tt wk (escape_calls (keys w)).
Proof.
  intros Hready.
  set (wt := with_frame_time (F32.sub (clock w) (gLastFrame w)) (clock w) w).
  assert (Hready_t : view_ready window 0 wt).
  { destruct Hready as (H1 & H2 & H3 & H4 & H5). repeat split; assumption. }
  destruct (ProcessKeyboardEvents_effects window 0 wt Hready_t)
    as (wk & Hrun & Hreadyk & Hframe & _).
  pose proof Hreadyk as (_ & Hsmk & _ & [cam Hcam] & _).
  exists wk. split; [exact Hrun|]. split; [exact Hframe|].
  unfold PrepareSceneView, RenderCameraInfo.
  eapply bind_nil_run; [reflexivity|]. cbv beta.
  eapply bind_nil_run; [reflexivity|]. cbv beta.
  rewrite <- (app_nil_r (escape_calls (keys w))).
  eapply bind_run; [exact Hrun|]. cbv beta.
  eapply bind_nil_run; [unfold camera; rewrite Hcam; reflexivity|]. cbv beta.
  apply bind_get_run. cbv zeta. rewrite Hsmk. reflexivity.
Qed.

(** X14. What PrepareSceneView pushes.  With a window, a camera and a live
    shader manager it returns; the frame timing is updated from the clock;
    it writes six uniforms, in this order, and the manager holds each of
    them afterwards: [view], the camera's view matrix; [projection], built
    for the mode the P and O keys select in this very frame; [viewPosition]
    and [spotLight.position], the camera position GetCameraPosition
    returns; [rippleAmplitude], the view manager's amplitude; and
    [spotLight.direction], the normalised front vector of GetCameraFront.
    The camera is the camera as this frame's movement has left it. *)
Theorem PrepareSceneView_pushes_the_moved_camera window sm w :
  view_ready window sm w -> sm <> 0 ->
  exists w' calls cam',
    PrepareSceneView w = Ok tt w' calls /\
    g_pCamera w' = Some cam' /\
    gDeltaTime w' = F32.sub (clock w) (gLastFrame w) /\
    gLastFrame w' = clock w /\
    m_bPerspectiveProjection (view w') = next_projection (keys w) (view w) /\
    writes_through sm calls =
      [("view", UMat4 (Camera_GetViewMatrix cam'));
       ("projection",
        UMat4 (projection_of (next_projection (keys w) (view w)) cam'));
       ("viewPosition", UVec3 (GetCameraPosition w'));
       ("rippleAmplitude", UFloat (m_rippleAmplitude (view w')));
       ("spotLight.position", UVec3 (GetCameraPosition w'));
       ("spotLight.direction", UVec3 (glm_normalize (GetCameraFront w')))] /\
    Forall (fun nv => uniform_at sm (fst nv) w' = Some (snd nv))
      (writes_through sm calls).
Proof.
  intros Hready Hsm.
  destruct (PrepareSceneView_effects window sm w Hready Hsm)
    as (wk & cam & _ & Hreadyk & Hframe & Hpersp & Hcam & Hrun).
  destruct Hreadyk as (_ & _ & _ & _ & [Hnull|Hlive]); [contradiction|].
  destruct Hframe as [(_ & _ & _ & _ & _ & _ & Hdt & Hlf & _) _].
  eexists _, _, cam. split; [exact Hrun|].
  split; [exact Hcam|]. split; [exact Hdt|]. split; [exact Hlf|].
  split; [exact Hpersp|].
  assert (Hw : writes_through sm
                 (escape_calls (keys w) ++
                  [c_shader_set sm "view" (UMat4 (Camera_GetViewMatrix cam));
                   c_shader_set sm "projection"
                     (UMat4 (projection_of (m_bPerspectiveProjection (view wk))
                               cam));
                   c_shader_set sm "viewPosition" (UVec3 (Position cam));
                   c_shader_set sm "rippleAmplitude"
                     (UFloat (m_rippleAmplitude (view wk)));
                   c_shader_set sm "spotLight.position" (UVec3 (Position cam));
                   c_shader_set sm "spotLight.direction"
                     (UVec3 (glm_normalize (Front cam)))]) =
               [("view", UMat4 (Camera_GetViewMatrix cam));
                ("projection",
                 UMat4 (projection_of (next_projection (keys w) (view w)) cam));
                ("viewPosition", UVec3 (Position cam));
                ("rippleAmplitude", UFloat (m_rippleAmplitude (view wk)));
                ("spotLight.position", UVec3 (Position cam));
                ("spotLight.direction", UVec3 (glm_normalize (Front cam)))]).
  { rewrite Hpersp. unfold escape_calls, writes_through.
    destruct (keys w GLFW_KEY_ESCAPE); cbn [app omap list_omap];
      rewrite Z.eqb_refl; reflexivity. }
  unfold GetCameraPosition, GetCameraFront.
  cbn [g_pCamera view store with_heap]. rewrite Hcam, Hw.
  split; [reflexivity|].
  rewrite <- Hpersp.
  repeat (apply Forall_cons; split; [cbn [fst snd]; read_uniform|]).
  constructor.
Qed.

(** X15. What PrepareSceneView leaves alone.  With a window and a camera,
    and a shader manager pointer that is null or live, it returns, and:
    the scene manager, the OpenGL context, the files, the window and
    shader manager pointers and the movement and ripple settings are
    unchanged; of the camera only the position can change; no shader
    manager but its own is written; the only calls are the close request,
    made exactly when Escape is down, and uniform writes through its own
    manager.  With a null shader manager pointer nothing is written at
    all. *)
Theorem PrepareSceneView_frame_conditions window sm w :
  view_ready window sm w ->
  exists w' calls,
    PrepareSceneView w = Ok tt w' calls /\
    scene w' = scene w /\ gl w' = gl w /\ files w' = files w /\
    vm_pShaderManager (view w') = sm /\ m_pWindow (view w') = window /\
    m_accelerationRate (view w') = m_accelerationRate (view w) /\
    m_decelerationRate (view w') = m_decelerationRate (view w) /\
    m_rippleStep (view w') = m_rippleStep (view w) /\
    m_rippleMin (view w') = m_rippleMin (view w) /\
    m_rippleMax (view w') = m_rippleMax (view w) /\
    camera_moved (g_pCamera w) (g_pCamera w') /\
    (forall q, q <> sm -> heap w' !! q = heap w !! q) /\
    Forall (view_prepare_call sm) calls /\
    calls = escape_calls (keys w) ++
            map (fun nv => c_shader_set sm (fst nv) (snd nv))
                (writes_through sm calls) /\
    (sm = 0 -> heap w' = heap w /\ calls = escape_calls (keys w)).
Proof.
  intros Hready.
  pose proof Hready as (Hwin & Hsmw & _).
  destruct (Z.eq_dec sm 0) as [->|Hsm].
  - destruct (PrepareSceneView_null_manager window w Hready)
      as (wk & _ & Hframe & Hrun).
    destruct Hframe as [(Hs & Hgl & Hh & Hf & _ & _ & _ & _ & Hp & Hw & Ha & Hd &
                         _ & _ & Hrs & Hrmin & Hrmax) Hcam].
    exists wk, (escape_calls (keys w)).
    split; [exact Hrun|]. split; [exact Hs|]. split; [exact Hgl|].
    split; [exact Hf|]. split; [rewrite Hp; exact Hsmw|].
    split; [rewrite Hw; exact Hwin|].
    split; [exact Ha|]. split; [exact Hd|]. split; [exact Hrs|].
    split; [exact Hrmin|]. split; [exact Hrmax|]. split; [exact Hcam|].
    split; [intros q _; rewrite Hh; reflexivity|].
    assert (He : writes_through 0 (escape_calls (keys w)) = []).
    { unfold escape_calls. destruct (keys w GLFW_KEY_ESCAPE); reflexivity. }
    split.
    { unfold escape_calls. destruct (keys w GLFW_KEY_ESCAPE);
        repeat constructor. }
    split; [rewrite He, app_nil_r; reflexivity|].
    intros _. split; [exact Hh|reflexivity].
  - destruct (PrepareSceneView_effects window sm w Hready Hsm)
      as (wk & cam & _ & _ & Hframe & _ & _ & Hrun).
    destruct Hframe as [(Hs & Hgl & Hh & Hf & _ & _ & _ & _ & Hp & Hw & Ha & Hd &
                         _ & _ & Hrs & Hrmin & Hrmax) Hcam].
    eexists _, _. split; [exact Hrun|].
    split; [exact Hs|]. split; [exact Hgl|]. split; [exact Hf|].
    split; [rewrite <- Hsmw; exact Hp|]. split; [rewrite <- Hwin; exact Hw|].
    split; [exact Ha|]. split; [exact Hd|]. split; [exact Hrs|].
    split; [exact Hrmin|]. split; [exact Hrmax|]. split; [exact Hcam|].
    split.
    { intros q Hq. rewrite !heap_store_ne by exact Hq. rewrite Hh. reflexivity. }
    split.
    { apply Forall_app. split.
      - unfold escape_calls. destruct (keys w GLFW_KEY_ESCAPE);
          repeat constructor.
      - repeat constructor. }
    split.
    { unfold escape_calls, writes_through.
      destruct (keys w GLFW_KEY_ESCAPE); cbn [app omap list_omap];
        rewrite Z.eqb_refl; reflexivity. }
    intros H0. contradiction.
Qed.

(** X16. The ripple control does not reach the liquid.  PrepareSceneView
    and then RenderScene, both on the same live shader manager: the first
    pushes the view manager's amplitude (what the I and U keys change) to
    [rippleAmplitude]; the colour pass writes [0.10f] to the same uniform
    before it draws the liquid surface, the one draw made with
    [bIsLiquidSurface] set.  So the six draws before the liquid are made
    with the pushed value, the liquid and the mug bottom with [0.10f],
    whatever the keys have done, and [0.10f] is what the uniform holds
    after the frame. *)
Theorem ripple_control_does_not_reach_the_liquid window P w :
  view_ready window P w -> P <> 0 ->
  m_pShaderManager (scene w) = P -> registry_wf (scene w) ->
  exists w1 c1 w2 c2,
    PrepareSceneView w = Ok tt w1 c1 /\
    RenderScene w1 = Ok tt w2 c2 /\
    uniform_at P "rippleAmplitude" w1
      = Some (UFloat (m_rippleAmplitude (view w1))) /\
    (forall prev,
       draws_with_uniform P "rippleAmplitude" prev (c1 ++ c2) =
         zip (replicate 6 (Some (UFloat (m_rippleAmplitude (view w1))))
              ++ replicate 2 (Some (UFloat (F32.lit 10 100))))
             color_meshes) /\
    (forall prev,
       draws_with_uniform P "bIsLiquidSurface" prev (c1 ++ c2) =
         zip (replicate 6 prev ++ [Some (UInt 1); Some (UInt 0)])
             color_meshes) /\
    uniform_at P "rippleAmplitude" w2 = Some (UFloat (F32.lit 10 100)).
Proof.
  intros Hready HP Hscene Hwf.
  destruct (PrepareSceneView_effects window P w Hready HP)
    as (wk & cam & _ & Hreadyk & Hframe & _ & _ & Hrun).
  destruct Hreadyk as (_ & _ & _ & _ & [Hnull|Hlive]); [contradiction|].
  destruct Hframe as [(Hs & _) _].
  match type of Hrun with _ = Ok tt ?a ?b =>
    set (w1 := a) in *; set (c1 := b) in * end.
  assert (Hs1 : scene w1 = scene w) by exact Hs.
  assert (Hlive1 : live (m_pShaderManager (scene w1)) w1).
  { rewrite Hs1, Hscene. subst w1. solve_live. }
  assert (Hwf1 : registry_wf (scene w1)) by (rewrite Hs1; exact Hwf).
  destruct (RenderScene_effects w1 Hlive1 Hwf1)
    as (ss & is_ & sg & ig & w2 & c2 & _ & _ & _ & _ & Hrun2 & _ & _ &
        Hripple & Hliquid & _ & _ & _ & _ & _ & _ & Hafter & _).
  rewrite Hs1, Hscene in Hripple, Hliquid, Hafter.
  exists w1, c1, w2, c2.
  split; [exact Hrun|]. split; [exact Hrun2|].
  split; [subst w1; read_uniform|].
  split; [|split; [|exact Hafter]].
  - intros prev. subst c1. unfold escape_calls.
    destruct (keys w GLFW_KEY_ESCAPE);
      cbn [draws_with_uniform app String.eqb Ascii.eqb Bool.eqb andb];
      rewrite Z.eqb_refl; cbn [andb]; apply Hripple.
  - intros prev. subst c1. unfold escape_calls.
    destruct (keys w GLFW_KEY_ESCAPE);
      cbn [draws_with_uniform app String.eqb Ascii.eqb Bool.eqb andb];
      apply Hliquid.
Qed.

Lemma frames_returns window sm envs : returns window sm (frames envs).
Proof.
  induction envs as [|e rest IH]; simpl.
  - apply returns_ret.
  - apply returns_bind.
    + apply returns_modify. intros w (H1 & H2 & H3 & H4 & H5).
      repeat split; assumption.
    + intros _. apply returns_bind; [apply PrepareSceneView_returns|].
      intros _. exact IH.
Qed.

(** X17. Frames run once the window exists.  The constructor followed by
    CreateDisplayWindow returns what glfwCreateWindow returned.  When that
    is a window, it is stored, the view manager is ready (the shader
    manager pointer being null or live) and any number of frames then run
    to completion, under any keys and clock.  When it is null, the only
    calls are the creation attempt and glfwTerminate, no callback is
    registered and the window pointer stays null. *)
Theorem frames_run_once_the_window_exists p fresh title window w0 :
  p = 0 \/ live p w0 ->
  exists w1 c1,
    bind (ViewManager_ctor p fresh)
      (fun _ => CreateDisplayWindow title window) w0 = Ok window w1 c1 /\
    m_pWindow (view w1) = window /\
    (window = 0 ->
       c1 = [c_glfwCreateWindow WINDOW_WIDTH WINDOW_HEIGHT title;
             c_glfwTerminate]) /\
    (window <> 0 ->
       view_ready window p w1 /\
       forall envs, exists w c,
         frames envs w1 = Ok tt w c /\ view_ready window p w).
Proof.
  intros Hp.
  destruct (Z.eqb_spec window 0) as [->|Hwin].
  - eexists _, _. split; [reflexivity|]. split; [reflexivity|].
    split; [|intros H; contradiction].
    intros _. reflexivity.
  - eexists _, _. split.
    { unfold CreateDisplayWindow, bind, ViewManager_ctor, modify, call, ret.
      rewrite (proj2 (Z.eqb_neq _ _) Hwin). reflexivity. }
    split; [reflexivity|]. split; [intros H; contradiction|].
    intros _.
    match goal with |- view_ready window p ?w1 /\ _ =>
      assert (Hready : view_ready window p w1) end.
    { split; [reflexivity|]. split; [reflexivity|]. split; [exact Hwin|].
      split; [eexists; reflexivity|].
      destruct Hp as [Hp|Hp]; [left; exact Hp|right; exact Hp]. }
    split; [exact Hready|]. intros envs.
    destruct (frames_returns window p envs _ Hready) as ([] & w & c & H & Hr).
    eauto.
Qed.

End PrepareView.

(** ** The mouse callbacks *)

Module F64Facts.

Lemma of_float_two :
  F64.of_float (F32.lit 2 1) = S754_finite false 4503599627370496 (-51).
Proof. vm_compute. reflexivity. Qed.

Lemma mul_two_not_nan y :
  F32.is_nan y = false ->
  F32.is_nan (F64.mul y (F64.of_float (F32.lit 2 1))) = false.
Proof.
  rewrite of_float_two. unfold F64.mul, SFmul.
  destruct y as [s|s| |s m e]; try discriminate; intros _; try reflexivity.
  apply F32Facts.binary_round_aux_not_nan. lia.
Qed.

Lemma to_float_not_nan x :
  F32.is_nan x = false -> F32.is_nan (F64.to_float x) = false.
Proof.
  unfold F64.to_float. destruct x as [s|s| |s m e]; try discriminate;
    intros _; try reflexivity.
  apply F32Facts.binary_normalize_not_nan.
Qed.

Lemma add_finite_number x y :
  F32.is_finite x = true -> F32.is_nan y = false ->
  F32.is_nan (F32.add x y) = false.
Proof.
  destruct x as [sx|sx| |sx mx ex], y as [sy|sy| |sy my ey];
    try discriminate; intros _ _; unfold F32.add, SFadd; try reflexivity.
  - destruct sx, sy; reflexivity.
  - apply F32Facts.binary_normalize_not_nan.
Qed.

Lemma speed_range_finite x :
  in_range (F32.lit 1 1) (F32.lit 100 1) x -> F32.is_finite x = true.
Proof.
  intros (Hn & H0 & H1). destruct x as [s|[]| |s m e]; try reflexivity;
    vm_compute in Hn, H0, H1; congruence.
Qed.

Lemma clamp_nan lo hi : F32.clamp S754_nan lo hi = S754_nan.
Proof. destruct hi; reflexivity. Qed.

Lemma add_nan x : F32.add x S754_nan = S754_nan.
Proof. destruct x; reflexivity. Qed.

Lemma sub_diag x :
  F32.is_finite x = true -> F64.sub x x = S754_zero false.
Proof.
  unfold F64.sub, SFsub. destruct x as [[]|s| |s m e]; try discriminate;
    intros _; try reflexivity.
  cbv zeta. rewrite Z.sub_diag. reflexivity.
Qed.

End F64Facts.

Section MouseCallbacks.
Context `{G : Glm}.

(** X18. The scroll wheel keeps the camera speed between 1 and 100.  With
    a camera whose speed is a finite number and a scroll offset that is a
    number, Mouse_Scroll_Callback makes no call and changes nothing but
    the camera's MovementSpeed, and the new speed is a number between
    [1.0f] and [100.0f], hence finite again.  The clamp does not catch a
    NaN: after a NaN offset the speed is NaN. *)
Theorem scroll_keeps_the_speed_in_range xOffset yOffset w cam :
  g_pCamera w = Some cam ->
  F32.is_finite (MovementSpeed cam) = true ->
  exists speed,
    Mouse_Scroll_Callback xOffset yOffset w
      = Ok tt (with_camera (Some (set_MovementSpeed speed cam)) w) [] /\
    (F32.is_nan yOffset = false ->
       in_range (F32.lit 1 1) (F32.lit 100 1) speed /\
       F32.is_finite speed = true) /\
    (yOffset = S754_nan -> speed = S754_nan).
Proof.
  intros Hcam Hfin. eexists. split.
  - unfold Mouse_Scroll_Callback. apply bind_get_run. rewrite Hcam.
    cbv zeta. reflexivity.
  - split.
    + intros Hy.
      assert (Hr : in_range (F32.lit 1 1) (F32.lit 100 1)
                     (F32.clamp
                        (F32.add (MovementSpeed cam)
                           (F64.to_float
                              (F64.mul yOffset (F64.of_float (F32.lit 2 1)))))
                        (F32.lit 1 1) (F32.lit 100 1))).
      { apply F32Facts.clamp_in_range; try (vm_compute; reflexivity).
        apply F64Facts.add_finite_number; [exact Hfin|].
        apply F64Facts.to_float_not_nan, F64Facts.mul_two_not_nan. exact Hy. }
      split; [exact Hr|]. apply F64Facts.speed_range_finite. exact Hr.
    + intros ->.
      change (F64.to_float (F64.mul S754_nan (F64.of_float (F32.lit 2 1))))
        with S754_nan.
      rewrite F64Facts.add_nan. apply F64Facts.clamp_nan.
Qed.

Variable ProcessMouseMovement : float -> float -> Camera -> Camera.

(** X19. The first mouse event does not turn the camera.  While
    [gFirstMouse] is set, an event at a position whose two coordinates are
    binary32 numbers (as whole pixel positions are) hands the camera the
    offsets zero and zero, records the position and clears the flag. *)
Theorem first_mouse_event_has_zero_offsets m xMousePos yMousePos w cam :
  gFirstMouse m = true ->
  F32.is_finite xMousePos = true -> F32.is_finite yMousePos = true ->
  F64.of_float (F64.to_float xMousePos) = xMousePos ->
  F64.of_float (F64.to_float yMousePos) = yMousePos ->
  g_pCamera w = Some cam ->
  Mouse_Position_Callback ProcessMouseMovement m xMousePos yMousePos w =
    Ok {| gLastX := F64.to_float xMousePos; gLastY := F64.to_float yMousePos;
          gFirstMouse := false |}
       (with_camera
          (Some (ProcessMouseMovement (S754_zero false) (S754_zero false) cam))
          w)
       [].
Proof.
  intros Hfirst Hx Hy Hrx Hry Hcam.
  unfold Mouse_Position_Callback, mouse_offsets. rewrite Hfirst.
  cbn [gLastX gLastY gFirstMouse]. rewrite Hrx, Hry.
  rewrite (F64Facts.sub_diag _ Hx), (F64Facts.sub_diag _ Hy).
  change (F64.to_float (S754_zero false)) with (S754_zero false).
  change (F32.mul (S754_zero false) (F32.lit 3 1)) with (S754_zero false).
  unfold bind, camera, modify, ret. rewrite Hcam. reflexivity.
Qed.


End MouseCallbacks.

(** ** Tear-down: DestroyGLTextures and the destructor *)

Section SetupRuns.
Context `{G : Glm}.

Lemma sbind_run {A B} (m : Setup A) (f : A -> Setup B) w a w1 c1 b w2 c2 :
  m w = Done a w1 c1 -> f a w1 = Done b w2 c2 ->
  sbind m f w = Done b w2 (c1 ++ c2).
Proof. intros H1 H2. unfold sbind. rewrite H1, H2. reflexivity. Qed.

Lemma sbind_nil_run {A B} (m : Setup A) (f : A -> Setup B) w a w1 b w2 c :
  m w = Done a w1 [] -> f a w1 = Done b w2 c -> sbind m f w = Done b w2 c.
Proof. intros H1 H2. unfold sbind. rewrite H1, H2. reflexivity. Qed.

Lemma sbind_failed {A B} (m : Setup A) (f : A -> Setup B) w a w1 c1 e :
  m w = Done a w1 c1 -> f a w1 = Failed e -> sbind m f w = Failed e.
Proof. intros H1 H2. unfold sbind. rewrite H1, H2. reflexivity. Qed.

Lemma lift_run {A} (m : M A) w a w1 c :
  m w = Ok a w1 c -> lift m w = Done a w1 (map s_frame c).
Proof. intros H. unfold lift. rewrite H. reflexivity. Qed.

Lemma lift_failed {A} (m : M A) w e :
  m w = Crash e -> lift m w = @Failed G A e.
Proof. intros H. unfold lift. rewrite H. reflexivity. Qed.

End SetupRuns.

Section TearDown.
Context `{G : Glm} `{T : GlmTrig}.

Lemma cleared_step ids i e n :
  ids !! i = Some e ->
  take i ids ++ cleared (drop i ids) (S n) =
  take (S i) (<[i := clear_entry e]> ids)
    ++ cleared (drop (S i) (<[i := clear_entry e]> ids)) n.
Proof.
  intros He. unfold cleared.
  pose proof (lookup_lt_Some _ _ _ He) as Hlt.
  rewrite (drop_S _ _ _ He). cbn [take map drop app].
  rewrite (take_S_r (<[i := clear_entry e]> ids) i (clear_entry e))
    by (apply list_lookup_insert_eq; exact Hlt).
  rewrite take_insert_ge by lia.
  rewrite drop_insert_lt by lia.
  rewrite <- app_assoc. reflexivity.
Qed.

Lemma clear_entry_id e : ID e = 0 -> clear_entry e = e.
Proof. destruct e as [t i]. cbn. intros ->. reflexivity. Qed.

(** The loop of DestroyGLTextures from index [i]: the calls it makes and
    the registry it leaves. *)
Lemma DestroyGLTextures_loop_run n i w :
  0 <= i -> (Z.to_nat i + n <= length (m_textureIDs (scene w)))%nat ->
  exists w',
    DestroyGLTextures_loop n i w =
      Done tt w'
        (map s_glDeleteTextures
           (live_handles (drop (Z.to_nat i) (m_textureIDs (scene w))) n)) /\
    m_textureIDs (scene w') =
      take (Z.to_nat i) (m_textureIDs (scene w))
        ++ cleared (drop (Z.to_nat i) (m_textureIDs (scene w))) n /\
    scene w' = set_registry (m_textureIDs (scene w')) (m_loadedTextures (scene w))
                 (scene w) /\
    w' = with_scene (fun _ => scene w')
           (with_gl (set_texture_2d (gl_texture_2d (gl w'))) w).
Proof.
  revert i w. induction n as [|n IH]; intros i w Hi Hlen.
  - exists w. split; [reflexivity|]. split.
    + unfold cleared. rewrite take_0, drop_0. cbn [map app].
      rewrite take_drop. reflexivity.
    + split.
      * destruct (scene w); reflexivity.
      * destruct w as [? ? ? ? ? ? [] ? ? ?]. reflexivity.
  - destruct (lookup_lt_is_Some_2 (m_textureIDs (scene w)) (Z.to_nat i))
      as [e He]; [lia|].
    cbn [DestroyGLTextures_loop].
    set (w1 := if negb (ID e =? 0)
               then with_scene (fun s =>
                      set_registry
                        (<[Z.to_nat i := clear_entry e]> (m_textureIDs s))
                        (m_loadedTextures s) s)
                      (with_gl (fun g =>
                         set_texture_2d
                           ((fun t => if t =? ID e then 0 else t)
                              <$> gl_texture_2d g) g) w)
               else w).
    assert (Hids1 : m_textureIDs (scene w1)
                    = <[Z.to_nat i := clear_entry e]> (m_textureIDs (scene w))).
    { subst w1. destruct (Z.eqb_spec (ID e) 0) as [H0|H0]; cbn [negb].
      - rewrite (clear_entry_id e H0). symmetry. apply list_insert_id. exact He.
      - reflexivity. }
    assert (Hn1 : m_loadedTextures (scene w1) = m_loadedTextures (scene w)).
    { subst w1. destruct (negb (ID e =? 0)); reflexivity. }
    destruct (IH (i + 1) w1 ltac:(lia)) as (w' & Hrun & Hids & Hscene & Hw').
    { rewrite Hids1, length_insert. lia. }
    replace (Z.to_nat (i + 1)) with (S (Z.to_nat i)) in * by lia.
    exists w'. split; [|split; [|split]].
    + unfold sbind at 1. unfold sget at 1. rewrite He.
      assert (Hfirst :
        (if negb (ID e =? 0)
         then sbind (glDeleteTextures (ID e))
                (fun _ => smodify (with_scene (fun s =>
                   set_registry
                     (<[Z.to_nat i := {| tex_tag := tex_tag e; ID := 0 |}]>
                        (m_textureIDs s))
                     (m_loadedTextures s) s)))
         else sret tt) w
        = Done tt w1 (if negb (ID e =? 0) then [s_glDeleteTextures (ID e)]
                      else [])).
      { subst w1. destruct (negb (ID e =? 0)); reflexivity. }
      rewrite (sbind_run _ _ _ _ _ _ _ _ _ Hfirst Hrun).
      f_equal. unfold live_handles.
      rewrite (drop_S _ _ _ He). cbn [take map].
      rewrite Hids1, drop_insert_lt by lia.
      rewrite filter_cons.
      destruct (Z.eqb_spec (ID e) 0) as [H0|H0]; cbn [negb].
      * rewrite decide_False by (intros Hne; apply Hne; exact H0). reflexivity.
      * rewrite decide_True by exact H0. reflexivity.
    + rewrite Hids, Hids1. symmetry. apply cleared_step. exact He.
    + rewrite Hscene, Hn1. subst w1.
      destruct (negb (ID e =? 0)); reflexivity.
    + rewrite Hw' at 1. subst w1.
      destruct (negb (ID e =? 0)); [reflexivity|].
      destruct w as [? ? ? ? ? ? [] ? ? ?]. reflexivity.
Qed.

(** X21. DestroyGLTextures on a registry inside its array.  It deletes the
    non-zero handles of the registered entries, each once and in registry
    order, clears those handles and sets the entry count to 0; tags stay in
    the array, entries beyond the count are not touched, and apart from
    the texture bindings nothing else of the state changes.  Afterwards
    both lookups return -1 for every tag, and a second DestroyGLTextures
    makes no call. *)
Theorem DestroyGLTextures_deletes_each_texture_once w :
  registry_wf (scene w) ->
  exists w',
    DestroyGLTextures w =
      Done tt w'
        (map s_glDeleteTextures
           (live_handles (m_textureIDs (scene w))
              (Z.to_nat (m_loadedTextures (scene w))))) /\
    m_loadedTextures (scene w') = 0 /\
    m_textureIDs (scene w') =
      cleared (m_textureIDs (scene w)) (Z.to_nat (m_loadedTextures (scene w))) /\
    scene w' = set_registry (m_textureIDs (scene w')) 0 (scene w) /\
    w' = with_scene (fun _ => scene w')
           (with_gl (set_texture_2d (gl_texture_2d (gl w'))) w) /\
    (forall tag,
       FindTextureID tag w' = Ok (-1) w' [] /\
       FindTextureSlot tag w' = Ok (-1) w' []) /\
    exists w'', DestroyGLTextures w' = Done tt w'' [] /\ scene w'' = scene w'.
Proof.
  intros Hwf. unfold registry_wf in Hwf.
  destruct (DestroyGLTextures_loop_run
              (Z.to_nat (m_loadedTextures (scene w))) 0 w ltac:(lia) ltac:(lia))
    as (w1 & Hrun & Hids & Hscene & Hw1).
  change (Z.to_nat 0) with 0%nat in *. rewrite drop_0 in *.
  cbn [take app] in Hids.
  set (w' := with_scene (fun s => set_registry (m_textureIDs s) 0 s) w1).
  assert (Hrun' : DestroyGLTextures w =
            Done tt w'
              (map s_glDeleteTextures
                 (live_handles (m_textureIDs (scene w))
                    (Z.to_nat (m_loadedTextures (scene w)))))).
  { unfold DestroyGLTextures. apply sbind_nil_run with (a := w) (w1 := w);
      [reflexivity|].
    rewrite <- (app_nil_r (map _ _)).
    eapply sbind_run; [exact Hrun|]. reflexivity. }
  exists w'. split; [exact Hrun'|]. split; [reflexivity|].
  split; [exact Hids|]. split.
  { subst w'. cbn. rewrite Hscene at 2. reflexivity. }
  split.
  { subst w'. rewrite Hw1 at 1. reflexivity. }
  split.
  { intros tag. split; reflexivity. }
  exists (with_scene (fun s => set_registry (m_textureIDs s) 0 s) w').
  split; reflexivity.
Qed.

(** X22. What the destructor frees.  With a depth-only shader manager
    pointer that is null or live, ~SceneManager returns.  It deletes the
    mesh object, then the shadow depth texture, the shadow framebuffer and
    the depth-only shader manager, each only if it exists, and clears
    those three members and the main shader manager pointer.  It deletes
    no texture of the registry, whose entries and count are left as they
    are, and it does not delete the main shader manager. *)
Theorem destructor_frees_the_shadow_resources_only w :
  m_pDepthShaderManager (scene w) = 0 \/
    is_Some (heap w !! m_pDepthShaderManager (scene w)) ->
  exists w',
    SceneManager_dtor w =
      Done tt w'
        ([s_delete_ShapeMeshes] ++
         (if m_shadowDepthTexture (scene w) =? 0 then []
          else [s_glDeleteTextures (m_shadowDepthTexture (scene w))]) ++
         (if m_shadowFBO (scene w) =? 0 then []
          else [s_glDeleteFramebuffers (m_shadowFBO (scene w))]) ++
         (if m_pDepthShaderManager (scene w) =? 0 then []
          else [s_delete_ShaderManager (m_pDepthShaderManager (scene w))])) /\
    m_pShaderManager (scene w') = 0 /\ m_shadowDepthTexture (scene w') = 0 /\
    m_shadowFBO (scene w') = 0 /\ m_pDepthShaderManager (scene w') = 0 /\
    m_textureIDs (scene w') = m_textureIDs (scene w) /\
    m_loadedTextures (scene w') = m_loadedTextures (scene w) /\
    (forall q, q <> m_pDepthShaderManager (scene w) ->
       heap w' !! q = heap w !! q) /\
    (m_pDepthShaderManager (scene w) <> 0 ->
       heap w' !! m_pDepthShaderManager (scene w) = None) /\
    view w' = view w /\ g_pCamera w' = g_pCamera w.
Proof.
  intros Hdepth.
  destruct w as [[P ids n mats fbo tex sw sh dp lm] v cam dt lf h g f k c].
  cbn [scene heap m_pDepthShaderManager m_shadowFBO m_shadowDepthTexture
       m_textureIDs m_loadedTextures view g_pCamera] in Hdepth |- *.
  unfold SceneManager_dtor, glDeleteTextures, glDeleteFramebuffers,
    delete_ShaderManager, sbind, smodify, scall, sget, sret.
  cbn [scene with_scene with_gl set_pShaderManager m_shadowDepthTexture].
  destruct (Z.eqb_spec tex 0) as [Et|Et];
    cbn [negb scene with_scene with_gl set_pShaderManager
         set_shadowDepthTexture m_shadowFBO];
    destruct (Z.eqb_spec fbo 0) as [Ef|Ef];
    cbn [negb scene with_scene with_gl with_heap set_pShaderManager
         set_shadowDepthTexture set_shadowFBO m_pDepthShaderManager heap];
    destruct (Z.eqb_spec dp 0) as [Ed|Ed];
    cbn [negb scene with_scene with_gl with_heap set_pShaderManager
         set_shadowDepthTexture set_shadowFBO m_pDepthShaderManager heap];
    try (destruct Hdepth as [H0|[sh' Hsh]]; [contradiction|]; rewrite Hsh);
    (eexists; split; [reflexivity|]);
    repeat match goal with |- _ /\ _ => split end;
    try reflexivity; intros; cbn;
    first [ contradiction
          | assumption
          | apply lookup_delete_eq
          | rewrite lookup_delete_ne by congruence; reflexivity ].
Qed.

End TearDown.

(** ** Set-up: PrepareScene *)

(** The size of a registry built from the constructor's array. *)
Ltac registry_size :=
  repeat first [rewrite length_insert | rewrite length_replicate];
  unfold MAX_TEXTURES in *; lia.

Section Prepare.
Context `{G : Glm} `{T : GlmTrig}.

Lemma CreateGLTexture_missing filename tag w :
  files w !! filename = None ->
  CreateGLTexture filename tag w =
    Ok false w [c_stbi_set_flip_vertically_on_load true; c_stbi_load filename].
Proof.
  intros Hf. unfold CreateGLTexture, stbi_load, bind, call, get, ret.
  rewrite Hf. reflexivity.
Qed.

Lemma CreateGLTexture_full filename tag w img :
  files w !! filename = Some img ->
  colorChannels img = 3 \/ colorChannels img = 4 ->
  0 <= m_loadedTextures (scene w) ->
  (length (m_textureIDs (scene w)) <= Z.to_nat (m_loadedTextures (scene w)))%nat ->
  CreateGLTexture filename tag w = Crash OutOfBounds.
Proof.
  intros Hf Hc Hn Hge.
  assert (Hnneg : (m_loadedTextures (scene w) <? 0) = false) by lia.
  assert (Hout : m_textureIDs (scene w) !! Z.to_nat (m_loadedTextures (scene w))
                 = None) by (apply lookup_ge_None; lia).
  unfold CreateGLTexture, stbi_load, glGenTextures, glBindTexture,
    registerTexture, bind, call, get, modify, ret.
  rewrite Hf.
  destruct Hc as [Hc|Hc]; rewrite Hc; cbn; rewrite Hnneg, Hout; reflexivity.
Qed.

(** The lighting defaults on a live shader manager. *)
Lemma PrepareScene_lighting_run P w :
  live P w ->
  exists w1 c1,
    PrepareScene_lighting P w = Ok tt w1 c1 /\
    same_but_uniforms w w1 /\ live P w1 /\
    (forall q, q <> P -> heap w1 !! q = heap w !! q) /\
    uniform_at P "objectTexture" w1 = uniform_at P "objectTexture" w /\
    uniform_at P "bUseLighting" w1 = Some (UInt 1) /\
    uniform_at P "spotLight.bActive" w1 = Some (UInt 1) /\
    length c1 = 27%nat.
Proof.
  intros Hlive. eexists _, _. split.
  - unfold PrepareScene_lighting. run.
  - split; [reflexivity|]. split; [solve_live|]. split.
    { intros q Hq. rewrite !heap_store_ne by exact Hq. reflexivity. }
    split.
    { rewrite !uniform_at_store_ne by (right; discriminate). reflexivity. }
    split; [read_uniform|]. split; [read_uniform|]. reflexivity.
Qed.

Lemma generated_framebuffers_frame c :
  generated_framebuffers (map s_frame c) = [].
Proof. induction c as [|x c IH]; [reflexivity|exact IH]. Qed.

Lemma new_managers_frame c : new_managers (map s_frame c) = [].
Proof. induction c as [|x c IH]; [reflexivity|exact IH]. Qed.

Lemma mesh_loads_frame c : mesh_loads (map s_frame c) = [].
Proof. induction c as [|x c IH]; [reflexivity|exact IH]. Qed.

Lemma deleted_textures_frame c : deleted_textures (map s_frame c) = [].
Proof. induction c as [|x c IH]; [reflexivity|exact IH]. Qed.

(** The shadow map block. *)
Lemma PrepareScene_shadowMap_run fb w :
  exists w' calls,
    PrepareScene_shadowMap fb w = Done tt w' calls /\
    scene w' =
      (if m_shadowFBO (scene w) =? 0
       then set_shadowDepthTexture (gl_next_name (gl w))
              (set_shadowFBO fb (scene w))
       else scene w) /\
    gl w' =
      (if m_shadowFBO (scene w) =? 0
       then set_framebuffer 0
              (set_texture_2d
                 (<[gl_active_texture (gl w) := gl_next_name (gl w)]>
                    (gl_texture_2d (gl w)))
                 (set_next_name (gl_next_name (gl w) + 1) (gl w)))
       else gl w) /\
    w' = with_gl (fun _ => gl w') (with_scene (fun _ => scene w') w) /\
    generated_framebuffers calls =
      (if m_shadowFBO (scene w) =? 0 then [fb] else []) /\
    new_managers calls = [] /\ mesh_loads calls = [] /\
    deleted_textures calls = [].
Proof.
  destruct (m_shadowFBO (scene w) =? 0) eqn:E.
  - eexists _, _. split.
    + unfold PrepareScene_shadowMap. unfold sbind at 1. unfold sget at 1.
      rewrite E. reflexivity.
    + repeat (split; [reflexivity|]). reflexivity.
  - exists w, []. split.
    + unfold PrepareScene_shadowMap. unfold sbind at 1. unfold sget at 1.
      rewrite E. reflexivity.
    + repeat (split; [reflexivity|]).
      split; [destruct w; reflexivity|].
      repeat (split; [reflexivity|]). reflexivity.
Qed.

(** The depth-only shader block. *)
Lemma PrepareScene_depthShader_run ds w :
  (m_pDepthShaderManager (scene w) = 0 -> ds <> 0) ->
  exists w' calls,
    PrepareScene_depthShader ds w = Done tt w' calls /\
    scene w' =
      (if m_pDepthShaderManager (scene w) =? 0
       then set_pDepthShaderManager ds (scene w) else scene w) /\
    heap w' =
      (if m_pDepthShaderManager (scene w) =? 0
       then <[ds := {| uniforms := ∅ |}]> (heap w) else heap w) /\
    w' = with_heap (fun _ => heap w') (with_scene (fun _ => scene w') w) /\
    new_managers calls =
      (if m_pDepthShaderManager (scene w) =? 0 then [ds] else []) /\
    generated_framebuffers calls = [] /\ mesh_loads calls = [] /\
    deleted_textures calls = [].
Proof.
  intros Hds.
  destruct (Z.eqb_spec (m_pDepthShaderManager (scene w)) 0) as [E|E].
  - specialize (Hds E). eexists _, _. split.
    + unfold PrepareScene_depthShader. unfold sbind at 1. unfold sget at 1.
      rewrite (proj2 (Z.eqb_eq _ _) E).
      unfold new_ShaderManager, LoadShaders, sbind, smodify, scall, sget, sret.
      cbn [scene with_scene with_heap heap set_pDepthShaderManager
           m_pDepthShaderManager].
      rewrite (proj2 (Z.eqb_neq _ _) Hds), lookup_insert_eq. reflexivity.
    + repeat (split; [reflexivity|]). reflexivity.
  - exists w, []. split.
    + unfold PrepareScene_depthShader. unfold sbind at 1. unfold sget at 1.
      rewrite (proj2 (Z.eqb_neq _ _) E). reflexivity.
    + repeat (split; [reflexivity|]).
      split; [destruct w; reflexivity|].
      repeat (split; [reflexivity|]). reflexivity.
Qed.

Lemma generated_framebuffers_app c1 c2 :
  generated_framebuffers (c1 ++ c2)
  = generated_framebuffers c1 ++ generated_framebuffers c2.
Proof. apply omap_app. Qed.

Lemma new_managers_app c1 c2 :
  new_managers (c1 ++ c2) = new_managers c1 ++ new_managers c2.
Proof. apply omap_app. Qed.

Lemma mesh_loads_app c1 c2 :
  mesh_loads (c1 ++ c2) = mesh_loads c1 ++ mesh_loads c2.
Proof. apply omap_app. Qed.

Lemma deleted_textures_app c1 c2 :
  deleted_textures (c1 ++ c2) = deleted_textures c1 ++ deleted_textures c2.
Proof. apply omap_app. Qed.

(** PrepareScene after its two CreateGLTexture calls, whatever they
    returned: [wb] is the state they leave, [w2] the state after the
    textures are bound. *)
Lemma PrepareScene_effects fb ds w b1 wa ca b2 wb cb P :
  CreateGLTexture "textures/stone.png" "stone" w = Ok b1 wa ca ->
  CreateGLTexture "textures/grass.png" "grass" wa = Ok b2 wb cb ->
  m_pShaderManager (scene wb) = P -> live P wb ->
  0 <= m_loadedTextures (scene wb) -> registry_wf (scene wb) ->
  (m_pDepthShaderManager (scene wb) = 0 -> ds <> 0 /\ ds <> P) ->
  exists w2 w' calls,
    PrepareScene fb ds w = Done tt w' calls /\
    same_but_textures wb w2 /\
    (forall k e, 0 <= k < m_loadedTextures (scene wb) ->
       m_textureIDs (scene wb) !! Z.to_nat k = Some e ->
       gl_texture_2d (gl w2) !! k = Some (ID e)) /\
    gl_active_texture (gl w2) =
      (if 0 <? m_loadedTextures (scene wb) then m_loadedTextures (scene wb) - 1
       else gl_active_texture (gl wb)) /\
    scene w' =
      (if m_pDepthShaderManager (scene wb) =? 0
       then set_pDepthShaderManager ds else fun s => s)
        (if m_shadowFBO (scene wb) =? 0
         then set_shadowDepthTexture (gl_next_name (gl wb))
                (set_shadowFBO fb (scene wb))
         else scene wb) /\
    gl w' =
      (if m_shadowFBO (scene wb) =? 0
       then set_framebuffer 0
              (set_texture_2d
                 (<[gl_active_texture (gl w2) := gl_next_name (gl wb)]>
                    (gl_texture_2d (gl w2)))
                 (set_next_name (gl_next_name (gl wb) + 1) (gl w2)))
       else gl w2) /\
    view w' = view wb /\ g_pCamera w' = g_pCamera wb /\ files w' = files wb /\
    keys w' = keys wb /\ clock w' = clock wb /\
    live P w' /\
    (m_pDepthShaderManager (scene wb) = 0 -> live ds w') /\
    (forall q, q <> P -> q <> ds -> heap w' !! q = heap wb !! q) /\
    (m_pDepthShaderManager (scene wb) <> 0 ->
       forall q, q <> P -> heap w' !! q = heap wb !! q) /\
    uniform_at P "objectTexture" w' = Some (USampler2D 0) /\
    uniform_at P "bUseLighting" w' = Some (UInt 1) /\
    generated_framebuffers calls =
      (if m_shadowFBO (scene wb) =? 0 then [fb] else []) /\
    new_managers calls =
      (if m_pDepthShaderManager (scene wb) =? 0 then [ds] else []) /\
    mesh_loads calls = [0; 1; 2] /\ deleted_textures calls = [].
Proof.
  intros Hstone Hgrass HP Hlive Hn Hwf Hds.
  destruct (BindGLTextures_live_run wb P HP Hlive Hn Hwf)
    as (w2 & Hbind & Hsame & Hbound & _ & Hact).
  assert (Hs2 : scene w2 = scene wb) by (rewrite Hsame; reflexivity).
  assert (Hh2 : heap w2 = heap wb) by (rewrite Hsame; reflexivity).
  assert (Hlive2 : live P w2).
  { destruct Hlive as [H0 Hsome]. split; [exact H0|]. rewrite Hh2. exact Hsome. }
  pose proof (live_store P P "objectTexture" (USampler2D 0) w2 Hlive2) as Hlive3.
  destruct (PrepareScene_lighting_run P _ Hlive3)
    as (w4 & c4 & Hlight & Hsame4 & Hlive4 & Hheap4 & Hobj4 & Hlit4 & _ & _).
  assert (Hs4 : scene w4 = scene wb) by (rewrite Hsame4; exact Hs2).
  assert (Hg4 : gl w4 = gl w2) by (rewrite Hsame4; reflexivity).
  destruct (PrepareScene_shadowMap_run fb w4)
    as (w5 & c5 & Hshadow & Hs5 & Hg5 & Hw5 & Hgen5 & Hnew5 & Hmesh5 & Hdel5).
  assert (Hn2 : gl_next_name (gl w2) = gl_next_name (gl wb))
    by (rewrite Hsame; reflexivity).
  rewrite Hs4, Hg4, Hn2 in Hs5, Hg5. rewrite Hs4 in Hgen5.
  assert (Hd5 : m_pDepthShaderManager (scene w5)
                = m_pDepthShaderManager (scene wb)).
  { rewrite Hs5. destruct (m_shadowFBO (scene wb) =? 0); reflexivity. }
  destruct (PrepareScene_depthShader_run ds w5)
    as (w6 & c6 & Hdepth & Hs6 & Hh6 & Hw6 & Hnew6 & Hgen6 & Hmesh6 & Hdel6).
  { rewrite Hd5. intros H0. apply Hds. exact H0. }
  rewrite Hd5 in Hs6, Hh6, Hnew6.
  assert (Hh5 : heap w5 = heap w4) by (rewrite Hw5; reflexivity).
  assert (Hg6 : gl w6 = gl w5) by (rewrite Hw6; reflexivity).
  assert (Hrest : view w6 = view wb /\ g_pCamera w6 = g_pCamera wb /\
                  files w6 = files wb /\ keys w6 = keys wb /\
                  clock w6 = clock wb).
  { rewrite Hw6, Hw5, Hsame4.
    cbn [view g_pCamera files keys clock with_heap with_scene with_gl store].
    rewrite Hsame. repeat split; reflexivity. }
  assert (HP6 : heap w6 !! P = heap w4 !! P).
  { rewrite Hh6, Hh5.
    destruct (Z.eqb_spec (m_pDepthShaderManager (scene wb)) 0) as [E|E];
      [|reflexivity].
    apply lookup_insert_ne. apply (Hds E). }
  exists w2, w6. eexists. split.
  { unfold PrepareScene.
    eapply sbind_run; [apply lift_run; exact Hstone|]. cbv beta.
    eapply sbind_run; [apply lift_run; exact Hgrass|]. cbv beta.
    eapply sbind_run; [apply lift_run; exact Hbind|]. cbv beta.
    eapply sbind_nil_run; [reflexivity|]. cbv beta.
    eapply sbind_run.
    { change (m_pShaderManager
                (scene (store P "objectTexture" (USampler2D 0) w2)))
        with (m_pShaderManager (scene w2)).
      rewrite Hs2, HP, (nonnull_test _ (proj1 Hlive)).
      apply lift_run. exact Hlight. }
    cbv beta.
    eapply sbind_run; [reflexivity|]. cbv beta.
    eapply sbind_run; [reflexivity|]. cbv beta.
    eapply sbind_run; [reflexivity|]. cbv beta.
    eapply sbind_run; [exact Hshadow|]. cbv beta. exact Hdepth. }
  split; [exact Hsame|]. split; [exact Hbound|]. split; [exact Hact|].
  split.
  { rewrite Hs6, Hs5.
    destruct (m_pDepthShaderManager (scene wb) =? 0),
      (m_shadowFBO (scene wb) =? 0); reflexivity. }
  split.
  { rewrite Hg6, Hg5. reflexivity. }
  destruct Hrest as (Hv & Hc & Hf & Hk & Hcl).
  split; [exact Hv|]. split; [exact Hc|]. split; [exact Hf|].
  split; [exact Hk|]. split; [exact Hcl|].
  split.
  { destruct Hlive4 as [H0 Hsome]. split; [exact H0|]. rewrite HP6. exact Hsome. }
  split.
  { intros E. split; [apply (Hds E)|].
    rewrite Hh6, (proj2 (Z.eqb_eq _ _) E), lookup_insert_eq. eexists; reflexivity. }
  assert (Hother : forall q, q <> P -> heap w4 !! q = heap wb !! q).
  { intros q Hq. rewrite (Hheap4 q Hq), heap_store_ne by exact Hq.
    rewrite Hh2. reflexivity. }
  split.
  { intros q Hq Hqd. rewrite Hh6, Hh5.
    destruct (m_pDepthShaderManager (scene wb) =? 0);
      [rewrite lookup_insert_ne by congruence|]; apply Hother; exact Hq. }
  split.
  { intros E q Hq. rewrite Hh6, Hh5, (proj2 (Z.eqb_neq _ _) E).
    apply Hother. exact Hq. }
  split.
  { rewrite (uniform_at_same_heap _ _ _ _ HP6), Hobj4.
    apply uniform_at_store. exact Hlive2. }
  split.
  { rewrite (uniform_at_same_heap _ _ _ _ HP6). exact Hlit4. }
  rewrite !generated_framebuffers_app, !new_managers_app, !mesh_loads_app,
    !deleted_textures_app.
  rewrite !generated_framebuffers_frame, !new_managers_frame, !mesh_loads_frame,
    !deleted_textures_frame.
  rewrite Hgen5, Hgen6, Hnew5, Hnew6, Hmesh5, Hmesh6, Hdel5, Hdel6.
  cbn [app generated_framebuffers new_managers mesh_loads deleted_textures
       omap list_omap].
  rewrite !app_nil_r. repeat split; reflexivity.
Qed.

(** X23. PrepareScene makes the scene renderable.  On a freshly
    constructed scene manager with a live shader manager, both texture
    files decoding to 3 or 4 channels, PrepareScene returns: stone and
    grass are registered in slots 0 and 1 with the two texture names it
    generated, the shadow framebuffer, its depth texture (the third name)
    and the depth-only shader manager exist, the meshes are loaded and the
    default framebuffer is bound again.  Both passes of a frame then run
    to completion.  Unit 0 holds the stone texture, but unit 1 holds the
    shadow depth texture rather than grass: the shadow map is created on
    the unit BindGLTextures left selected. *)
Theorem PrepareScene_makes_the_scene_renderable fb ds P w img_s img_g :
  scene w = SceneManager_new P -> live P w ->
  files w !! "textures/stone.png" = Some img_s ->
  colorChannels img_s = 3 \/ colorChannels img_s = 4 ->
  files w !! "textures/grass.png" = Some img_g ->
  colorChannels img_g = 3 \/ colorChannels img_g = 4 ->
  fb <> 0 -> ds <> 0 -> heap w !! ds = None -> 0 < gl_next_name (gl w) ->
  exists w' calls,
    PrepareScene fb ds w = Done tt w' calls /\
    m_loadedTextures (scene w') = 2 /\
    m_textureIDs (scene w') !! 0%nat
      = Some {| tex_tag := "stone"; ID := gl_next_name (gl w) |} /\
    m_textureIDs (scene w') !! 1%nat
      = Some {| tex_tag := "grass"; ID := gl_next_name (gl w) + 1 |} /\
    m_shadowFBO (scene w') = fb /\
    m_shadowDepthTexture (scene w') = gl_next_name (gl w) + 2 /\
    m_pDepthShaderManager (scene w') = ds /\
    shadow_ready w' /\ live P w' /\ registry_wf (scene w') /\
    gl_framebuffer (gl w') = 0 /\
    gl_texture_2d (gl w') !! 0 = Some (gl_next_name (gl w)) /\
    gl_texture_2d (gl w') !! 1 = Some (gl_next_name (gl w) + 2) /\
    generated_framebuffers calls = [fb] /\ new_managers calls = [ds] /\
    mesh_loads calls = [0; 1; 2] /\
    forall p d, exists w1 c1 w2 c2,
      RenderShadowMap p d w' = Ok tt w1 c1 /\ RenderScene w1 = Ok tt w2 c2.
Proof.
  intros Hscene Hlive Hfs Hcs Hfg Hcg Hfb Hds Hfresh Hname.
  assert (HdsP : ds <> P).
  { intros ->. destruct Hlive as [_ [sh Hsh]]. congruence. }
  pose proof (CreateGLTexture_run "textures/stone.png" "stone" w img_s Hfs Hcs
                ltac:(rewrite Hscene; cbn; lia)
                ltac:(rewrite Hscene; cbn; registry_size))
    as Hstone.
  rewrite Hscene in Hstone.
  cbn [m_loadedTextures m_textureIDs SceneManager_new] in Hstone.
  match type of Hstone with _ = Ok true ?wa _ =>
    pose proof (CreateGLTexture_run "textures/grass.png" "grass" wa img_g Hfg Hcg
                  ltac:(cbn; lia) ltac:(cbn; registry_size)) as Hgrass end.
  cbn [scene gl with_scene with_gl set_registry set_texture_2d set_next_name
       gl_next_name m_loadedTextures m_textureIDs] in Hgrass.
  match type of Hgrass with _ = Ok true ?wb _ =>
    destruct (PrepareScene_effects fb ds _ _ _ _ _ wb _ P Hstone Hgrass)
      as (w2 & w' & calls & Hrun & Hsame & Hbound & Hact & Hsc & Hgl & _ & _ &
          _ & _ & _ & HliveP & Hlived & _ & _ & _ & _ & Hgen & Hnew & Hmesh & _)
  end.
  { cbn. rewrite Hscene. reflexivity. }
  { exact Hlive. }
  { cbn; lia. }
  { unfold registry_wf. cbn. registry_size. }
  { intros _. split; assumption. }
  cbn [scene gl with_scene with_gl set_registry set_texture_2d set_next_name
       gl_next_name m_loadedTextures m_textureIDs m_shadowFBO
       m_pDepthShaderManager] in *.
  rewrite Hscene in *.
  cbn [m_shadowFBO m_pDepthShaderManager SceneManager_new] in *.
  change (0 =? 0) with true in *. change (0 <? 0 + 1 + 1) with true in *.
  cbv iota in Hsc, Hgl, Hgen, Hnew, Hact.
  assert (Hready : shadow_ready w').
  { unfold shadow_ready. rewrite Hsc. cbn. split; [exact Hfb|].
    apply Hlived. reflexivity. }
  assert (Hwf : registry_wf (scene w')).
  { unfold registry_wf. rewrite Hsc. cbn. registry_size. }
  assert (HP' : m_pShaderManager (scene w') = P) by (rewrite Hsc; reflexivity).
  exists w', calls. split; [exact Hrun|].
  split; [rewrite Hsc; reflexivity|]. split; [rewrite Hsc; reflexivity|].
  split; [rewrite Hsc; reflexivity|]. split; [rewrite Hsc; reflexivity|].
  split; [rewrite Hsc; cbn; lia|]. split; [rewrite Hsc; reflexivity|].
  split; [exact Hready|]. split; [exact HliveP|]. split; [exact Hwf|].
  rewrite Hgl. cbn [gl_framebuffer gl_texture_2d set_framebuffer set_texture_2d].
  split; [reflexivity|].
  rewrite Hact.
  split.
  { rewrite lookup_insert_ne by lia.
    apply (Hbound 0 {| tex_tag := "stone"; ID := gl_next_name (gl w) |});
      [lia|reflexivity]. }
  split.
  { replace (0 + 1 + 1 - 1) with 1 by lia. rewrite lookup_insert_eq.
    f_equal. lia. }
  split; [exact Hgen|]. split; [exact Hnew|]. split; [exact Hmesh|].
  intros p d.
  destruct (RenderShadowMap_run p d w' Hready)
    as (w1 & c1 & Hrun1 & Hs1 & _ & _ & _ & _ & _ & _ & Hlive1 & _).
  assert (Hl1 : live (m_pShaderManager (scene w1)) w1).
  { rewrite Hs1. cbn [m_pShaderManager set_spotLightSpaceMatrix].
    rewrite HP'. apply Hlive1. exact HliveP. }
  assert (Hwf1 : registry_wf (scene w1)) by (rewrite Hs1; exact Hwf).
  destruct (RenderScene_effects w1 Hl1 Hwf1)
    as (ss & is_ & sg & ig & w3 & c3 & _ & _ & _ & _ & Hrun3 & _).
  exists w1, c1, w3, c3. split; [exact Hrun1|exact Hrun3].
Qed.

(** X24. Missing texture files are ignored.  When neither texture file
    can be decoded, PrepareScene still returns and creates the shadow
    resources; nothing is registered, so every tag lookup gives -1, and the
    shadow depth texture is bound on the unit that was selected at entry.
    The colour pass that follows still draws the plane and the three mug
    parts with texturing on, all of them sampling unit 0, and binds no
    texture for them: its only texture binds are the two of the shadow
    map. *)
Theorem PrepareScene_ignores_missing_textures fb ds P w :
  scene w = SceneManager_new P -> live P w ->
  files w !! "textures/stone.png" = None ->
  files w !! "textures/grass.png" = None ->
  fb <> 0 -> ds <> 0 -> heap w !! ds = None -> 0 < gl_next_name (gl w) ->
  exists w' calls w2 c2,
    PrepareScene fb ds w = Done tt w' calls /\
    m_loadedTextures (scene w') = 0 /\
    m_shadowDepthTexture (scene w') = gl_next_name (gl w) /\
    shadow_ready w' /\
    gl_texture_2d (gl w') !! gl_active_texture (gl w)
      = Some (gl_next_name (gl w)) /\
    (forall tag,
       FindTextureSlot tag w' = Ok (-1) w' [] /\
       FindTextureID tag w' = Ok (-1) w' []) /\
    RenderScene w' = Ok tt w2 c2 /\
    (forall prev,
       draws_with_uniform P "bUseTexture" prev c2 =
         zip (map (fun b : bool => Some (UInt (if b then 1 else 0)))
                [true; false; false; true; true; false; false; true])
             color_meshes) /\
    (forall prev,
       draws_with_uniform P "objectTexture" prev c2 =
         zip (replicate 8 (Some (USampler2D 0))) color_meshes) /\
    texture_binds c2 = [gl_next_name (gl w); gl_next_name (gl w)].
Proof.
  intros Hscene Hlive Hfs Hfg Hfb Hds Hfresh Hname.
  assert (HdsP : ds <> P).
  { intros ->. destruct Hlive as [_ [sh Hsh]]. congruence. }
  pose proof (CreateGLTexture_missing "textures/stone.png" "stone" w Hfs)
    as Hstone.
  pose proof (CreateGLTexture_missing "textures/grass.png" "grass" w Hfg)
    as Hgrass.
  destruct (PrepareScene_effects fb ds _ _ _ _ _ w _ P Hstone Hgrass)
    as (w2 & w' & calls & Hrun & Hsame & Hbound & Hact & Hsc & Hgl & _ & _ &
        _ & _ & _ & HliveP & Hlived & _ & _ & _ & _ & _).
  { rewrite Hscene. reflexivity. }
  { exact Hlive. }
  { rewrite Hscene. cbn. lia. }
  { unfold registry_wf. rewrite Hscene. cbn. lia. }
  { intros _. split; assumption. }
  rewrite Hscene in Hsc, Hgl, Hact.
  cbn [m_shadowFBO m_pDepthShaderManager m_loadedTextures SceneManager_new]
    in Hsc, Hgl, Hact.
  change (0 =? 0) with true in *. change (0 <? 0) with false in *.
  cbv iota in Hsc, Hgl, Hact.
  assert (Hcount : m_loadedTextures (scene w') = 0) by (rewrite Hsc; reflexivity).
  assert (HD : m_shadowDepthTexture (scene w') = gl_next_name (gl w))
    by (rewrite Hsc; reflexivity).
  assert (HP' : m_pShaderManager (scene w') = P) by (rewrite Hsc; reflexivity).
  assert (Hready : shadow_ready w').
  { unfold shadow_ready. rewrite Hsc. cbn. split; [exact Hfb|].
    apply Hlived. rewrite Hscene. reflexivity. }
  assert (Hwf : registry_wf (scene w')).
  { unfold registry_wf. rewrite Hcount. cbn. lia. }
  assert (Hfind : forall tag,
            FindTextureSlot tag w' = Ok (-1) w' [] /\
            FindTextureID tag w' = Ok (-1) w' []).
  { intros tag. unfold FindTextureSlot, FindTextureID. rewrite Hcount.
    split; reflexivity. }
  assert (Hl : live (m_pShaderManager (scene w')) w')
    by (rewrite HP'; exact HliveP).
  destruct (RenderScene_effects w' Hl Hwf)
    as (ss & is_ & sg & ig & w3 & c3 & Hs & His & Hg & Hig & Hrun3 & _ & _ &
        _ & _ & _ & Htex & Hobj & _ & _ & _ & _ & _ & Hbinds & _).
  rewrite (proj1 (Hfind "stone")) in Hs. injection Hs as <-.
  rewrite (proj2 (Hfind "stone")) in His. injection His as <-.
  rewrite (proj1 (Hfind "grass")) in Hg. injection Hg as <-.
  rewrite (proj2 (Hfind "grass")) in Hig. injection Hig as <-.
  rewrite HP' in Htex, Hobj. rewrite HD in Hbinds.
  rewrite (proj2 (Z.eqb_neq _ _) (Z.neq_sym _ _ (Z.lt_neq _ _ Hname))) in Hbinds.
  exists w', calls, w3, c3.
  split; [exact Hrun|]. split; [exact Hcount|]. split; [exact HD|].
  split; [exact Hready|]. split.
  { rewrite Hgl. cbn. rewrite Hact. apply lookup_insert_eq. }
  split; [exact Hfind|]. split; [exact Hrun3|]. split; [exact Htex|].
  split; [exact Hobj|]. exact Hbinds.
Qed.

(** One more PrepareScene on a scene manager that has had [j] of them. *)
Lemma PrepareScene_step fb ds P j w :
  prepared P j w -> (j < 8)%nat -> fb <> 0 -> ds <> 0 -> ds <> P ->
  exists w' calls,
    PrepareScene fb ds w = Done tt w' calls /\
    prepared P (S j) w' /\
    generated_framebuffers calls = (if j is O then [fb] else []) /\
    new_managers calls = (if j is O then [ds] else []) /\
    mesh_loads calls = [0; 1; 2].
Proof.
  intros (HP & Hlive & [is_ [Hfs Hcs]] & [ig [Hfg Hcg]] & Hlen & Hcount & Hj)
    Hlt Hfb Hds HdsP.
  unfold MAX_TEXTURES in Hlen.
  pose proof (CreateGLTexture_run "textures/stone.png" "stone" w is_ Hfs Hcs
                ltac:(lia) ltac:(lia)) as Hstone.
  match type of Hstone with _ = Ok true ?wa _ =>
    pose proof (CreateGLTexture_run "textures/grass.png" "grass" wa ig Hfg Hcg
                  ltac:(cbn; lia)
                  ltac:(cbn; rewrite length_insert; lia)) as Hgrass end.
  cbn [scene gl with_scene with_gl set_registry set_texture_2d set_next_name
       gl_next_name m_loadedTextures m_textureIDs] in Hgrass.
  match type of Hgrass with _ = Ok true ?wb _ =>
    destruct (PrepareScene_effects fb ds _ _ _ _ _ wb _ P Hstone Hgrass)
      as (w2 & w' & calls & Hrun & _ & _ & _ & Hsc & _ & _ & _ & Hfiles & _ &
          _ & HliveP & _ & _ & _ & _ & _ & Hgen & Hnew & Hmesh & _)
  end.
  { exact HP. }
  { exact Hlive. }
  { cbn; lia. }
  { unfold registry_wf. cbn. rewrite !length_insert. lia. }
  { intros _. split; assumption. }
  cbn [scene gl files with_scene with_gl set_registry set_texture_2d
       set_next_name m_loadedTextures m_textureIDs m_shadowFBO
       m_pDepthShaderManager] in Hsc, Hfiles, Hgen, Hnew.
  exists w', calls. split; [exact Hrun|].
  assert (Hfbo : (m_shadowFBO (scene w) =? 0) = (if j is O then true else false)).
  { destruct j; [rewrite (proj1 Hj); reflexivity|].
    apply Z.eqb_neq. apply Hj. }
  assert (Hdp : (m_pDepthShaderManager (scene w) =? 0)
                = (if j is O then true else false)).
  { destruct j; [rewrite (proj2 Hj); reflexivity|].
    apply Z.eqb_neq. apply Hj. }
  rewrite Hfbo in Hsc, Hgen. rewrite Hdp in Hsc, Hnew.
  split; [|split; [|split; [|exact Hmesh]]].
  - unfold prepared. rewrite Hsc.
    split; [destruct j; exact HP|].
    split; [exact HliveP|].
    split; [exists is_; rewrite Hfiles; auto|].
    split; [exists ig; rewrite Hfiles; auto|].
    split; [destruct j; cbn; rewrite !length_insert; exact Hlen|].
    split; [destruct j; cbn; lia|].
    split; [destruct j; [exact Hfb|apply Hj]|].
    split; [destruct j; [exact Hds|apply Hj]|].
    destruct j as [|j'].
    + cbn [m_textureIDs set_pDepthShaderManager set_shadowDepthTexture
           set_shadowFBO set_registry].
      rewrite Hcount.
      change (Z.to_nat (2 * Z.of_nat 0)) with 0%nat.
      change (Z.to_nat (2 * Z.of_nat 0 + 1)) with 1%nat.
      exists {| tex_tag := "stone"; ID := gl_next_name (gl w) |},
             {| tex_tag := "grass"; ID := gl_next_name (gl w) + 1 |}.
      split.
      { rewrite list_lookup_insert_ne by lia.
        apply list_lookup_insert_eq. lia. }
      split; [reflexivity|]. split; [|reflexivity].
      apply list_lookup_insert_eq. rewrite length_insert. lia.
    + destruct Hj as (_ & _ & e0 & e1 & He0 & Ht0 & He1 & Ht1).
      exists e0, e1. cbn.
      rewrite !list_lookup_insert_ne by lia. auto.
  - destruct j; exact Hgen.
  - destruct j; exact Hnew.
Qed.

Lemma PrepareScene_times_run fb ds P k :
  forall j w,
    prepared P j w -> (j + k <= 8)%nat -> fb <> 0 -> ds <> 0 -> ds <> P ->
    exists w' calls,
      PrepareScene_times k fb ds w = Done tt w' calls /\
      prepared P (j + k) w' /\
      generated_framebuffers calls
        = match j, k with O, S _ => [fb] | _, _ => [] end /\
      new_managers calls = match j, k with O, S _ => [ds] | _, _ => [] end /\
      length (mesh_loads calls) = (3 * k)%nat.
Proof.
  induction k as [|k IH]; intros j w Hinv Hjk Hfb Hds HdsP.
  - exists w, []. rewrite Nat.add_0_r. split; [reflexivity|].
    split; [exact Hinv|]. destruct j; repeat split; reflexivity.
  - destruct (PrepareScene_step fb ds P j w Hinv ltac:(lia) Hfb Hds HdsP)
      as (w1 & c1 & Hrun1 & Hinv1 & Hgen1 & Hnew1 & Hmesh1).
    destruct (IH (S j) w1 Hinv1 ltac:(lia) Hfb Hds HdsP)
      as (w' & c2 & Hrun2 & Hinv2 & Hgen2 & Hnew2 & Hmesh2).
    exists w', (c1 ++ c2). split.
    { cbn [PrepareScene_times]. eapply sbind_run; eassumption. }
    split.
    { replace (j + S k)%nat with (S j + k)%nat by lia. exact Hinv2. }
    rewrite generated_framebuffers_app, new_managers_app, mesh_loads_app,
      length_app, Hgen1, Hgen2, Hnew1, Hnew2, Hmesh1, Hmesh2.
    destruct j, k; cbn [app length]; repeat split; try reflexivity; lia.
Qed.

Lemma PrepareScene_times_overflow fb ds P k :
  forall j w,
    prepared P j w -> (j + k = 8)%nat -> fb <> 0 -> ds <> 0 -> ds <> P ->
    PrepareScene_times (S k) fb ds w = Failed OutOfBounds.
Proof.
  induction k as [|k IH]; intros j w Hinv Hjk Hfb Hds HdsP.
  - destruct Hinv as (HP & Hlive & [is_ [Hfs Hcs]] & _ & Hlen & Hcount & _).
    unfold MAX_TEXTURES in Hlen.
    cbn [PrepareScene_times]. unfold sbind at 1.
    assert (Hfail : PrepareScene fb ds w = Failed OutOfBounds).
    { unfold PrepareScene. unfold sbind at 1.
      rewrite (lift_failed _ _ _
                 (CreateGLTexture_full "textures/stone.png" "stone" w is_
                    Hfs Hcs ltac:(lia) ltac:(lia))).
      reflexivity. }
    rewrite Hfail. reflexivity.
  - destruct (PrepareScene_step fb ds P j w Hinv ltac:(lia) Hfb Hds HdsP)
      as (w1 & c1 & Hrun1 & Hinv1 & _).
    change (PrepareScene_times (S (S k)) fb ds)
      with (sbind (PrepareScene fb ds)
              (fun _ => PrepareScene_times (S k) fb ds)).
    eapply sbind_failed; [exact Hrun1|].
    apply (IH (S j) w1 Hinv1); [lia|assumption..].
Qed.

(** X25. PrepareScene is not repeatable.  Starting from a freshly
    constructed scene manager (live shader manager, both texture files
    decoding): each call registers stone and grass again, so after [k]
    calls (k up to 8) the registry holds [2k] entries, while the lookups
    keep returning the slots 0 and 1 of the first call; the meshes are
    loaded again on every call; the shadow framebuffer and the depth-only
    shader manager are created by the first call only.  The ninth call
    writes past the 16 entries of the registry. *)
Theorem PrepareScene_is_not_repeatable fb ds P w img_s img_g :
  scene w = SceneManager_new P -> live P w ->
  files w !! "textures/stone.png" = Some img_s ->
  colorChannels img_s = 3 \/ colorChannels img_s = 4 ->
  files w !! "textures/grass.png" = Some img_g ->
  colorChannels img_g = 3 \/ colorChannels img_g = 4 ->
  fb <> 0 -> ds <> 0 -> heap w !! ds = None ->
  (forall k, (k <= 8)%nat ->
     exists w' calls,
       PrepareScene_times k fb ds w = Done tt w' calls /\
       m_loadedTextures (scene w') = 2 * Z.of_nat k /\
       generated_framebuffers calls = (if k is O then [] else [fb]) /\
       new_managers calls = (if k is O then [] else [ds]) /\
       length (mesh_loads calls) = (3 * k)%nat /\
       (k <> 0%nat ->
          FindTextureSlot "stone" w' = Ok 0 w' [] /\
          FindTextureSlot "grass" w' = Ok 1 w' [])) /\
  PrepareScene_times 9 fb ds w = Failed OutOfBounds.
Proof.
  intros Hscene Hlive Hfs Hcs Hfg Hcg Hfb Hds Hfresh.
  assert (HdsP : ds <> P).
  { intros ->. destruct Hlive as [_ [sh Hsh]]. congruence. }
  assert (Hinv : prepared P 0 w).
  { unfold prepared, loadable. rewrite Hscene. cbn.
    split; [reflexivity|]. split; [exact Hlive|].
    split; [eauto|]. split; [eauto|].
    split; [apply length_replicate|]. auto. }
  split.
  - intros k Hk.
    destruct (PrepareScene_times_run fb ds P k 0%nat w Hinv ltac:(lia)
                Hfb Hds HdsP)
      as (w' & calls & Hrun & Hinv' & Hgen & Hnew & Hmesh).
    exists w', calls. split; [exact Hrun|].
    cbn [Nat.add] in Hinv'.
    destruct Hinv' as (_ & _ & _ & _ & Hlen & Hcount & Hk').
    split; [exact Hcount|].
    split; [destruct k; exact Hgen|]. split; [destruct k; exact Hnew|].
    split; [exact Hmesh|].
    intros Hne. destruct k as [|k']; [contradiction|].
    destruct Hk' as (_ & _ & e0 & e1 & He0 & Ht0 & He1 & Ht1).
    split.
    + apply FindTextureSlot_run.
      apply (Find_loops_first _ "stone" _ 0 0 e0); try lia; assumption.
    + apply FindTextureSlot_run.
      apply (Find_loops_first _ "grass" _ 0 1 e1); try lia; try assumption.
      intros i Hi. assert (i = 0) as -> by lia.
      exists e0. split; [exact He0|]. rewrite Ht0. discriminate.
  - apply (PrepareScene_times_overflow fb ds P 8 0%nat w Hinv); auto.
Qed.

End Prepare.

(** ** More theorems at concrete states *)

Module Examples.
Import Sample Scenes.

Lemma registered_main_live : live 1 registered.
Proof. split; [discriminate|]. eexists. reflexivity. Qed.

Lemma registered_wf : registry_wf (scene registered).
Proof. unfold registry_wf. cbn. lia. Qed.

Lemma material_main_live : live 1 material_world.
Proof. split; [discriminate|]. eexists. reflexivity. Qed.

Lemma no_files_main_live : live 1 no_files.
Proof. split; [discriminate|]. eexists. reflexivity. Qed.

Lemma frame_I_ready : view_ready 9 1 frame_I.
Proof.
  split; [reflexivity|]. split; [reflexivity|]. split; [discriminate|].
  split; [eexists; reflexivity|]. right.
  split; [discriminate|]. eexists. reflexivity.
Qed.

Lemma frame_I_wf : registry_wf (scene frame_I).
Proof. unfold registry_wf. cbn. lia. Qed.

Lemma texture_lookups_witness :
  exists slot,
    FindTextureSlot "grass" registered = Ok slot registered [] /\ 0 <= slot.
Proof.
  destruct (texture_lookups_agree "grass" registered registered_wf)
    as [(slot & e & Hslot & _ & _ & _ & Hs & _)|(Hnone & _)].
  - exists slot. split; [exact Hs|lia].
  - exfalso.
    apply (Hnone 1 {| tex_tag := "grass"; ID := 2 |});
      [split; [lia|reflexivity]|reflexivity|reflexivity].
Defined.

Lemma failure_paths_witness :
  CreateGLTexture "textures/none.png" "none" fresh =
    Ok false fresh [c_stbi_set_flip_vertically_on_load true;
                    c_stbi_load "textures/none.png"] /\
  exists w',
    CreateGLTexture "textures/grey.png" "grey" fresh =
      Ok false w'
        [c_stbi_set_flip_vertically_on_load true;
         c_stbi_load "textures/grey.png"; c_glGenTextures 1; c_glBindTexture 1;
         c_glTexParameteri GL_TEXTURE_WRAP_S GL_REPEAT;
         c_glTexParameteri GL_TEXTURE_WRAP_T GL_REPEAT;
         c_glTexParameteri GL_TEXTURE_MIN_FILTER GL_LINEAR;
         c_glTexParameteri GL_TEXTURE_MAG_FILTER GL_LINEAR] /\
      gl_texture_2d (gl w') !! 0 = Some 1.
Proof.
  split.
  - apply (proj1 (CreateGLTexture_failure_paths "textures/none.png" "none" fresh)).
    reflexivity.
  - destruct (proj2 (CreateGLTexture_failure_paths "textures/grey.png" "grey"
                       fresh) image1 eq_refl ltac:(discriminate)
                ltac:(discriminate))
      as (w' & Hrun & _ & Hbound & _).
    exists w'. split; [exact Hrun|exact Hbound].
Defined.

Lemma binds_in_order_witness :
  exists w',
    BindGLTextures registered =
      Ok tt w'
        [c_glActiveTexture 0; c_glBindTexture 1; c_glActiveTexture 1;
         c_glBindTexture 2; c_shader_set 1 "objectTexture" (USampler2D 0)] /\
    gl_active_texture (gl w') = 1.
Proof.
  destruct (BindGLTextures_binds_in_order registered ltac:(discriminate)
              registered_wf (or_intror registered_main_live))
    as (w1 & w' & Hrun & _ & _ & _ & _ & _ & Hact).
  exists w'. split; [exact Hrun|]. apply Hact. reflexivity.
Defined.

Lemma unbinds_last_unit_witness :
  exists w1 c1 w2 c2,
    BindGLTextures registered = Ok tt w1 c1 /\
    CreateGLTexture "textures/stone.png" "again" w1 = Ok true w2 c2 /\
    gl_texture_2d (gl w2) !! 1 = Some 0.
Proof.
  destruct (registration_after_binding_unbinds_last_unit "textures/stone.png"
              "again" registered image3 eq_refl (or_introl eq_refl)
              eq_refl ltac:(cbn; lia) (or_intror registered_main_live))
    as (w1 & c1 & w2 & c2 & H1 & H2 & _ & H0 & _).
  exists w1, c1, w2, c2. split; [exact H1|]. split; [exact H2|exact H0].
Defined.

Lemma known_tag_witness :
  fst (FindMaterial (scene material_world) "ceramic" garbage) = true /\
  exists w',
    SetShaderMaterial "ceramic" garbage material_world =
      Ok tt w'
        [c_shader_set 1 "material.diffuseColor"
           (UVec3 (vec3_splat (F32.lit 1 1)));
         c_shader_set 1 "material.specularColor"
           (UVec3 (vec3_splat (F32.lit 5 10)));
         c_shader_set 1 "material.shininess" (UFloat (F32.lit 32 1))].
Proof.
  destruct (SetShaderMaterial_known_tag "ceramic" garbage material_world
              [] ceramic [] eq_refl (Forall_nil_2 _) eq_refl material_main_live)
    as (Hfind & w' & Hrun & _).
  split; [rewrite Hfind; reflexivity|]. exists w'. exact Hrun.
Defined.

Lemma null_shader_manager_witness :
  SetShaderTexture "stone" no_shader = Ok tt no_shader [] /\
  RenderScene no_shader = Crash NullDereference.
Proof.
  destruct (null_shader_manager no_shader eq_refl)
    as (_ & _ & Htex & _ & _ & Hscene).
  split; [apply Htex|exact Hscene].
Defined.

Lemma unknown_tag_witness :
  exists w',
    SetShaderTexture "stone" fresh =
      Ok tt w'
        [c_shader_set 1 "bUseTexture" (UInt 1); c_glActiveTexture 0;
         c_shader_set 1 "objectTexture" (USampler2D 0)] /\
    gl_texture_2d (gl w') = gl_texture_2d (gl fresh).
Proof.
  destruct (SetShaderTexture_unknown_tag "stone" fresh Witness.fresh_main_live
              Witness.fresh_registry_wf)
    as (w' & Hrun & _ & Hsame & _).
  { intros k e Hk. cbn in Hk. lia. }
  exists w'. split; [exact Hrun|exact Hsame].
Defined.

Lemma registered_tag_witness :
  exists w',
    SetShaderTexture "grass" registered =
      Ok tt w'
        [c_shader_set 1 "bUseTexture" (UInt 1); c_glActiveTexture 1;
         c_glBindTexture 2; c_shader_set 1 "objectTexture" (USampler2D 1)] /\
    gl_texture_2d (gl w') !! 1 = Some 2.
Proof.
  destruct (SetShaderTexture_registered_tag "grass" registered 1
              {| tex_tag := "grass"; ID := 2 |} registered_main_live
              registered_wf ltac:(split; [lia|reflexivity]) eq_refl eq_refl)
    as (w' & Hrun & _ & Hbound & _).
  { intros k e' Hk. assert (k = 0) as -> by lia.
    intros [= <-]. discriminate. }
  { cbn. lia. }
  exists w'. split; [exact Hrun|]. apply Hbound. cbn. lia.
Defined.

Lemma color_pass_shading_witness :
  exists w' calls,
    RenderScene fresh = Ok tt w' calls /\
    draws_with_uniform 1 "objectTexture" None calls =
      zip (replicate 8 (Some (USampler2D 0))) color_meshes.
Proof.
  destruct (color_pass_shading fresh Witness.fresh_main_live
              Witness.fresh_registry_wf)
    as (ss & sg & w' & calls & Hs & Hg & Hrun & Hdraws).
  injection Hs as <-. injection Hg as <-.
  exists w', calls. split; [exact Hrun|].
  destruct (Hdraws None) as (_ & Ho & _). exact Ho.
Defined.

Lemma color_pass_frame_witness :
  exists w' calls,
    RenderScene fresh = Ok tt w' calls /\
    scene w' = scene fresh /\ program_uses calls = [].
Proof.
  destruct (RenderScene_frame_conditions fresh Witness.fresh_main_live
              Witness.fresh_registry_wf)
    as (w' & calls & Hrun & Hframe & Huse & _).
  exists w', calls. split; [exact Hrun|]. split; [apply Hframe|exact Huse].
Defined.

Lemma depth_pass_writes_witness :
  exists w' calls,
    RenderShadowMap light_position light_direction ready = Ok tt w' calls /\
    program_uses calls = [2] /\ heap w' !! 1 = heap ready !! 1.
Proof.
  destruct (RenderShadowMap_writes_only_the_depth_shader light_position
              light_direction ready Witness.ready_shadow_ready)
    as (w' & calls & Hrun & Huse & _ & Hother & _).
  exists w', calls. split; [exact Hrun|]. split; [exact Huse|].
  apply (Hother 1). discriminate.
Defined.

Lemma depth_pass_matrix_witness :
  exists w1 c1 w2 c2,
    RenderShadowMap light_position light_direction ready = Ok tt w1 c1 /\
    RenderScene w1 = Ok tt w2 c2 /\
    uniform_at 1 "spotShadowMap" w2 = Some (USampler2D 7) /\
    gl_program (gl w2) = 2.
Proof.
  destruct (color_pass_uses_the_depth_pass_matrix light_position
              light_direction ready Witness.ready_shadow_ready
              ltac:(discriminate) Witness.ready_main_live ltac:(discriminate)
              Witness.fresh_registry_wf)
    as (w1 & c1 & w2 & c2 & H1 & H2 & _ & _ & _ & _ & Hs & _ & _ & _ & Hp).
  exists w1, c1, w2, c2. auto.
Defined.

Lemma projection_keys_witness :
  exists w',
    ProcessProjectionKeys frame_O = Ok tt w' [] /\
    m_bPerspectiveProjection (view w') = false /\
    m_bOKeyPressed (view w') = true.
Proof.
  destruct (ProcessProjectionKeys_edge_triggered frame_O ltac:(discriminate))
    as (w' & Hrun & _ & _ & _ & HO & Hmode & _).
  exists w'. split; [exact Hrun|]. split; [exact Hmode|exact HO].
Defined.

Lemma pushes_the_camera_witness :
  exists w' calls,
    PrepareSceneView frame_I = Ok tt w' calls /\
    gLastFrame w' = F32.lit 1 60 /\
    uniform_at 1 "viewPosition" w' = Some (UVec3 (GetCameraPosition w')).
Proof.
  destruct (PrepareSceneView_pushes_the_moved_camera 9 1 frame_I frame_I_ready
              ltac:(discriminate))
    as (w' & calls & cam' & Hrun & _ & _ & Hlast & _ & Hwrites & Hheld).
  exists w', calls. split; [exact Hrun|]. split; [exact Hlast|].
  rewrite Hwrites in Hheld.
  apply (proj1 (Forall_lookup _ _) Hheld 2%nat _ eq_refl).
Defined.

Lemma prepare_view_frame_witness :
  exists w' calls,
    PrepareSceneView frame_I = Ok tt w' calls /\
    scene w' = scene frame_I /\ gl w' = gl frame_I.
Proof.
  destruct (PrepareSceneView_frame_conditions 9 1 frame_I frame_I_ready)
    as (w' & calls & Hrun & Hs & Hg & _).
  exists w', calls. auto.
Defined.

Lemma ripple_control_witness :
  exists w1 c1 w2 c2,
    PrepareSceneView frame_I = Ok tt w1 c1 /\
    RenderScene w1 = Ok tt w2 c2 /\
    uniform_at 1 "rippleAmplitude" w2 = Some (UFloat (F32.lit 10 100)).
Proof.
  destruct (ripple_control_does_not_reach_the_liquid 9 1 frame_I frame_I_ready
              ltac:(discriminate) eq_refl frame_I_wf)
    as (w1 & c1 & w2 & c2 & H1 & H2 & _ & _ & _ & Hafter).
  exists w1, c1, w2, c2. auto.
Defined.

Lemma frames_run_witness :
  exists w1 c1,
    bind (ViewManager_ctor 1 camera0)
      (fun _ => CreateDisplayWindow "scene" 9) fresh = Ok 9 w1 c1 /\
    exists w c, frames [env_I; env_U; env_O] w1 = Ok tt w c.
Proof.
  destruct (frames_run_once_the_window_exists 1 camera0 "scene" 9 fresh
              (or_intror Witness.fresh_main_live))
    as (w1 & c1 & Hrun & _ & _ & Hframes).
  exists w1, c1. split; [exact Hrun|].
  destruct (Hframes ltac:(discriminate)) as [_ Hall].
  destruct (Hall [env_I; env_U; env_O]) as (w & c & H & _). eauto.
Defined.

Lemma scroll_witness :
  exists speed,
    Mouse_Scroll_Callback notch notch fresh
      = Ok tt (with_camera (Some (set_MovementSpeed speed camera0)) fresh) [] /\
    in_range (F32.lit 1 1) (F32.lit 100 1) speed.
Proof.
  destruct (scroll_keeps_the_speed_in_range notch notch fresh camera0 eq_refl
              eq_refl)
    as (speed & Hrun & Hrange & _).
  exists speed. split; [exact Hrun|]. apply Hrange. reflexivity.
Defined.

Lemma first_mouse_event_witness :
  exists m',
    Mouse_Position_Callback still Mouse_initial x500 y400 fresh
      = Ok m' (with_camera (Some camera0) fresh) [] /\
    gFirstMouse m' = false.
Proof.
  eexists. split.
  - exact (first_mouse_event_has_zero_offsets still Mouse_initial x500 y400
             fresh camera0 eq_refl eq_refl eq_refl eq_refl eq_refl eq_refl).
  - reflexivity.
Defined.

Lemma destroy_textures_witness :
  exists w',
    DestroyGLTextures registered =
      Done tt w' [s_glDeleteTextures 1; s_glDeleteTextures 2] /\
    m_loadedTextures (scene w') = 0 /\
    FindTextureSlot "stone" w' = Ok (-1) w' [].
Proof.
  destruct (DestroyGLTextures_deletes_each_texture_once registered
              registered_wf)
    as (w' & Hrun & Hcount & _ & _ & _ & Hfind & _).
  exists w'. split; [exact Hrun|]. split; [exact Hcount|]. apply Hfind.
Defined.

Lemma destructor_witness :
  exists w',
    SceneManager_dtor ready =
      Done tt w'
        [s_delete_ShapeMeshes; s_glDeleteTextures 6; s_glDeleteFramebuffers 5;
         s_delete_ShaderManager 2] /\
    heap w' !! 1 = heap ready !! 1 /\ heap w' !! 2 = None.
Proof.
  destruct (destructor_frees_the_shadow_resources_only ready
              (or_intror (proj2 (proj2 Witness.ready_shadow_ready))))
    as (w' & Hrun & _ & _ & _ & _ & _ & _ & Hother & Hgone & _).
  exists w'. split; [exact Hrun|]. split.
  - apply Hother. discriminate.
  - apply Hgone. discriminate.
Defined.

Lemma prepare_scene_witness :
  exists w' calls,
    PrepareScene 5 2 fresh = Done tt w' calls /\
    shadow_ready w' /\
    gl_texture_2d (gl w') !! 0 = Some 1 /\ gl_texture_2d (gl w') !! 1 = Some 3.
Proof.
  destruct (PrepareScene_makes_the_scene_renderable 5 2 1 fresh image3 image4
              eq_refl Witness.fresh_main_live eq_refl (or_introl eq_refl)
              eq_refl (or_intror eq_refl) ltac:(discriminate)
              ltac:(discriminate) eq_refl eq_refl)
    as (w' & calls & Hrun & _ & _ & _ & _ & _ & _ & Hready & _ & _ & _ & H0 &
        H1 & _).
  exists w', calls. auto.
Defined.

Lemma missing_textures_witness :
  exists w' calls w2 c2,
    PrepareScene 5 2 no_files = Done tt w' calls /\
    m_loadedTextures (scene w') = 0 /\
    RenderScene w' = Ok tt w2 c2 /\ texture_binds c2 = [1; 1].
Proof.
  destruct (PrepareScene_ignores_missing_textures 5 2 1 no_files eq_refl
              no_files_main_live eq_refl eq_refl ltac:(discriminate)
              ltac:(discriminate) eq_refl eq_refl)
    as (w' & calls & w2 & c2 & Hrun & Hcount & _ & _ & _ & _ & Hrun2 & _ & _ &
        Hbinds).
  exists w', calls, w2, c2. auto.
Defined.

Lemma not_repeatable_witness :
  (exists w' calls,
     PrepareScene_times 8 5 2 fresh = Done tt w' calls /\
     m_loadedTextures (scene w') = 16 /\
     generated_framebuffers calls = [5]) /\
  PrepareScene_times 9 5 2 fresh = Failed OutOfBounds.
Proof.
  destruct (PrepareScene_is_not_repeatable 5 2 1 fresh image3 image4
              eq_refl Witness.fresh_main_live eq_refl (or_introl eq_refl)
              eq_refl (or_intror eq_refl) ltac:(discriminate)
              ltac:(discriminate) eq_refl)
    as [Hall Hninth].
  split; [|exact Hninth].
  destruct (Hall 8%nat ltac:(lia)) as (w' & calls & Hrun & Hcount & Hgen & _).
  exists w', calls. auto.
Defined.

End Examples.
